(** * Utah golf tee-time backend: scrapers, cache-aside and aggregation

    A shallow embedding of the two variants of the Express server kept in
    this repository: [server.js] (module [Server] below) and the second
    variant, the one with the batch endpoint (module [Part001] below).
    What the two share (the ForeUp scraper, the factory, the page
    callback of GolfNow) is defined once.

    Conventions of the model:
    - JavaScript values are an inductive type; numbers are exact rationals
      with [NaN] and the infinities; strings are sequences of code units
      below 256.
    - [async] code is a state-and-exception monad over a [World] and runs
      to completion in program order: the callbacks of [Promise.all] and
      [Promise.allSettled] run one after the other, in the order of the
      array.
    - Redis is a finite map from keys to entries with an expiry time.  It
      answers every read; a deletion may be rejected; and the client has
      no method [setex], so that the scrapers never write to it: what it
      holds was put there by others.  The string stored under a key is
      represented by the value it parses to.
    - The booking sites are oracles kept in the world: the [n]-th request
      sent is logged, takes the time the oracle says and gets the answer
      the oracle gives, which may be a failure. *)

From Stdlib Require Import ZArith QArith Qabs Qround String Ascii List Bool Lia.
From stdpp Require Import base option gmap strings.
Import ListNotations.

Close Scope Q_scope.
Set Warnings "-register-all".
Local Open Scope string_scope.
Local Open Scope Z_scope.

(** ** JavaScript values *)

(** Numbers are idealised: a finite number is an exact rational, so that
    decimal literals carry no rounding.  [NaN] and the two infinities are
    kept, because truthiness, comparison and JSON serialisation treat them
    specially. *)
Inductive number : Type :=
| NaN
| Infinity (negative : bool)
| Fin (q : Q).

Inductive JsVal : Type :=
| JUndefined
| JNull
| JBool (b : bool)
| JNum (n : number)
| JStr (s : string)
| JArr (items : list JsVal)
| JObj (fields : list (string * JsVal)).

Definition num (z : Z) : JsVal := JNum (Fin (inject_Z z)).

(** Abrupt completions: what a [throw] carries. *)
Inductive JsError : Type :=
| TypeError
| NetworkError
| TimeoutError
| ProtocolError.

Inductive completion (A : Type) : Type :=
| Normal (a : A)
| Throw (e : JsError).
Arguments Normal {A} a.
Arguments Throw {A} e.

#[export] Instance completion_ret : MRet completion := fun _ a => Normal a.

#[export] Instance completion_bind : MBind completion := fun _ _ k c =>
  match c with
  | Normal a => k a
  | Throw e => Throw e
  end.

(** *** Truthiness and [||] *)

Definition number_truthy (n : number) : bool :=
  match n with
  | NaN => false
  | Infinity _ => true
  | Fin q => negb (Qeq_bool q 0)
  end.

Definition truthy (v : JsVal) : bool :=
  match v with
  | JUndefined | JNull => false
  | JBool b => b
  | JNum n => number_truthy n
  | JStr s => negb (String.eqb s "")
  | JArr _ | JObj _ => true
  end.

(** [a || b] *)
Definition jsOr (a b : JsVal) : JsVal := if truthy a then a else b.
Infix "|||" := jsOr (at level 50, left associativity).

(** [a === true] *)
Definition isTrue (v : JsVal) : bool :=
  match v with
  | JBool true => true
  | _ => false
  end.

(** *** Property access *)

Fixpoint assoc (k : string) (fs : list (string * JsVal)) : JsVal :=
  match fs with
  | [] => JUndefined
  | (k', v) :: rest => if String.eqb k k' then v else assoc k rest
  end.

(** [v.k] for the keys the scrapers read (none of them is a built-in
    property of a string, a number or an array): reading from [null] or
    [undefined] throws, reading from any other primitive gives
    [undefined]. *)
Definition getProp (v : JsVal) (k : string) : completion JsVal :=
  match v with
  | JUndefined | JNull => Throw TypeError
  | JObj fs => Normal (assoc k fs)
  | _ => Normal JUndefined
  end.

(** [v?.k] *)
Definition getPropOpt (v : JsVal) (k : string) : JsVal :=
  match v with
  | JObj fs => assoc k fs
  | _ => JUndefined
  end.

(** ** Strings *)

Definition isDigit (c : ascii) : bool :=
  let n := N_of_ascii c in (48 <=? n)%N && (n <=? 57)%N.

Definition digitVal (c : ascii) : Z := Z.of_N (N_of_ascii c) - 48.

(** White space, as [trim] and the number parsers skip it.  A character
    of the model is a code unit below 256, so of the white space of the
    language the tab, the line terminators, the space and the no-break
    space U+00A0 are there; texts with code units from 256 on are outside
    the model. *)
Definition isSpace (c : ascii) : bool :=
  let n := N_of_ascii c in
  (n =? 32)%N || ((9 <=? n)%N && (n <=? 13)%N) || (n =? 160)%N.

Fixpoint trimStart (s : string) : string :=
  match s with
  | String c r => if isSpace c then trimStart r else s
  | EmptyString => EmptyString
  end.

Fixpoint revString (s acc : string) : string :=
  match s with
  | EmptyString => acc
  | String c r => revString r (String c acc)
  end.

Definition trim (s : string) : string :=
  revString (trimStart (revString (trimStart s) "")) "".

(** The longest run of digits at the head of [s], as its value so far and
    its length, and the rest of the string. *)
Fixpoint takeDigits (s : string) (acc : Z) (len : nat) : Z * nat * string :=
  match s with
  | String c r =>
      if isDigit c then takeDigits r (10 * acc + digitVal c) (S len)
      else (acc, len, s)
  | EmptyString => (acc, len, s)
  end.

Definition takeSign (s : string) : bool * string :=
  match s with
  | String "-" r => (true, r)
  | String "+" r => (false, r)
  | _ => (false, s)
  end.

Definition signed (neg : bool) (z : Z) : Z := if neg then - z else z.

(** [m * 10^e] as an exact rational. *)
Definition scale10 (m e : Z) : Q :=
  if 0 <=? e then inject_Z (m * 10 ^ e)
  else Qred (Qmake m (Z.to_pos (10 ^ (- e)))).

Definition takeExponent (s : string) : Z :=
  match s with
  | String c r =>
      if Ascii.eqb c "e" || Ascii.eqb c "E" then
        let '(neg, r1) := takeSign r in
        let '(v, len, _) := takeDigits r1 0 0%nat in
        match len with O => 0 | _ => signed neg v end
      else 0
  | EmptyString => 0
  end.

(** [parseFloat] on a string: leading white space is skipped and the
    longest prefix that is a decimal literal is converted. *)
Definition parseFloatString (s : string) : number :=
  let '(neg, s1) := takeSign (trimStart s) in
  if String.prefix "Infinity" s1 then Infinity neg
  else
    let '(ip, ilen, s2) := takeDigits s1 0 0%nat in
    let '(m, flen, s3) :=
      match s2 with
      | String "." r => let '(v, len, r') := takeDigits r ip 0%nat in (v, len, r')
      | _ => (ip, 0%nat, s2)
      end in
    match ilen, flen with
    | O, O => NaN
    | _, _ => Fin (scale10 (signed neg m) (takeExponent s3 - Z.of_nat flen))
    end.

Definition isHexDigit (c : ascii) : bool :=
  let n := N_of_ascii c in
  isDigit c || ((65 <=? n)%N && (n <=? 70)%N) || ((97 <=? n)%N && (n <=? 102)%N).

Definition hexVal (c : ascii) : Z :=
  let n := Z.of_N (N_of_ascii c) in
  if isDigit c then n - 48 else if n <=? 70 then n - 55 else n - 87.

Fixpoint takeHex (s : string) (acc : Z) (len : nat) : Z * nat :=
  match s with
  | String c r =>
      if isHexDigit c then takeHex r (16 * acc + hexVal c) (S len) else (acc, len)
  | EmptyString => (acc, len)
  end.

(** [parseInt] on a string, with no radix argument. *)
Definition parseIntString (s : string) : number :=
  let '(neg, s1) := takeSign (trimStart s) in
  let hex r := let '(v, len) := takeHex r 0 0%nat in
               match len with O => NaN | _ => Fin (inject_Z (signed neg v)) end in
  match s1 with
  | String "0" (String "x" r) => hex r
  | String "0" (String "X" r) => hex r
  | _ =>
      let '(v, len, _) := takeDigits s1 0 0%nat in
      match len with O => NaN | _ => Fin (inject_Z (signed neg v)) end
  end.

(** [parseFloat(v)] converts [v] to a string first.  A number prints and
    parses back to itself; [true], [null], [undefined] and plain objects
    print as words; an array prints its elements separated by commas, so
    only its first element can contribute.  The conversion to a string
    throws a type error for an object that has an own property
    [toString] (which, in a value read from JSON, is not callable), and
    for an array with such an element: the function is for the other
    arguments, and statements that rest on it say so with [noToString]
    where the argument is not a literal. *)
Fixpoint parseFloat (v : JsVal) : number :=
  match v with
  | JNum n => n
  | JStr s => parseFloatString s
  | JArr (x :: _) =>
      match x with
      | JUndefined | JNull => NaN
      | _ => parseFloat x
      end
  | _ => NaN
  end.

Definition truncate (q : Q) : Q := inject_Z (Z.quot (Qnum q) (Zpos (Qden q))).

(** A number prints in exponent notation when it is not zero and its
    magnitude is below 1e-6 or at least 1e21. *)
Definition printsExponent (q : Q) : bool :=
  negb (Qeq_bool q 0)
  && (Qle_bool (inject_Z (10 ^ 21)) (Qabs q)
      || negb (Qle_bool (1 # 1000000) (Qabs q))).

(** The first digit of an integer [z >= 1]. *)
Fixpoint firstDigit (fuel : nat) (z : Z) : Z :=
  match fuel with
  | O => z
  | S f => if z <? 10 then z else firstDigit f (z / 10)
  end.

(** The first digit that is not zero of [n/d], for [0 < n < d]. *)
Fixpoint firstDecimal (fuel : nat) (n d : Z) : Z :=
  match fuel with
  | O => n / d
  | S f => if d <=? n then n / d else firstDecimal f (10 * n) d
  end.

(** The first significant digit of a positive rational. *)
Definition leadingDigit (q : Q) : Z :=
  let n := Qnum q in
  let d := Zpos (Qden q) in
  if d <=? n then firstDigit (Z.to_nat (Z.log2 n)) (n / d)
  else firstDecimal (S (Z.to_nat (Z.log2 d))) n d.

(** [parseInt(v)]: as [parseFloat], but only the digits before the
    decimal point or the exponent of the printed value are read: the
    integer part of a number that prints in plain notation, and the first
    significant digit of one that prints in exponent notation
    ([parseInt(5e-7)] is 5).  The conversion to a string is as for
    [parseFloat]. *)
Fixpoint parseInt (v : JsVal) : number :=
  match v with
  | JNum (Fin q) =>
      if printsExponent q
      then Fin (inject_Z (signed (Qnum q <? 0) (leadingDigit (Qabs q))))
      else Fin (truncate q)
  | JStr s => parseIntString s
  | JArr (x :: _) =>
      match x with
      | JUndefined | JNull => NaN
      | _ => parseInt x
      end
  | _ => NaN
  end.

(** *** Regular expressions of the scrapers *)

Fixpoint digitRun (s : string) : string * string :=
  match s with
  | String c r =>
      if isDigit c then let '(ds, rest) := digitRun r in (String c ds, rest)
      else (EmptyString, s)
  | EmptyString => (EmptyString, EmptyString)
  end.

(** The suffix of [s] that starts at its first digit. *)
Fixpoint fromFirstDigit (s : string) : option string :=
  match s with
  | String c r => if isDigit c then Some s else fromFirstDigit r
  | EmptyString => None
  end.

(** Group 1 of [s.match(/\$?(\d+(?:\.\d{2})?)/)]: the match starts at the
    first digit of [s] (or at a dollar sign right before it) and the group
    is the digit run, with a point and two digits when they follow. *)
Definition matchPrice (s : string) : option string :=
  match fromFirstDigit s with
  | None => None
  | Some r =>
      let '(ds, rest) := digitRun r in
      match rest with
      | String "." (String a (String b _)) =>
          if isDigit a && isDigit b
          then Some (ds ++ String "." (String a (String b EmptyString)))%string
          else Some ds
      | _ => Some ds
      end
  end.

(** Group 1 of [s.match(/(\d+)/)]. *)
Definition matchDigits (s : string) : option string :=
  match fromFirstDigit s with
  | None => None
  | Some r => Some (fst (digitRun r))
  end.

Fixpoint stripPrefix (p s : string) : option string :=
  match p, s with
  | EmptyString, _ => Some s
  | String a p', String b s' => if Ascii.eqb a b then stripPrefix p' s' else None
  | String _ _, EmptyString => None
  end.

Definition nonEmpty (s : string) : bool := negb (String.eqb s "").

Definition matchBookingAt (s : string) : option (string * string) :=
  match stripPrefix "booking/" s with
  | None => None
  | Some r =>
      let '(a, r1) := digitRun r in
      match r1 with
      | String "/" r2 =>
          let b := fst (digitRun r2) in
          if nonEmpty a && nonEmpty b then Some (a, b) else None
      | _ => None
      end
  end.

(** Groups 1 and 2 of [s.match(/booking\/(\d+)\/(\d+)/)], leftmost match. *)
Fixpoint matchBooking (s : string) : option (string * string) :=
  match matchBookingAt s with
  | Some m => Some m
  | None =>
      match s with
      | String _ r => matchBooking r
      | EmptyString => None
      end
  end.

Fixpoint slugRun (s : string) : string :=
  match s with
  | String c r =>
      if Ascii.eqb c "/" || Ascii.eqb c "?" then EmptyString else String c (slugRun r)
  | EmptyString => EmptyString
  end.

(** Group 1 of [s.match(/course\/([^/?]+)/)], leftmost match. *)
Fixpoint matchCourse (s : string) : option string :=
  let here :=
    match stripPrefix "course/" s with
    | Some r => let g := slugRun r in if nonEmpty g then Some g else None
    | None => None
    end in
  match here with
  | Some g => Some g
  | None =>
      match s with
      | String _ r => matchCourse r
      | EmptyString => None
      end
  end.

Definition lowerChar (c : ascii) : ascii :=
  let n := N_of_ascii c in
  if (65 <=? n)%N && (n <=? 90)%N then ascii_of_N (n + 32) else c.

Fixpoint toLowerCase (s : string) : string :=
  match s with
  | String c r => String (lowerChar c) (toLowerCase r)
  | EmptyString => EmptyString
  end.

(** [s.includes(needle)] *)
Fixpoint includes (needle s : string) : bool :=
  match stripPrefix needle s with
  | Some _ => true
  | None =>
      match s with
      | String _ r => includes needle r
      | EmptyString => false
      end
  end.

(** ** Data model *)

Record Course : Type := {
  id : string;
  name : string;
  bookingUrl : string;
  bookingSystem : string;
  city : string
}.

Definition bonneville : Course :=
  {| id := "bonneville";
     name := "Bonneville Golf Course";
     bookingUrl := "https://foreupsoftware.com/index.php/booking/20287/5495";
     bookingSystem := "foreup";
     city := "Salt Lake City" |}.

Definition mountainDellCanyon : Course :=
  {| id := "mountain-dell-canyon";
     name := "Mountain Dell Golf Course - Canyon";
     bookingUrl := "https://foreupsoftware.com/index.php/booking/20287/5496";
     bookingSystem := "foreup";
     city := "Salt Lake City" |}.

Definition riverOaks : Course :=
  {| id := "river-oaks";
     name := "River Oaks Golf Course";
     bookingUrl := "https://www.golfnow.com/tee-times/facility/19765-river-oaks-golf-course/search";
     bookingSystem := "golfnow";
     city := "Sandy" |}.

Definition thanksgivingPoint : Course :=
  {| id := "thanksgiving-point";
     name := "Thanksgiving Point Golf Club";
     bookingUrl := "https://www.golfnow.com/tee-times/facility/1126-thanksgiving-point-golf-club/search";
     bookingSystem := "golfnow";
     city := "Lehi" |}.

Definition meadowbrook : Course :=
  {| id := "meadowbrook";
     name := "Meadowbrook Golf Course";
     bookingUrl := "https://www.chronogolf.com/course/meadowbrook-golf-course";
     bookingSystem := "chronogolf";
     city := "Taylorsville" |}.

Definition UTAH_COURSES : list Course :=
  [bonneville; mountainDellCanyon; riverOaks; thanksgivingPoint; meadowbrook].

(** A numeric property of a tee-time object.  The scrapers only ever store
    the result of [parseFloat] or [parseInt] or the literal [null] there,
    or leave the property out. *)
Inductive numeric : Type :=
| NotSet
| IsNull
| IsNum (n : number).

Definition lit (z : Z) : numeric := IsNum (Fin (inject_Z z)).

(** The objects the scrapers return. *)
Record TeeTime : Type := {
  time : JsVal;
  price : numeric;
  availableSlots : numeric;
  holes : numeric;
  isHotDeal : JsVal
}.

(** ** Normalisation of upstream records *)

(** [arr.map(f)] where [f] may throw: [null.map] and [undefined.map] are
    type errors, and so is calling [map] on a value that has none. *)
Fixpoint mapC {A B} (f : A -> completion B) (l : list A) : completion (list B) :=
  match l with
  | [] => Normal []
  | x :: r =>
      y ← f x;
      ys ← mapC f r;
      Normal (y :: ys)
  end.

Definition arrayMap {B} (f : JsVal -> completion B) (v : JsVal) : completion (list B) :=
  match v with
  | JArr items => mapC f items
  | _ => Throw TypeError
  end.

(** The arrow function of [ForeUpScraper.scrapeTeeTimes] (the same in both
    variants).  The first property read throws on a [null] record; the
    later reads are of the same object. *)
Definition ForeUp_slot (slot : JsVal) : completion TeeTime :=
  t ← getProp slot "time";
  Normal {|
    time := t ||| getPropOpt slot "start_time";
    price := IsNum (parseFloat
      (getPropOpt slot "green_fee" ||| getPropOpt slot "price" ||| num 50));
    availableSlots := IsNum (parseInt
      (getPropOpt slot "available_spots" ||| getPropOpt slot "max_players" ||| num 4));
    holes := IsNum (parseInt (getPropOpt slot "holes" ||| num 18));
    isHotDeal := JBool (isTrue (getPropOpt slot "special")
                        || isTrue (getPropOpt slot "is_special"))
  |}.

(** [response.data.map(slot => ...).filter(time => time.time)] *)
Definition ForeUp_teeTimes (data : JsVal) : completion (list TeeTime) :=
  mapped ← arrayMap ForeUp_slot data;
  Normal (List.filter (fun t => truthy (time t)) mapped).

(** The sample objects of [GenericScraper] in [server.js]. *)
Definition sampleTeeTimes : list TeeTime := [
  {| time := JStr "7:00 AM"; price := lit 45; availableSlots := lit 4;
     holes := lit 18; isHotDeal := JBool false |};
  {| time := JStr "7:30 AM"; price := lit 45; availableSlots := lit 2;
     holes := lit 18; isHotDeal := JBool false |}
].

(** *** The browser-rendered page *)

(** A matched tee-time element, as the three [querySelector] calls and the
    two other reads of the callback see it. *)
Record Element : Type := {
  timeNode : option string;    (* textContent of [.time, .teetime-time] *)
  priceNode : option string;   (* textContent of [.price, .rate] *)
  slotsNode : option string;   (* textContent of [.slots, .available] *)
  classList : list string;
  textContent : string
}.

Definition optTruthy (o : option string) : bool :=
  match o with
  | Some s => nonEmpty s
  | None => false
  end.

Definition contains (cls : string) (l : list string) : bool :=
  existsb (String.eqb cls) l.

(** The body of the [forEach] callback inside [page.evaluate]: [None] when
    nothing is pushed. *)
Definition GolfNow_element (element : Element) : option TeeTime :=
  let timeText := option_map trim (timeNode element) in
  let priceText := option_map trim (priceNode element) in
  let slotsText := option_map trim (slotsNode element) in
  match timeText, priceText with
  | Some tText, Some pText =>
      if nonEmpty tText && nonEmpty pText then
        let priceMatch := matchPrice pText in
        let slotsMatch := match slotsText with
                          | Some st => matchDigits st
                          | None => None
                          end in
        Some {|
          time := JStr tText;
          price := match priceMatch with
                   | Some g => IsNum (parseFloat (JStr g))
                   | None => IsNull
                   end;
          availableSlots := match slotsMatch with
                            | Some g => IsNum (parseInt (JStr g))
                            | None => lit 4
                            end;
          holes := NotSet;
          isHotDeal := JBool (contains "hot-deal" (classList element)
                              || includes "hot" (toLowerCase (textContent element)))
        |}
      else None
  | _, _ => None
  end.

Fixpoint GolfNow_extract (elements : list Element) : list TeeTime :=
  match elements with
  | [] => []
  | e :: r =>
      match GolfNow_element e with
      | Some t => t :: GolfNow_extract r
      | None => GolfNow_extract r
      end
  end.

(** ** JSON round trip

    The cache holds [JSON.stringify(teeTimes)] and a hit returns
    [JSON.parse] of it.  The stored string is represented by the value it
    parses to. *)

Definition jsonNumber (n : number) : JsVal :=
  match n with
  | Fin q => JNum (Fin q)
  | _ => JNull
  end.

Fixpoint jsonValue (v : JsVal) : JsVal :=
  match v with
  | JUndefined => JNull
  | JNum n => jsonNumber n
  | JArr items => JArr (List.map jsonValue items)
  | JObj fields =>
      JObj ((fix props (fs : list (string * JsVal)) : list (string * JsVal) :=
               match fs with
               | [] => []
               | (k, JUndefined) :: r => props r
               | (k, x) :: r => (k, jsonValue x) :: props r
               end) fields)
  | _ => v
  end.

(** A property whose value is [undefined] is left out of the string, and
    reads as [undefined] again. *)
Definition jsonProp (v : JsVal) : JsVal :=
  match v with
  | JUndefined => JUndefined
  | _ => jsonValue v
  end.

Definition jsonNumeric (x : numeric) : numeric :=
  match x with
  | IsNum (Fin q) => IsNum (Fin q)
  | IsNum _ => IsNull
  | _ => x
  end.

Definition jsonTeeTime (t : TeeTime) : TeeTime := {|
  time := jsonProp (time t);
  price := jsonNumeric (price t);
  availableSlots := jsonNumeric (availableSlots t);
  holes := jsonNumeric (holes t);
  isHotDeal := jsonProp (isHotDeal t)
|}.

(** [JSON.parse(JSON.stringify(teeTimes))] *)
Definition jsonRoundTrip (teeTimes : list TeeTime) : list TeeTime :=
  List.map jsonTeeTime teeTimes.

(** ** The world: Redis, the clock, the browser and the upstream sites *)

Record CacheEntry : Type := {
  value : list TeeTime;
  expiresAt : Z
}.

(** What leaves the process: a page navigation or an HTTP GET. *)
Inductive Request : Type :=
| PageGoto (url : string)
| AxiosGet (url : string) (params : list (string * string)).

(** What a booking site answers to a navigation: [page.goto] may throw
    (network error, or no idle network within 30000 ms), and
    [page.evaluate] either throws or sees the matched elements. *)
Record PageReply : Type := {
  navigation : option JsError;
  document : completion (list Element)
}.

(** The world a request handler runs in.  Time is in seconds.  The three
    oracles say what the [n]-th upstream request is answered, and how long
    the answer takes; [isoDate] prints the clock as a date; [delReply]
    says which error, if any, Redis rejects the deletion of a key with (a
    read-only replica, a command the user may not run). *)
Record World : Type := {
  redis : gmap string CacheEntry;
  clock : Z;
  browser : bool;
  openPages : nat;
  requests : list Request;
  pages : nat -> string -> PageReply;
  axios : nat -> Request -> completion JsVal;
  latency : nat -> nat;
  isoDate : Z -> string;
  delReply : string -> option JsError
}.

Definition setRedis (r : gmap string CacheEntry) (w : World) : World :=
  {| redis := r; clock := clock w; browser := browser w; openPages := openPages w;
     requests := requests w; pages := pages w; axios := axios w;
     latency := latency w; isoDate := isoDate w; delReply := delReply w |}.

Definition setOpenPages (n : nat) (w : World) : World :=
  {| redis := redis w; clock := clock w; browser := browser w; openPages := n;
     requests := requests w; pages := pages w; axios := axios w;
     latency := latency w; isoDate := isoDate w; delReply := delReply w |}.

(** Sending a request: it is logged and the clock moves on. *)
Definition send (rq : Request) (w : World) : World :=
  {| redis := redis w;
     clock := clock w + Z.of_nat (latency w (length (requests w)));
     browser := browser w; openPages := openPages w;
     requests := requests w ++ [rq]; pages := pages w; axios := axios w;
     latency := latency w; isoDate := isoDate w; delReply := delReply w |}.

(** Time passing between two requests to the server. *)
Definition elapse (d : Z) (w : World) : World :=
  {| redis := redis w; clock := clock w + d; browser := browser w;
     openPages := openPages w; requests := requests w; pages := pages w;
     axios := axios w; latency := latency w; isoDate := isoDate w;
     delReply := delReply w |}.

(** Asynchronous code, run to completion in program order: a computation
    takes the world and gives a completion and the world after it. *)
Definition M (A : Type) : Type := World -> completion A * World.

#[export] Instance M_ret : MRet M := fun _ a w => (Normal a, w).

#[export] Instance M_bind : MBind M := fun _ _ k c w =>
  match c w with
  | (Normal a, w') => k a w'
  | (Throw e, w') => (Throw e, w')
  end.

(** [try { body } catch (error) { handler }] *)
Definition tryCatch {A} (body : M A) (handler : JsError -> M A) : M A := fun w =>
  match body w with
  | (Normal a, w') => (Normal a, w')
  | (Throw e, w') => handler e w'
  end.

Definition liftC {A} (c : completion A) : M A := fun w => (c, w).

Definition TTL : Z := 900.

(** What [redis.get(key)] finds: [null] ([None]) when the key is not set
    or its time to live is over. *)
Definition cached (key : string) (w : World) : option (list TeeTime) :=
  match redis w !! key with
  | Some e => if clock w <? expiresAt e then Some (value e) else None
  | None => None
  end.

Definition redis_get (key : string) : M (option (list TeeTime)) := fun w =>
  (Normal (cached key w), w).

(** [redis.setex(key, seconds, JSON.stringify(teeTimes))].  The client
    is the one of [Redis.createClient] that is driven with [connect()],
    [isOpen] and [disconnect()]; the command of that client is [setEx],
    and it has no property [setex].  The arguments are evaluated
    ([JSON.stringify] does not throw on tee times), and the call of
    [undefined] is a type error: nothing is sent to Redis. *)
Definition redis_setex (key : string) (seconds : Z) (teeTimes : list TeeTime) : M unit :=
  fun w => (Throw TypeError, w).

(** [redis.del(key)]: the key is deleted, unless Redis rejects the
    command. *)
Definition redis_del (key : string) : M unit := fun w =>
  match delReply w key with
  | Some e => (Throw e, w)
  | None => (Normal tt, setRedis (delete key (redis w)) w)
  end.

Definition getBrowser : M bool := fun w => (Normal (browser w), w).

(** [browser.newPage()]: a type error when [browser] was never set. *)
Definition newPage : M unit := fun w =>
  if browser w then (Normal tt, setOpenPages (S (openPages w)) w)
  else (Throw TypeError, w).

(** [page.goto(url, {waitUntil: 'networkidle0', timeout: 30000})] followed
    by [page.waitForTimeout(2000)]. *)
Definition page_goto (url : string) : M PageReply := fun w =>
  let reply := pages w (length (requests w)) url in
  let w' := send (PageGoto url) w in
  match navigation reply with
  | Some e => (Throw e, w')
  | None => (Normal reply, w')
  end.

(** [page.evaluate(() => {...})] with the extraction callback. *)
Definition page_evaluate (reply : PageReply) : M (list TeeTime) :=
  liftC (els ← document reply; Normal (GolfNow_extract els)).

(** [page.close()] *)
Definition page_close : M unit := fun w =>
  (Normal tt, setOpenPages (Nat.pred (openPages w)) w).

(** [axios.get(url, {params, headers, timeout: 10000})], giving
    [response.data]; a time-out, a network error or an error status
    rejects. *)
Definition axios_get (url : string) (params : list (string * string)) : M JsVal :=
  fun w =>
    let rq := AxiosGet url params in
    (axios w (length (requests w)) rq, send rq w).

(** ** Scrapers *)

Inductive Scraper : Type :=
| GolfNowScraper
| ForeUpScraper
| ChronogolfScraper
| GenericScraper.

(** [ScraperFactory.createScraper] *)
Definition createScraper (bookingSystem : string) : Scraper :=
  if String.eqb bookingSystem "golfnow" then GolfNowScraper
  else if String.eqb bookingSystem "foreup" then ForeUpScraper
  else if String.eqb bookingSystem "chronogolf" then ChronogolfScraper
  else GenericScraper.

Definition cacheKeyOf (tag : string) (course : Course) (date : string) : string :=
  tag +:+ ":" +:+ id course +:+ ":" +:+ date.

Definition ForeUp_params (date bookingId scheduleId : string) : list (string * string) :=
  [("time", "all"); ("date", date); ("holes", "all"); ("players", "0");
   ("booking_class", bookingId); ("schedule_id", scheduleId);
   ("schedule_ids[]", scheduleId); ("specials_only", "0");
   ("api_key", "no_limits")].

(** Every caching scraper has the same skeleton,

      try {
        const cachedData = await redis.get(cacheKey);
        if (cachedData) { return JSON.parse(cachedData); }
        ... the rest of the block ...
      } catch (error) { console.error(...); return []; }

    written once here; [onMiss] is the rest of the block. *)
Definition cacheAside (cacheKey : string) (onMiss : M (list TeeTime))
  : M (list TeeTime) :=
  tryCatch
    (cachedData ← redis_get cacheKey;
     match cachedData with
     | Some teeTimes => mret teeTimes
     | None => onMiss
     end)
    (fun _ => mret []).

(** [ForeUpScraper.scrapeTeeTimes], the same text in both variants. *)
Definition ForeUpScraper_onMiss (course : Course) (date cacheKey : string)
  : M (list TeeTime) :=
  match matchBooking (bookingUrl course) with
  | None => mret []
  | Some (bookingId, scheduleId) =>
      data ← axios_get "https://foreupsoftware.com/index.php/api/booking/times"
               (ForeUp_params date bookingId scheduleId);
      teeTimes ← liftC (ForeUp_teeTimes data);
      _ ← redis_setex cacheKey TTL teeTimes;
      mret teeTimes
  end.

Definition ForeUpScraper_scrapeTeeTimes (course : Course) (date : string)
  : M (list TeeTime) :=
  let cacheKey := cacheKeyOf "foreup" course date in
  cacheAside cacheKey (ForeUpScraper_onMiss course date cacheKey).

(** [Promise.all(list.map(async x => ...))], each callback run to
    completion in the order of the list. *)
Fixpoint mapM {A B} (f : A -> M B) (l : list A) : M (list B) :=
  match l with
  | [] => mret []
  | x :: r =>
      y ← f x;
      ys ← mapM f r;
      mret (y :: ys)
  end.

(** [UTAH_COURSES.find(c => c.id === courseId)] *)
Definition findCourse (courseId : string) : option Course :=
  List.find (fun c => String.eqb (id c) courseId) UTAH_COURSES.

(** [new Date().toISOString().split('T')[0]] *)
Definition today : M string := fun w => (Normal (isoDate w (clock w)), w).

(** [new Date(Date.now() + 86400000).toISOString().split('T')[0]] *)
Definition tomorrow : M string := fun w =>
  (Normal (isoDate w (clock w + 86400)), w).

(** [for (const x of list) { await f(x) }] *)
Fixpoint forEachM {A} (f : A -> M unit) (l : list A) : M unit :=
  match l with
  | [] => mret tt
  | x :: r => _ ← f x; forEachM f r
  end.

(** What a handler sends. *)
Inductive Reply (A : Type) : Type :=
| Ok (body : A)
| NotFound
| ServerError.
Arguments Ok {A} body.
Arguments NotFound {A}.
Arguments ServerError {A}.

(** *** Comparison of numbers *)

(** [a < b] on numbers; [a > b] is [b < a]. *)
Definition number_lt (a b : number) : bool :=
  match a, b with
  | NaN, _ | _, NaN => false
  | Infinity false, _ => false
  | _, Infinity true => false
  | Infinity true, _ => true
  | Fin _, Infinity false => true
  | Fin p, Fin q => negb (Qle_bool q p)
  end.

(** The number a numeric property converts to in a comparison. *)
Definition toNumber (x : numeric) : number :=
  match x with
  | NotSet => NaN
  | IsNull => Fin 0
  | IsNum n => n
  end.

Definition numeric_truthy (x : numeric) : bool :=
  match x with
  | IsNum n => number_truthy n
  | _ => false
  end.

Module Server.

(** [GolfNowScraper.scrapeTeeTimes] of server.js *)
Definition GolfNowScraper_onMiss (course : Course) (date cacheKey : string)
  : M (list TeeTime) :=
  initialised ← getBrowser;
  if negb initialised then mret []
  else
    _ ← newPage;
    page ← page_goto (bookingUrl course +:+ "?date=" +:+ date);
    teeTimes ← page_evaluate page;
    _ ← page_close;
    _ ← redis_setex cacheKey TTL teeTimes;
    mret teeTimes.

Definition GolfNowScraper_scrapeTeeTimes (course : Course) (date : string)
  : M (list TeeTime) :=
  let cacheKey := cacheKeyOf "golfnow" course date in
  cacheAside cacheKey (GolfNowScraper_onMiss course date cacheKey).

(** The arrow function of [ChronogolfScraper.scrapeTeeTimes] in server.js *)
Definition Chronogolf_slot (slot : JsVal) : completion TeeTime :=
  t ← getProp slot "start_time";
  Normal {|
    time := t;
    price := IsNum (parseFloat (getPropOpt slot "green_fee" ||| num 50));
    availableSlots := IsNum (parseInt (getPropOpt slot "nb_bookable_slots" ||| num 4));
    holes := IsNum (parseInt (getPropOpt slot "nb_holes" ||| num 18));
    isHotDeal := getPropOpt slot "is_deal" ||| JBool false
  |}.

(** [response.data.tee_times?.map(slot => ...) || []] *)
Definition Chronogolf_teeTimes (data : JsVal) : completion (list TeeTime) :=
  tee_times ← getProp data "tee_times";
  match tee_times with
  | JUndefined | JNull => Normal []
  | _ => arrayMap Chronogolf_slot tee_times
  end.

Definition ChronogolfScraper_onMiss (course : Course) (date cacheKey : string)
  : M (list TeeTime) :=
  match matchCourse (bookingUrl course) with
  | None => mret []
  | Some courseSlug =>
      data ← axios_get
               ("https://www.chronogolf.com/marketplace/clubs/"
                +:+ courseSlug +:+ "/tee-times")
               [("date", date); ("nb_holes", "18")];
      teeTimes ← liftC (Chronogolf_teeTimes data);
      _ ← redis_setex cacheKey TTL teeTimes;
      mret teeTimes
  end.

Definition ChronogolfScraper_scrapeTeeTimes (course : Course) (date : string)
  : M (list TeeTime) :=
  let cacheKey := cacheKeyOf "chronogolf" course date in
  cacheAside cacheKey (ChronogolfScraper_onMiss course date cacheKey).

(** [GenericScraper.scrapeTeeTimes] of server.js: sample data *)
Definition GenericScraper_scrapeTeeTimes (course : Course) (date : string)
  : M (list TeeTime) :=
  mret sampleTeeTimes.

Definition scrapeTeeTimes (scraper : Scraper) : Course -> string -> M (list TeeTime) :=
  match scraper with
  | GolfNowScraper => GolfNowScraper_scrapeTeeTimes
  | ForeUpScraper => ForeUpScraper_scrapeTeeTimes
  | ChronogolfScraper => ChronogolfScraper_scrapeTeeTimes
  | GenericScraper => GenericScraper_scrapeTeeTimes
  end.

(** [GET /api/tee-times/:courseId], after the course was found. *)
Definition resolve (course : Course) (date : string) : M (list TeeTime) :=
  scrapeTeeTimes (createScraper (bookingSystem course)) course date.

Record TeeTimesBody : Type := {
  tt_course : Course;
  tt_date : string;
  tt_teeTimes : list TeeTime
}.

Definition orToday (given : option string) : M string :=
  match given with
  | Some d => if nonEmpty d then mret d else today
  | None => today
  end.

Definition getTeeTimes (courseId : string) (queryDate : option string)
  : M (Reply TeeTimesBody) :=
  match findCourse courseId with
  | None => mret NotFound
  | Some course =>
      date ← orToday queryDate;
      tryCatch
        (teeTimes ← resolve course date;
         mret (Ok {| tt_course := course; tt_date := date; tt_teeTimes := teeTimes |}))
        (fun _ => mret ServerError)
  end.

(** The callback of [teeTimes.filter] in the search handler. *)
Definition keepTime (maxPrice : numeric) (minSlots : number) (t : TeeTime) : bool :=
  if numeric_truthy maxPrice && number_lt (toNumber maxPrice) (toNumber (price t))
  then false
  else if number_lt (toNumber (availableSlots t)) minSlots then false
  else true.

Record SearchResult : Type := {
  sr_course : Course;
  sr_teeTimes : list TeeTime
}.

Record SearchBody : Type := {
  sb_date : string;
  sb_maxPrice : numeric;
  sb_minSlots : number;
  sb_results : list SearchResult
}.

(** [req.query.maxPrice ? parseFloat(req.query.maxPrice) : null] *)
Definition queryMaxPrice (q : option string) : numeric :=
  match q with
  | Some s => if nonEmpty s then IsNum (parseFloat (JStr s)) else IsNull
  | None => IsNull
  end.

(** [req.query.minSlots ? parseInt(req.query.minSlots) : 1] *)
Definition queryMinSlots (q : option string) : number :=
  match q with
  | Some s => if nonEmpty s then parseInt (JStr s) else Fin 1
  | None => Fin 1
  end.

Definition searchCourse (date : string) (maxPrice : numeric) (minSlots : number)
  (course : Course) : M SearchResult :=
  teeTimes ← resolve course date;
  mret {| sr_course := course;
          sr_teeTimes := List.filter (keepTime maxPrice minSlots) teeTimes |}.

Definition hasTeeTimes (r : SearchResult) : bool :=
  (0 <? length (sr_teeTimes r))%nat.

(** [GET /api/search/tee-times] over a registry of courses; the server
    runs it on [UTAH_COURSES]. *)
Definition searchIn (courses : list Course)
  (queryDate queryMaxPriceText queryMinSlotsText : option string)
  : M (Reply SearchBody) :=
  date ← orToday queryDate;
  let maxPrice := queryMaxPrice queryMaxPriceText in
  let minSlots := queryMinSlots queryMinSlotsText in
  tryCatch
    (allResults ← mapM (searchCourse date maxPrice minSlots) courses;
     let results := List.filter hasTeeTimes allResults in
     mret (Ok {| sb_date := date; sb_maxPrice := maxPrice;
                 sb_minSlots := minSlots; sb_results := results |}))
    (fun _ => mret ServerError).

Definition search := searchIn UTAH_COURSES.

(** The body of [try] in [POST /api/refresh/:courseId]. *)
Definition refreshCourse (course : Course) (date : string) : M (list TeeTime) :=
  let cacheKey := cacheKeyOf (bookingSystem course) course date in
  _ ← redis_del cacheKey;
  resolve course date.

Definition refresh (courseId : string) (bodyDate : option string)
  : M (Reply TeeTimesBody) :=
  match findCourse courseId with
  | None => mret NotFound
  | Some course =>
      date ← orToday bodyDate;
      tryCatch
        (teeTimes ← refreshCourse course date;
         mret (Ok {| tt_course := course; tt_date := date; tt_teeTimes := teeTimes |}))
        (fun _ => mret ServerError)
  end.

(** [GET /api/courses/:id] *)
Definition getCourse (courseId : string) : Reply Course :=
  match findCourse courseId with
  | None => NotFound
  | Some course => Ok course
  end.

(** The body of the loop of the scheduled cache warming: both dates are
    computed once, before the loop. *)
Definition warmCourse (day nextDay : string) (course : Course) : M unit :=
  tryCatch
    (let scraper := createScraper (bookingSystem course) in
     _ ← scrapeTeeTimes scraper course day;
     _ ← scrapeTeeTimes scraper course nextDay;
     mret tt)
    (fun _ => mret tt).

(** [cron.schedule('0 6 * * *', ...)] over a registry of courses. *)
Definition cacheWarmingIn (courses : list Course) : M unit :=
  day ← today;
  nextDay ← tomorrow;
  forEachM (warmCourse day nextDay) courses.

Definition cacheWarming := cacheWarmingIn UTAH_COURSES.

End Server.

(** The second variant of the server: no guard on [browser], a wider
    Chronogolf normaliser, an empty fallback and the batch endpoint. *)
Module Part001.

Definition GolfNowScraper_onMiss (course : Course) (date cacheKey : string)
  : M (list TeeTime) :=
  _ ← newPage;
  page ← page_goto (bookingUrl course +:+ "?date=" +:+ date);
  teeTimes ← page_evaluate page;
  _ ← page_close;
  _ ← redis_setex cacheKey TTL teeTimes;
  mret teeTimes.

Definition GolfNowScraper_scrapeTeeTimes (course : Course) (date : string)
  : M (list TeeTime) :=
  let cacheKey := cacheKeyOf "golfnow" course date in
  cacheAside cacheKey (GolfNowScraper_onMiss course date cacheKey).

Definition Chronogolf_slot (slot : JsVal) : completion TeeTime :=
  t ← getProp slot "start_time";
  Normal {|
    time := t ||| getPropOpt slot "time";
    price := IsNum (parseFloat
      (getPropOpt (getPropOpt slot "rate") "price" ||| getPropOpt slot "price"
       ||| getPropOpt slot "green_fee" ||| num 50));
    availableSlots := IsNum (parseInt
      (getPropOpt slot "available_spots" ||| getPropOpt slot "remaining_spots"
       ||| num 4));
    holes := IsNum (parseInt
      (getPropOpt slot "holes" ||| getPropOpt slot "nb_holes" ||| num 18));
    isHotDeal := getPropOpt slot "is_deal" ||| getPropOpt slot "special_rate"
                 ||| JBool false
  |}.

(** [(response.data.tee_times || response.data).map(slot => ...)
      .filter(time => time.time)] *)
Definition Chronogolf_teeTimes (data : JsVal) : completion (list TeeTime) :=
  tee_times ← getProp data "tee_times";
  mapped ← arrayMap Chronogolf_slot (tee_times ||| data);
  Normal (List.filter (fun t => truthy (time t)) mapped).

Definition ChronogolfScraper_onMiss (course : Course) (date cacheKey : string)
  : M (list TeeTime) :=
  match matchCourse (bookingUrl course) with
  | None => mret []
  | Some courseSlug =>
      data ← axios_get
               ("https://www.chronogolf.com/marketplace/clubs/"
                +:+ courseSlug +:+ "/tee-times")
               [("date", date); ("nb_holes", "18")];
      teeTimes ← liftC (Chronogolf_teeTimes data);
      _ ← redis_setex cacheKey TTL teeTimes;
      mret teeTimes
  end.

Definition ChronogolfScraper_scrapeTeeTimes (course : Course) (date : string)
  : M (list TeeTime) :=
  let cacheKey := cacheKeyOf "chronogolf" course date in
  cacheAside cacheKey (ChronogolfScraper_onMiss course date cacheKey).

Definition GenericScraper_scrapeTeeTimes (course : Course) (date : string)
  : M (list TeeTime) :=
  mret [].

Definition scrapeTeeTimes (scraper : Scraper) : Course -> string -> M (list TeeTime) :=
  match scraper with
  | GolfNowScraper => GolfNowScraper_scrapeTeeTimes
  | ForeUpScraper => ForeUpScraper_scrapeTeeTimes
  | ChronogolfScraper => ChronogolfScraper_scrapeTeeTimes
  | GenericScraper => GenericScraper_scrapeTeeTimes
  end.

Definition resolve (course : Course) (date : string) : M (list TeeTime) :=
  scrapeTeeTimes (createScraper (bookingSystem course)) course date.

Record BatchEntry : Type := {
  courseId : string;
  courseName : string;
  teeTimes : list TeeTime;
  count : nat
}.

(** [courses.find(c => c.id === courseId)] for a [courseId] taken from the
    request body: only a string can be strictly equal to an id. *)
Definition findIn (courses : list Course) (courseId : JsVal) : option Course :=
  match courseId with
  | JStr s => List.find (fun c => String.eqb (id c) s) courses
  | _ => None
  end.

(** The callback mapped over [courseIds]; [None] is its [null]. *)
Definition batchCourse (courses : list Course) (date : string) (cid : JsVal)
  : M (option BatchEntry) :=
  match findIn courses cid with
  | None => mret None
  | Some course =>
      teeTimes ← resolve course date;
      mret (Some {| courseId := id course; courseName := name course;
                    teeTimes := teeTimes; count := length teeTimes |})
  end.

(** One promise of [Promise.allSettled]: a rejection becomes a value. *)
Definition settle {A} (c : M A) : M (completion A) := fun w =>
  let '(r, w') := c w in (Normal r, w').

(** [result.status === 'fulfilled' && result.value] *)
Definition fulfilledValue (r : completion (option BatchEntry)) : option BatchEntry :=
  match r with
  | Normal (Some e) => Some e
  | _ => None
  end.

Record BatchBody : Type := {
  data : list BatchEntry;
  date : string;
  totalCourses : nat
}.

(** [POST /api/courses/batch-teetimes] over a registry of courses, once
    the body passed validation; the default of [date] applies only when
    the body has none. *)
Definition batchIn (courses : list Course) (courseIds : list JsVal)
  (bodyDate : option string) : M (Reply BatchBody) :=
  tryCatch
    (day ← match bodyDate with Some d => mret d | None => today end;
     results ← mapM (fun cid => settle (batchCourse courses day cid)) courseIds;
     let entries := omap fulfilledValue results in
     mret (Ok {| data := entries; date := day; totalCourses := length entries |}))
    (fun _ => mret ServerError).

Definition batch := batchIn UTAH_COURSES.

Record CourseTeeTimes : Type := {
  ct_course : Course;
  ct_date : string;
  ct_teeTimes : list TeeTime;
  ct_count : nat
}.

(** [GET /api/courses/:courseId/teetimes], once the request passed
    validation; the whole handler is inside [try]. *)
Definition getCourseTeeTimes (courseId : string) (queryDate : option string)
  : M (Reply CourseTeeTimes) :=
  tryCatch
    (day ← match queryDate with
           | Some d => if nonEmpty d then mret d else today
           | None => today
           end;
     match List.find (fun c => String.eqb (id c) courseId) UTAH_COURSES with
     | None => mret NotFound
     | Some course =>
         teeTimes ← resolve course day;
         mret (Ok {| ct_course := course; ct_date := day;
                     ct_teeTimes := teeTimes; ct_count := length teeTimes |})
     end)
    (fun _ => mret ServerError).

(** The body of the loop of the scheduled update: the dates are computed
    for each course, and the two scrapes are started together. *)
Definition updateCourse (course : Course) : M unit :=
  tryCatch
    (day ← today;
     nextDay ← tomorrow;
     let scraper := createScraper (bookingSystem course) in
     _ ← scrapeTeeTimes scraper course day;
     _ ← scrapeTeeTimes scraper course nextDay;
     mret tt)
    (fun _ => mret tt).

(** [cron.schedule('*/15 * * * *', ...)] over a registry of courses. *)
Definition scheduledUpdateIn (courses : list Course) : M unit :=
  forEachM updateCourse courses.

Definition scheduledUpdate := scheduledUpdateIn UTAH_COURSES.

End Part001.

(** ** The two variants side by side *)

Inductive Variant : Type :=
| ServerJs
| Part001Js.

Definition scrape (v : Variant) : Scraper -> Course -> string -> M (list TeeTime) :=
  match v with
  | ServerJs => Server.scrapeTeeTimes
  | Part001Js => Part001.scrapeTeeTimes
  end.

Definition resolveIn (v : Variant) (course : Course) (date : string)
  : M (list TeeTime) :=
  scrape v (createScraper (bookingSystem course)) course date.

(** The literal prefix of a scraper's cache key; the fallback has none. *)
Definition cacheTag (scraper : Scraper) : option string :=
  match scraper with
  | GolfNowScraper => Some "golfnow"
  | ForeUpScraper => Some "foreup"
  | ChronogolfScraper => Some "chronogolf"
  | GenericScraper => None
  end.

(** What a scraper does on a cache miss: fetch, parse and store. *)
Definition onMiss (v : Variant) (scraper : Scraper) (course : Course)
  (date cacheKey : string) : M (list TeeTime) :=
  match scraper, v with
  | GolfNowScraper, ServerJs => Server.GolfNowScraper_onMiss course date cacheKey
  | GolfNowScraper, Part001Js => Part001.GolfNowScraper_onMiss course date cacheKey
  | ForeUpScraper, _ => ForeUpScraper_onMiss course date cacheKey
  | ChronogolfScraper, ServerJs => Server.ChronogolfScraper_onMiss course date cacheKey
  | ChronogolfScraper, Part001Js => Part001.ChronogolfScraper_onMiss course date cacheKey
  | GenericScraper, ServerJs => Server.GenericScraper_scrapeTeeTimes course date
  | GenericScraper, Part001Js => Part001.GenericScraper_scrapeTeeTimes course date
  end.

(** The fixed answer of the fallback scraper. *)
Definition fallbackTeeTimes (v : Variant) : list TeeTime :=
  match v with
  | ServerJs => sampleTeeTimes
  | Part001Js => []
  end.

(** ** Sample worlds *)

Definition world (pages : nat -> string -> PageReply)
  (axios : nat -> Request -> completion JsVal) : World :=
  {| redis := ∅; clock := 0; browser := true; openPages := 0; requests := [];
     pages := pages; axios := axios;
     latency := fun _ => 1%nat; isoDate := fun _ => "2024-06-01";
     delReply := fun _ => None |}.

Definition blankPage : PageReply :=
  {| navigation := None; document := Normal [] |}.

Definition stalledPage : PageReply :=
  {| navigation := Some TimeoutError; document := Normal [] |}.

Definition foreUpBody : JsVal :=
  JArr [JObj [("time", JStr "7:00 AM"); ("green_fee", num 45);
              ("available_spots", num 4)]].

(** A Chronogolf body whose first record has no [start_time]. *)
Definition chronogolfBody : JsVal :=
  JObj [("tee_times",
         JArr [JObj [("green_fee", num 30)];
               JObj [("start_time", JStr "08:10"); ("green_fee", num 30)]])].

(** Every site answers. *)
Definition priced : World :=
  world (fun _ _ => blankPage) (fun _ _ => Normal foreUpBody).

(** The first request fails, the later ones are answered. *)
Definition flaky : World :=
  world (fun _ _ => blankPage)
    (fun n _ => match n with O => Throw NetworkError | S _ => Normal foreUpBody end).

(** Navigation never settles within the time-out. *)
Definition stalled : World :=
  world (fun _ _ => stalledPage) (fun _ _ => Throw TimeoutError).

Definition chronogolfWorld : World :=
  world (fun _ _ => blankPage) (fun _ _ => Normal chronogolfBody).

(** What ForeUp's sample body normalises to. *)
Definition foreUpSlots : list TeeTime :=
  [ {| time := JStr "7:00 AM"; price := lit 45; availableSlots := lit 4;
       holes := lit 18; isHotDeal := JBool false |} ].

(** The request the ForeUp scraper sends for Bonneville on 2024-06-01. *)
Definition bonnevilleRequest : Request :=
  AxiosGet "https://foreupsoftware.com/index.php/api/booking/times"
    (ForeUp_params "2024-06-01" "20287" "5495").

(** Every site answers, and Redis holds an entry for Bonneville on
    2024-06-01 that is good for another 900 seconds (written by another
    process: the scrapers of this one never store anything). *)
Definition warm : World :=
  setRedis {[ "foreup:bonneville:2024-06-01" :=
                {| value := foreUpSlots; expiresAt := 900 |} ]} priced.

(** Every site answers, and Redis is a replica that takes no writes. *)
Definition readOnly : World :=
  {| redis := redis warm; clock := 0; browser := true; openPages := 0;
     requests := []; pages := pages warm; axios := axios warm;
     latency := latency warm; isoDate := isoDate warm;
     delReply := fun _ => Some ProtocolError |}.


(** ** The statements of the specification that the code does not meet *)

Definition isZero (v : JsVal) : bool :=
  match v with
  | JNum (Fin q) => Qeq_bool q 0
  | _ => false
  end.

(** A record's zero places become 4 and its zero green fee becomes 50. *)
Definition zeroBecomesDefault (normalise : JsVal -> completion TeeTime)
  (slot : JsVal) : Prop :=
  forall t, normalise slot = Normal t ->
    (isZero (getPropOpt slot "available_spots") = true -> availableSlots t = lit 4) /\
    (isZero (getPropOpt slot "green_fee") = true -> price t = lit 50).


(** ** Auxiliary notions used in the statements *)

(** A bound on what a miss does to the world, as the text of the blocks
    has it: the clock never runs backwards, a throw leaves Redis as it
    was, and a normal return either comes after a store of exactly the
    returned tee times under [key], to expire [TTL] seconds later, or
    returns nothing and leaves Redis alone.  ([onMiss_empty] says which
    of these the client allows.) *)
Definition missOutcome (key : string) (w : World)
  (c : completion (list TeeTime)) (w' : World) : Prop :=
  clock w <= clock w' /\
  match c with
  | Throw _ => redis w' = redis w
  | Normal teeTimes =>
      (teeTimes = [] /\ redis w' = redis w) \/
      redis w' = <[key := {| value := jsonRoundTrip teeTimes;
                             expiresAt := clock w' + TTL |}]> (redis w)
  end.

Definition batchEntry (date : string) (course : Course) : M Part001.BatchEntry :=
  teeTimes ← Part001.resolve course date;
  mret {| Part001.courseId := id course; Part001.courseName := name course;
          Part001.teeTimes := teeTimes; Part001.count := length teeTimes |}.

Definition dayOf (bodyDate : option string) (w : World) : string :=
  match bodyDate with
  | Some d => d
  | None => isoDate w (clock w)
  end.

Definition nullish (v : JsVal) : bool :=
  match v with
  | JUndefined | JNull => true
  | _ => false
  end.

Definition absent (slot : JsVal) (k : string) : Prop :=
  getPropOpt slot k = JUndefined.

(** The record without its field [k]. *)
Definition without (k : string) (fs : list (string * JsVal)) : list (string * JsVal) :=
  List.filter (fun kv => negb (String.eqb k (fst kv))) fs.

(** The request a scraper sends upstream when it misses the cache: none
    when the locator does not match or no browser is there. *)
Definition upstreamRequest (scraper : Scraper) (course : Course) (date : string)
  (w : World) : list Request :=
  match scraper with
  | GolfNowScraper =>
      if browser w then [PageGoto (bookingUrl course +:+ "?date=" +:+ date)] else []
  | ForeUpScraper =>
      match matchBooking (bookingUrl course) with
      | Some (bookingId, scheduleId) =>
          [AxiosGet "https://foreupsoftware.com/index.php/api/booking/times"
             (ForeUp_params date bookingId scheduleId)]
      | None => []
      end
  | ChronogolfScraper =>
      match matchCourse (bookingUrl course) with
      | Some courseSlug =>
          [AxiosGet ("https://www.chronogolf.com/marketplace/clubs/"
                     +:+ courseSlug +:+ "/tee-times")
             [("date", date); ("nb_holes", "18")]]
      | None => []
      end
  | GenericScraper => []
  end.

(** A source field that is missing or holds the number 0. *)
Definition zeroOrAbsent (slot : JsVal) (k : string) : Prop :=
  absent slot k \/ isZero (getPropOpt slot k) = true.

(** A value that [JSON.stringify] writes and [JSON.parse] reads back as
    it was: no [undefined], [NaN] or infinity inside. *)
Fixpoint isJson (v : JsVal) : bool :=
  match v with
  | JUndefined => false
  | JNum (Fin _) => true
  | JNum _ => false
  | JArr items => forallb isJson items
  | JObj fields =>
      (fix props (fs : list (string * JsVal)) : bool :=
         match fs with
         | [] => true
         | (_, x) :: r => isJson x && props r
         end) fields
  | _ => true
  end.

Definition cleanProp (v : JsVal) : bool :=
  match v with
  | JUndefined => true
  | _ => isJson v
  end.

Definition cleanNumeric (x : numeric) : bool :=
  match x with
  | IsNum (Fin _) => true
  | IsNum _ => false
  | _ => true
  end.

Definition cleanTeeTime (t : TeeTime) : bool :=
  cleanProp (time t) && cleanNumeric (price t) && cleanNumeric (availableSlots t)
  && cleanNumeric (holes t) && cleanProp (isHotDeal t).

(** The browser handle, the sites and the calendar are the same. *)
Definition sameSites (w w' : World) : Prop :=
  browser w' = browser w /\ pages w' = pages w /\ axios w' = axios w /\
  latency w' = latency w /\ isoDate w' = isoDate w.

(** Every entry of the cache expires within [TTL] seconds from now and
    holds values that JSON writes and reads back unchanged. *)
Definition cacheInv (w : World) : Prop :=
  forall k e, redis w !! k = Some e ->
    expiresAt e <= clock w + TTL /\ forallb cleanTeeTime (value e) = true.

(** How the world may move while the server works: the sites stay, time
    and the request log only grow, no page is closed that the step did
    not open, and the cache keeps its invariant. *)
Definition step (w w' : World) : Prop :=
  sameSites w w' /\
  clock w <= clock w' /\
  (exists sent, requests w' = (requests w ++ sent)%list) /\
  (openPages w <= openPages w')%nat /\
  (cacheInv w -> cacheInv w').

(** A computation that never throws, moves the world by a [step] and
    sends at most [n] requests upstream. *)
Definition runs {A} (n : nat) (c : M A) : Prop :=
  forall w, exists a w',
    c w = (Normal a, w') /\ step w w' /\
    (length (requests w') <= length (requests w) + n)%nat.

(** A text without a colon. *)
Fixpoint colonFree (s : string) : bool :=
  match s with
  | EmptyString => true
  | String c r => negb (Ascii.eqb c ":") && colonFree r
  end.

Fixpoint allDigits (s : string) : bool :=
  match s with
  | EmptyString => true
  | String c r => isDigit c && allDigits r
  end.

(** A text without a slash or a question mark. *)
Fixpoint slugText (s : string) : bool :=
  match s with
  | EmptyString => true
  | String c r => negb (Ascii.eqb c "/" || Ascii.eqb c "?") && slugText r
  end.

(** The match of [/course\/([^/?]+)/] at the head of [s]. *)
Definition courseHere (s : string) : option string :=
  match stripPrefix "course/" s with
  | Some r => let g := slugRun r in if nonEmpty g then Some g else None
  | None => None
  end.

(** What [parseFloatString] does once the sign and the integer digits
    are read. *)
Definition floatTail (neg : bool) (ip : Z) (ilen : nat) (s2 : string) : number :=
  let '(m, flen, s3) :=
    match s2 with
    | String "." r => let '(v, len, r') := takeDigits r ip 0%nat in (v, len, r')
    | _ => (ip, 0%nat, s2)
    end in
  match ilen, flen with
  | O, O => NaN
  | _, _ => Fin (scale10 (signed neg m) (takeExponent s3 - Z.of_nat flen))
  end.

(** What a slot read off the rendered page looks like. *)
Definition pageSlot (t : TeeTime) : Prop :=
  (exists s, time t = JStr s /\ nonEmpty s = true) /\
  (price t = IsNull \/ exists q, price t = IsNum (Fin q) /\ (0 <= q)%Q) /\
  (exists q, availableSlots t = IsNum (Fin q) /\ (0 <= q)%Q) /\
  holes t = NotSet /\
  (exists b, isHotDeal t = JBool b).

(** The non-negative finite numbers. *)
Definition nonNegative (x : numeric) : Prop :=
  exists q, x = IsNum (Fin q) /\ (0 <= q)%Q.

(** [req.query.date || today]: the date a handler works with. *)
Definition dayOr (given : option string) (w : World) : string :=
  match given with
  | Some d => if nonEmpty d then d else isoDate w (clock w)
  | None => isoDate w (clock w)
  end.

(** A course of a booking system the factory does not know. *)
Definition soldierHollow : Course :=
  {| id := "soldier-hollow";
     name := "Soldier Hollow Golf Course";
     bookingUrl := "https://stateparks.utah.gov/golf/soldier-hollow/teetimes";
     bookingSystem := "ezlinks";
     city := "Midway" |}.

(** A fully booked, free record that also carries the second candidates. *)
Definition soldOutOfTwo : list (string * JsVal) :=
  [("time", JStr "7:00 AM"); ("available_spots", num 0); ("max_players", num 2);
   ("green_fee", num 0); ("price", num 30)].

(** A fully booked, free record. *)
Definition soldOut : list (string * JsVal) :=
  [("time", JStr "7:00 AM"); ("available_spots", num 0); ("green_fee", num 0)].

(** No object inside the value has an own property [toString]: the
    values whose conversion to a string, and that of every value inside
    them, cannot throw. *)
Fixpoint noToString (v : JsVal) : bool :=
  match v with
  | JArr items => forallb noToString items
  | JObj fields =>
      (fix props (fs : list (string * JsVal)) : bool :=
         match fs with
         | [] => true
         | (k, x) :: r => negb (String.eqb k "toString") && noToString x && props r
         end) fields
  | _ => true
  end.

(** The elements of an array that holds no [null] and no [undefined]:
    the bodies all of whose records can be read. *)
Definition records (v : JsVal) : option (list JsVal) :=
  match v with
  | JArr items =>
      if forallb (fun r => negb (nullish r)) items then Some items else None
  | _ => None
  end.

(** A normalised slot that passes [.filter(time => time.time)]. *)
Definition timed (t : TeeTime) : Prop := truthy (time t) = true.

(** A normalised slot whose three numeric fields are set to numbers. *)
Definition numbered (t : TeeTime) : Prop :=
  exists p a h, price t = IsNum p /\ availableSlots t = IsNum a /\ holes t = IsNum h.

(** * Properties *)

(** ** Built-ins and regular expressions, on examples *)

Example parseFloat_price : parseFloat (JStr "45.50") = Fin (91 # 2).
Proof. reflexivity. Qed.

Example parseFloat_exponent : parseFloat (JStr " -1.5e2xyz") = Fin (inject_Z (-150)).
Proof. reflexivity. Qed.

Example parseFloat_word : parseFloat (JStr "call") = NaN.
Proof. reflexivity. Qed.

Example parseInt_players : parseInt (JStr "4 players") = Fin (inject_Z 4).
Proof. reflexivity. Qed.

Example parseInt_hex : parseInt (JStr "0x1f") = Fin (inject_Z 31).
Proof. reflexivity. Qed.

Example parseInt_small : parseInt (JNum (Fin (5 # 10000000))) = Fin (inject_Z 5).
Proof. reflexivity. Qed.

Example parseInt_large :
  parseInt (JNum (Fin (inject_Z (-123 * 10 ^ 21)))) = Fin (inject_Z (-1)).
Proof. vm_compute. reflexivity. Qed.

Example trim_no_break_space :
  trim (String (ascii_of_nat 160) "7:00 AM ") = "7:00 AM".
Proof. reflexivity. Qed.

Example parseInt_number : parseInt (JNum (Fin (-7 # 2))) = Fin (inject_Z (-3)).
Proof. reflexivity. Qed.

Example matchPrice_dollars : matchPrice "from $45.00 pp" = Some "45.00".
Proof. reflexivity. Qed.

Example matchPrice_one_decimal : matchPrice "$45.5" = Some "45".
Proof. reflexivity. Qed.

Example matchPrice_none : matchPrice "Call for rate" = None.
Proof. reflexivity. Qed.

Example matchBooking_bonneville :
  matchBooking "https://foreupsoftware.com/index.php/booking/20287/5495"
  = Some ("20287", "5495").
Proof. reflexivity. Qed.

Example matchCourse_meadowbrook :
  matchCourse "https://www.chronogolf.com/course/meadowbrook-golf-course"
  = Some "meadowbrook-golf-course".
Proof. reflexivity. Qed.

(** ** The monad and the cache *)

Ltac run := unfold mbind, mret, M_bind, M_ret, liftC, tryCatch in *; simpl in *.

Lemma scrape_cacheAside v scraper tag course date :
  cacheTag scraper = Some tag ->
  scrape v scraper course date
  = cacheAside (cacheKeyOf tag course date)
      (onMiss v scraper course date (cacheKeyOf tag course date)).
Proof.
  destruct v, scraper; simpl; intros H; inversion H; reflexivity.
Qed.

Lemma scrape_generic v course date w :
  scrape v GenericScraper course date w = (Normal (fallbackTeeTimes v), w).
Proof. destruct v; reflexivity. Qed.

Lemma cacheAside_hit key body teeTimes w :
  cached key w = Some teeTimes ->
  cacheAside key body w = (Normal teeTimes, w).
Proof.
  intros H. unfold cacheAside, redis_get. run. rewrite H. reflexivity.
Qed.

Lemma cacheAside_miss key body w :
  cached key w = None ->
  cacheAside key body w = tryCatch body (fun _ => mret []) w.
Proof.
  intros H. unfold cacheAside, redis_get. run. rewrite H. reflexivity.
Qed.

Lemma cacheAside_total key body w :
  exists teeTimes w', cacheAside key body w = (Normal teeTimes, w').
Proof.
  unfold cacheAside, redis_get. run.
  destruct (cached key w) as [t|]; [eauto|].
  destruct (body w) as [[t|e] w']; eauto.
Qed.

Lemma tryCatch_total (body : M (list TeeTime)) w :
  exists teeTimes w', tryCatch body (fun _ => mret []) w = (Normal teeTimes, w').
Proof.
  run. destruct (body w) as [[t|e] w']; eauto.
Qed.

(** No scraper lets an exception out. *)
Lemma scrape_total v scraper course date w :
  exists teeTimes w', scrape v scraper course date w = (Normal teeTimes, w').
Proof.
  destruct (cacheTag scraper) as [tag|] eqn:Htag.
  - rewrite (scrape_cacheAside v scraper tag) by assumption.
    apply cacheAside_total.
  - destruct scraper; try discriminate. rewrite scrape_generic. eauto.
Qed.

Ltac ops :=
  unfold cacheAside, redis_get, redis_setex, redis_del, getBrowser, newPage,
    page_goto, page_evaluate, page_close, axios_get in *.

Lemma onMiss_outcome v scraper tag course date key w c w' :
  cacheTag scraper = Some tag ->
  onMiss v scraper course date key w = (c, w') ->
  missOutcome key w c w'.
Proof.
  intros Htag H. unfold missOutcome.
  destruct v, scraper; try discriminate; simpl in H;
    unfold ForeUpScraper_onMiss, Server.GolfNowScraper_onMiss,
      Server.ChronogolfScraper_onMiss, Part001.GolfNowScraper_onMiss,
      Part001.ChronogolfScraper_onMiss in H;
    ops; run; repeat case_match; simplify_eq; simpl;
    (split; [lia | auto]).
Qed.

Lemma onMiss_requests v scraper course date key w :
  requests (snd (onMiss v scraper course date key w))
  = (requests w ++ upstreamRequest scraper course date w)%list.
Proof.
  destruct v, scraper; simpl;
    unfold ForeUpScraper_onMiss, Server.GolfNowScraper_onMiss,
      Server.ChronogolfScraper_onMiss, Part001.GolfNowScraper_onMiss,
      Part001.ChronogolfScraper_onMiss;
    ops; run; repeat case_match; simplify_eq; simpl;
    rewrite ?app_nil_r; reflexivity.
Qed.

Lemma cached_elapse_miss key w w1 dt :
  cached key w = None ->
  redis w1 = redis w ->
  clock w <= clock w1 ->
  0 <= dt ->
  cached key (elapse dt w1) = None.
Proof.
  unfold cached. simpl. intros H Hr Hc Hdt. rewrite Hr.
  destruct (redis w !! key) as [e|]; [|reflexivity].
  destruct (clock w <? expiresAt e) eqn:Hlive; [discriminate|].
  apply Z.ltb_ge in Hlive.
  assert ((clock w1 + dt <? expiresAt e) = false) as -> by (apply Z.ltb_ge; lia).
  reflexivity.
Qed.

Lemma createScraper_tag bookingSystem tag :
  cacheTag (createScraper bookingSystem) = Some tag -> bookingSystem = tag.
Proof.
  unfold createScraper.
  destruct (String.eqb bookingSystem "golfnow") eqn:E1;
    [apply String.eqb_eq in E1; simpl; congruence|].
  destruct (String.eqb bookingSystem "foreup") eqn:E2;
    [apply String.eqb_eq in E2; simpl; congruence|].
  destruct (String.eqb bookingSystem "chronogolf") eqn:E3;
    [apply String.eqb_eq in E3; simpl; congruence|].
  discriminate.
Qed.

(** C7.  No transport, time-out or parse failure gets past a scraper:
    resolving never throws; when the fetch-and-parse of a miss throws, the
    result is the empty sequence and Redis is left as it was, so that a
    later resolution of the same key misses again and goes back
    upstream. *)
Theorem upstream_failure_contained v course date w :
  let scraper := createScraper (bookingSystem course) in
  (exists teeTimes w', resolveIn v course date w = (Normal teeTimes, w')) /\
  (forall tag e w1,
      cacheTag scraper = Some tag ->
      let key := cacheKeyOf tag course date in
      cached key w = None ->
      onMiss v scraper course date key w = (Throw e, w1) ->
      resolveIn v course date w = (Normal [], w1) /\
      redis w1 = redis w /\
      forall dt, 0 <= dt ->
        resolveIn v course date (elapse dt w1)
        = tryCatch (onMiss v scraper course date key) (fun _ => mret [])
            (elapse dt w1)).
Proof.
  intros scraper. split; [apply scrape_total|].
  intros tag e w1 Htag key Hmiss Hthrow.
  pose proof (onMiss_outcome _ _ _ _ _ _ _ _ _ Htag Hthrow) as [Hclock Hredis].
  unfold resolveIn. fold scraper.
  rewrite (scrape_cacheAside v scraper tag) by assumption. fold key.
  split; [|split].
  - rewrite cacheAside_miss by assumption.
    unfold tryCatch. rewrite Hthrow. reflexivity.
  - assumption.
  - intros dt Hdt. apply cacheAside_miss.
    eapply cached_elapse_miss; eassumption.
Qed.

(** *** The JSON round trip on clean values *)

Section JsVal_induction.

Variable P : JsVal -> Prop.
Hypothesis Hundefined : P JUndefined.
Hypothesis Hnull : P JNull.
Hypothesis Hbool : forall b, P (JBool b).
Hypothesis Hnum : forall n, P (JNum n).
Hypothesis Hstr : forall s, P (JStr s).
Hypothesis Harr : forall items, Forall P items -> P (JArr items).
Hypothesis Hobj : forall fields, Forall (fun kv => P (snd kv)) fields -> P (JObj fields).

Fixpoint JsVal_nested_ind (v : JsVal) : P v :=
  match v with
  | JUndefined => Hundefined
  | JNull => Hnull
  | JBool b => Hbool b
  | JNum n => Hnum n
  | JStr s => Hstr s
  | JArr items =>
      Harr items
        ((fix all (l : list JsVal) : Forall P l :=
            match l with
            | [] => List.Forall_nil P
            | x :: r => @List.Forall_cons _ P x r (JsVal_nested_ind x) (all r)
            end) items)
  | JObj fields =>
      Hobj fields
        ((fix all (l : list (string * JsVal)) : Forall (fun kv => P (snd kv)) l :=
            match l with
            | [] => List.Forall_nil _
            | kv :: r =>
                @List.Forall_cons _ (fun kv => P (snd kv)) kv r
                  (JsVal_nested_ind (snd kv)) (all r)
            end) fields)
  end.

End JsVal_induction.

Lemma jsonValue_clean v : isJson v = true -> jsonValue v = v.
Proof.
  induction v using JsVal_nested_ind; simpl; try reflexivity; try discriminate.
  - destruct n; simpl; intros; try discriminate; reflexivity.
  - intros Hall. f_equal.
    induction H as [|x r Hx _ IH]; simpl in *; [reflexivity|].
    apply andb_prop in Hall as [Hc Hr]. rewrite Hx, IH by assumption. reflexivity.
  - intros Hall. f_equal.
    induction H as [|[k x] r Hx _ IH]; simpl in *; [reflexivity|].
    apply andb_prop in Hall as [Hc Hr]. rewrite IH by assumption.
    rewrite Hx by assumption. destruct x; try reflexivity. discriminate.
Qed.

Lemma jsonProp_clean v : cleanProp v = true -> jsonProp v = v.
Proof.
  destruct v; simpl; try reflexivity; intros H.
  - destruct n; simpl in *; try discriminate; reflexivity.
  - apply (jsonValue_clean (JArr items)), H.
  - apply (jsonValue_clean (JObj fields)), H.
Qed.

Lemma jsonNumeric_clean x : cleanNumeric x = true -> jsonNumeric x = x.
Proof. destruct x as [| |[| |q]]; simpl; intros; try discriminate; reflexivity. Qed.

Lemma jsonTeeTime_clean t : cleanTeeTime t = true -> jsonTeeTime t = t.
Proof.
  unfold cleanTeeTime, jsonTeeTime. destruct t as [ti pr av ho hd]. simpl.
  intros H. repeat (apply andb_prop in H as [H ?]).
  rewrite !jsonProp_clean, !jsonNumeric_clean by assumption. reflexivity.
Qed.

(** Tee times without [NaN], infinities or nested [undefined] come back
    from the cache as they went in. *)
Lemma jsonRoundTrip_clean teeTimes :
  forallb cleanTeeTime teeTimes = true -> jsonRoundTrip teeTimes = teeTimes.
Proof.
  unfold jsonRoundTrip. induction teeTimes as [|t r IH]; simpl; [reflexivity|].
  intros H. apply andb_prop in H as [Ht Hr].
  rewrite jsonTeeTime_clean, IH by assumption. reflexivity.
Qed.

(** A miss never yields a slot.  The block returns the empty sequence
    before it fetches (no browser, no locator in the URL), or it throws:
    the fetch fails, or the body cannot be mapped, or fetch and parse
    succeed and [redis.setex] is not a function.  Redis is as it was. *)
Lemma onMiss_empty v scraper tag course date key w c w' :
  cacheTag scraper = Some tag ->
  onMiss v scraper course date key w = (c, w') ->
  (c = Normal [] \/ exists e, c = Throw e) /\ redis w' = redis w /\ clock w <= clock w'.
Proof.
  intros Htag H.
  destruct v, scraper; try discriminate; simpl in H;
    unfold ForeUpScraper_onMiss, Server.GolfNowScraper_onMiss,
      Server.ChronogolfScraper_onMiss, Part001.GolfNowScraper_onMiss,
      Part001.ChronogolfScraper_onMiss in H;
    ops; run; repeat case_match; simplify_eq; simpl;
    (split; [eauto|split; [reflexivity|lia]]).
Qed.

Lemma scrape_miss_empty v scraper tag course date w :
  cacheTag scraper = Some tag ->
  cached (cacheKeyOf tag course date) w = None ->
  exists w',
    scrape v scraper course date w = (Normal [], w') /\
    redis w' = redis w /\ clock w <= clock w' /\
    requests w' = (requests w ++ upstreamRequest scraper course date w)%list.
Proof.
  intros Htag Hmiss.
  rewrite (scrape_cacheAside v scraper tag) by exact Htag.
  rewrite cacheAside_miss by exact Hmiss.
  pose proof (onMiss_requests v scraper course date (cacheKeyOf tag course date) w)
    as Hreq.
  unfold tryCatch.
  destruct (onMiss v scraper course date (cacheKeyOf tag course date) w)
    as [c w'] eqn:Hrun.
  destruct (onMiss_empty _ _ _ _ _ _ _ _ _ Htag Hrun) as ([->|[e ->]] & Hredis & Hclock);
    exists w'; simpl in *; auto.
Qed.

(** So a key that is unset stays unset, whatever upstream answered. *)
Lemma miss_is_not_cached v scraper tag course date w dt :
  cacheTag scraper = Some tag ->
  cached (cacheKeyOf tag course date) w = None ->
  0 <= dt ->
  cached (cacheKeyOf tag course date)
    (elapse dt (snd (scrape v scraper course date w))) = None.
Proof.
  intros Htag Hmiss Hdt.
  destruct (scrape_miss_empty v scraper tag course date w Htag Hmiss)
    as (w' & -> & Hredis & Hclock & _).
  eapply cached_elapse_miss; eassumption.
Qed.

(** C3.  Bonneville on 2024-06-01, nothing cached, ForeUp answering with
    one slot.  The first resolution fetches and maps the slot, throws at
    [redis.setex] and answers with the empty sequence; nothing is stored,
    and the second resolution, a minute later, sends the same request
    upstream again. *)
Theorem second_resolve_fetches_again :
  axios priced 0 bonnevilleRequest = Normal foreUpBody /\
  ForeUp_teeTimes foreUpBody = Normal foreUpSlots /\
  exists w1 w2,
    resolveIn ServerJs bonneville "2024-06-01" priced = (Normal [], w1) /\
    redis w1 = redis priced /\
    requests w1 = [bonnevilleRequest] /\
    resolveIn ServerJs bonneville "2024-06-01" (elapse 60 w1) = (Normal [], w2) /\
    requests w2 = [bonnevilleRequest; bonnevilleRequest].
Proof.
  split; [reflexivity|]. split; [reflexivity|].
  eexists _, _. split; [vm_compute; reflexivity|].
  split; [reflexivity|]. split; [reflexivity|].
  split; [vm_compute; reflexivity|reflexivity].
Qed.

(** [refresh] of a course of a known booking system, when Redis takes
    the deletion: the key is deleted, the scraper misses and sends the
    course's request, and the answer is the empty sequence whatever came
    back. *)
Lemma refreshCourse_known course date tag w :
  cacheTag (createScraper (bookingSystem course)) = Some tag ->
  let key := cacheKeyOf (bookingSystem course) course date in
  delReply w key = None ->
  exists w',
    Server.refreshCourse course date w = (Normal [], w') /\
    redis w' = delete key (redis w) /\
    clock w <= clock w' /\
    requests w'
    = (requests w
       ++ upstreamRequest (createScraper (bookingSystem course)) course date w)%list.
Proof.
  intros Htag key Hdel.
  assert (bookingSystem course = tag) as Hbs by (apply createScraper_tag; exact Htag).
  unfold Server.refreshCourse, Server.resolve. fold key.
  change Server.scrapeTeeTimes with (scrape ServerJs).
  unfold redis_del. unfold mbind at 1, M_bind. rewrite Hdel.
  destruct (scrape_miss_empty ServerJs _ tag course date
              (setRedis (delete key (redis w)) w) Htag)
    as (w' & Hrun & Hredis & Hclock & Hreq).
  { unfold cached, key. simpl. rewrite Hbs, lookup_delete_eq. reflexivity. }
  exists w'. split; [exact Hrun|]. split; [exact Hredis|]. split; [exact Hclock|].
  rewrite Hreq. destruct (createScraper (bookingSystem course)); reflexivity.
Qed.

(** C1.  Bonneville on 2024-06-01 with an entry in Redis, ForeUp
    answering with one slot.  [refresh] deletes the entry and sends the
    request, bypassing the cache; the slot that comes back is mapped and
    then lost when [redis.setex] throws: the handler answers with the
    empty sequence, and Redis holds nothing for the key. *)
Theorem refresh_drops_what_it_fetched :
  cached "foreup:bonneville:2024-06-01" warm = Some foreUpSlots /\
  axios warm 0 bonnevilleRequest = Normal foreUpBody /\
  ForeUp_teeTimes foreUpBody = Normal foreUpSlots /\
  exists w',
    Server.refresh "bonneville" (Some "2024-06-01") warm
    = (Normal (Ok {| Server.tt_course := bonneville;
                     Server.tt_date := "2024-06-01";
                     Server.tt_teeTimes := [] |}), w') /\
    requests w' = [bonnevilleRequest] /\
    redis w' = ∅.
Proof.
  split; [reflexivity|]. split; [reflexivity|]. split; [reflexivity|].
  eexists. split; [vm_compute; reflexivity|]. split; reflexivity.
Qed.

(** Resolving through the dispatcher never throws. *)
Lemma Server_resolve_total course date w :
  exists teeTimes w', Server.resolve course date w = (Normal teeTimes, w').
Proof. apply (scrape_total ServerJs). Qed.

Lemma Part001_resolve_total course date w :
  exists teeTimes w', Part001.resolve course date w = (Normal teeTimes, w').
Proof. apply (scrape_total Part001Js). Qed.

(** ** Batch *)

Lemma mapM_cons {A B} (f : A -> M B) x r w :
  mapM f (x :: r) w
  = match f x w with
    | (Normal y, w1) =>
        match mapM f r w1 with
        | (Normal ys, w2) => (Normal (y :: ys), w2)
        | (Throw e, w2) => (Throw e, w2)
        end
    | (Throw e, w1) => (Throw e, w1)
    end.
Proof. reflexivity. Qed.

Lemma omap_cons {A B} (f : A -> option B) x l :
  omap f (x :: l) = match f x with Some y => y :: omap f l | None => omap f l end.
Proof. reflexivity. Qed.

Lemma batchEntry_run date course w teeTimes w1 :
  Part001.resolve course date w = (Normal teeTimes, w1) ->
  batchEntry date course w
  = (Normal {| Part001.courseId := id course; Part001.courseName := name course;
               Part001.teeTimes := teeTimes; Part001.count := length teeTimes |}, w1).
Proof. intros H. unfold batchEntry, mbind, M_bind. rewrite H. reflexivity. Qed.

Lemma settle_found courses date cid course w teeTimes w1 :
  Part001.findIn courses cid = Some course ->
  Part001.resolve course date w = (Normal teeTimes, w1) ->
  Part001.settle (Part001.batchCourse courses date cid) w
  = (Normal (Normal (Some
       {| Part001.courseId := id course; Part001.courseName := name course;
          Part001.teeTimes := teeTimes; Part001.count := length teeTimes |})), w1).
Proof.
  intros Hf H. unfold Part001.settle, Part001.batchCourse, mbind, M_bind.
  rewrite Hf, H. reflexivity.
Qed.

Lemma settle_missing courses date cid w :
  Part001.findIn courses cid = None ->
  Part001.settle (Part001.batchCourse courses date cid) w = (Normal (Normal None), w).
Proof.
  intros Hf. unfold Part001.settle, Part001.batchCourse. rewrite Hf. reflexivity.
Qed.

Lemma batch_settled courses date courseIds : forall w,
  exists entries w',
    mapM (batchEntry date) (omap (Part001.findIn courses) courseIds) w
    = (Normal entries, w') /\
    exists results,
      mapM (fun cid => Part001.settle (Part001.batchCourse courses date cid)) courseIds w
      = (Normal results, w') /\
      omap Part001.fulfilledValue results = entries.
Proof.
  induction courseIds as [|cid rest IH]; intros w.
  - exists [], w. split; [reflexivity|]. exists []. split; reflexivity.
  - rewrite omap_cons, mapM_cons.
    destruct (Part001.findIn courses cid) as [course|] eqn:Hfind.
    + destruct (Part001_resolve_total course date w) as (ts & w1 & Hres).
      destruct (IH w1) as (entries & w' & Hent & results & Hres' & Hom).
      rewrite mapM_cons, (batchEntry_run _ _ _ _ _ Hres), Hent.
      rewrite (settle_found _ _ _ _ _ _ _ Hfind Hres), Hres'.
      eexists _, w'. split; [reflexivity|].
      eexists. split; [reflexivity|]. rewrite omap_cons. simpl. rewrite Hom. reflexivity.
    + destruct (IH w) as (entries & w' & Hent & results & Hres' & Hom).
      rewrite (settle_missing _ _ _ _ Hfind), Hres', Hent.
      exists entries, w'. split; [reflexivity|].
      eexists. split; [reflexivity|]. rewrite omap_cons. simpl. exact Hom.
Qed.

Lemma mapM_batchEntry date courses : forall w entries w',
  mapM (batchEntry date) courses w = (Normal entries, w') ->
  List.map Part001.courseId entries = List.map id courses /\
  Forall (fun e => Part001.count e = length (Part001.teeTimes e)) entries.
Proof.
  induction courses as [|c rest IH]; intros w entries w' H.
  - inversion H. split; constructor.
  - rewrite mapM_cons in H.
    destruct (Part001_resolve_total c date w) as (ts & w1 & Hres).
    rewrite (batchEntry_run _ _ _ _ _ Hres) in H.
    destruct (mapM (batchEntry date) rest w1) as [[es|e] w2] eqn:Hrest; [|discriminate].
    inversion H; subst. destruct (IH _ _ _ Hrest) as [Hids Hcount].
    split; simpl; [rewrite Hids; reflexivity|constructor; [reflexivity|assumption]].
Qed.

(** C5.  The batch handler answers with one entry for every course id
    found in the registry, in the order asked, each holding the slot
    sequence the dispatcher resolved, unfiltered, and its length; an entry
    with no slots is kept like any other. *)
Theorem batch_keeps_every_course courses courseIds bodyDate w :
  let found := omap (Part001.findIn courses) courseIds in
  let day := dayOf bodyDate w in
  exists entries w',
    mapM (batchEntry day) found w = (Normal entries, w') /\
    Part001.batchIn courses courseIds bodyDate w
    = (Normal (Ok {| Part001.data := entries; Part001.date := day;
                     Part001.totalCourses := length found |}), w') /\
    List.map Part001.courseId entries = List.map id found /\
    Forall (fun e => Part001.count e = length (Part001.teeTimes e)) entries.
Proof.
  intros found day.
  destruct (batch_settled courses day courseIds w)
    as (entries & w' & Hent & results & Hres & Hom).
  fold found in Hent.
  destruct (mapM_batchEntry _ _ _ _ _ Hent) as [Hids Hcount].
  exists entries, w'. split; [exact Hent|]. split; [|split; assumption].
  assert (length entries = length found) as Hlen.
  { rewrite <- (length_map Part001.courseId), Hids, length_map. reflexivity. }
  unfold Part001.batchIn, tryCatch, mbind, M_bind.
  subst day. destruct bodyDate as [d|]; unfold today, mret, M_ret, dayOf in *;
    rewrite Hres, Hom, Hlen; reflexivity.
Qed.

(** Bonneville is answered from Redis; River Oaks has no slots and is in
    the answer all the same; the id that is not in the registry is not. *)
Example batch_keeps_empty_course :
  exists body w',
    Part001.batch [JStr "bonneville"; JStr "nowhere"; JStr "river-oaks"] None warm
    = (Normal (Ok body), w') /\
    List.map (fun e => (Part001.courseId e, Part001.count e)) (Part001.data body)
    = [("bonneville", 1%nat); ("river-oaks", 0%nat)].
Proof.
  eexists _, _. split; [vm_compute; reflexivity|reflexivity].
Qed.

(** ** Search *)

Lemma keepTime_true maxPrice minSlots t :
  Server.keepTime maxPrice minSlots t = true <->
  (numeric_truthy maxPrice = false \/
   number_lt (toNumber maxPrice) (toNumber (price t)) = false) /\
  number_lt (toNumber (availableSlots t)) minSlots = false.
Proof.
  unfold Server.keepTime.
  destruct (numeric_truthy maxPrice), (number_lt (toNumber maxPrice) _),
    (number_lt (toNumber (availableSlots t)) minSlots); simpl; intuition congruence.
Qed.

Lemma number_lt_Fin p q : number_lt (Fin p) (Fin q) = false <-> (q <= p)%Q.
Proof.
  simpl. rewrite negb_false_iff. apply Qle_bool_iff.
Qed.

(** With a maximum price that is a number other than zero, on a slot whose
    price and places are numbers, the filter is the one of the
    specification. *)
Lemma keepTime_decimal m k p a t :
  price t = IsNum (Fin p) ->
  availableSlots t = IsNum (Fin a) ->
  ~ (m == 0)%Q ->
  Server.keepTime (IsNum (Fin m)) (Fin k) t = true <-> (p <= m)%Q /\ (k <= a)%Q.
Proof.
  intros Hp Ha Hm. rewrite keepTime_true, Hp, Ha. simpl toNumber.
  rewrite !number_lt_Fin. simpl.
  assert (Qeq_bool m 0 = false) as Hz.
  { destruct (Qeq_bool m 0) eqn:E; [|reflexivity].
    apply Qeq_bool_iff in E. contradiction. }
  rewrite Hz. simpl. intuition congruence.
Qed.

Lemma keepTime_no_maximum k a t :
  availableSlots t = IsNum (Fin a) ->
  Server.keepTime IsNull (Fin k) t = true <-> (k <= a)%Q.
Proof.
  intros Ha. rewrite keepTime_true, Ha. simpl toNumber.
  rewrite number_lt_Fin. simpl. intuition.
Qed.

(** A maximum price of zero switches the price filter off. *)
Lemma keepTime_zero_maximum m minSlots t :
  (m == 0)%Q ->
  Server.keepTime (IsNum (Fin m)) minSlots t = Server.keepTime IsNull minSlots t.
Proof.
  intros Hm. unfold Server.keepTime. simpl.
  apply Qeq_bool_iff in Hm. rewrite Hm. reflexivity.
Qed.

Lemma searchCourse_run date maxPrice minSlots course w teeTimes w1 :
  Server.resolve course date w = (Normal teeTimes, w1) ->
  Server.searchCourse date maxPrice minSlots course w
  = (Normal {| Server.sr_course := course;
               Server.sr_teeTimes :=
                 List.filter (Server.keepTime maxPrice minSlots) teeTimes |}, w1).
Proof. intros H. unfold Server.searchCourse, mbind, M_bind. rewrite H. reflexivity. Qed.

Lemma searchCourse_all date maxPrice minSlots courses : forall w,
  exists allResults w',
    mapM (Server.searchCourse date maxPrice minSlots) courses w
    = (Normal allResults, w') /\
    List.map Server.sr_course allResults = courses /\
    Forall (fun r => Forall (fun t => Server.keepTime maxPrice minSlots t = true)
                       (Server.sr_teeTimes r)) allResults.
Proof.
  induction courses as [|c rest IH]; intros w.
  - exists [], w. repeat split; constructor.
  - destruct (Server_resolve_total c date w) as (ts & w1 & Hres).
    destruct (IH w1) as (rs & w' & Hrs & Hmap & Hkeep).
    rewrite mapM_cons, (searchCourse_run _ _ _ _ _ _ _ Hres), Hrs.
    eexists _, w'. split; [reflexivity|]. split.
    + simpl. rewrite Hmap. reflexivity.
    + constructor; [|assumption]. simpl.
      apply List.Forall_forall. intros t Ht. apply List.filter_In in Ht. tauto.
Qed.

Lemma orToday_run given w :
  exists date, Server.orToday given w = (Normal date, w).
Proof.
  unfold Server.orToday, today. destruct given as [d|]; [destruct (nonEmpty d)|]; eauto.
Qed.

(** The search handler always answers; a course is in the answer exactly
    when its filtered sequence is not empty, and every slot in the answer
    passed the filter. *)
Lemma search_results courses queryDate queryMaxPrice queryMinSlots w :
  exists date allResults w',
    Server.searchIn courses queryDate queryMaxPrice queryMinSlots w
    = (Normal (Ok {| Server.sb_date := date;
                     Server.sb_maxPrice := Server.queryMaxPrice queryMaxPrice;
                     Server.sb_minSlots := Server.queryMinSlots queryMinSlots;
                     Server.sb_results := List.filter Server.hasTeeTimes allResults |}),
       w') /\
    List.map Server.sr_course allResults = courses /\
    forall r, In r (List.filter Server.hasTeeTimes allResults) <->
              In r allResults /\ Server.sr_teeTimes r <> [].
Proof.
  destruct (orToday_run queryDate w) as (date & Hdate).
  destruct (searchCourse_all date (Server.queryMaxPrice queryMaxPrice)
              (Server.queryMinSlots queryMinSlots) courses w)
    as (rs & w' & Hrs & Hmap & _).
  exists date, rs, w'. split; [|split; [exact Hmap|]].
  - unfold Server.searchIn, tryCatch, mbind, M_bind. rewrite Hdate, Hrs. reflexivity.
  - intros r. rewrite List.filter_In. unfold Server.hasTeeTimes.
    destruct (Server.sr_teeTimes r); unfold Nat.ltb; simpl; intuition congruence.
Qed.

(** The filter on the two sample slots (45 with 4 places, 45 with 2). *)
Example filter_maxPrice_40 :
  List.filter (Server.keepTime (Server.queryMaxPrice (Some "40"))
                 (Server.queryMinSlots None)) sampleTeeTimes = [].
Proof. reflexivity. Qed.

Example filter_maxPrice_50_minSlots_3 :
  List.map time
    (List.filter (Server.keepTime (Server.queryMaxPrice (Some "50"))
                    (Server.queryMinSlots (Some "3"))) sampleTeeTimes)
  = [JStr "7:00 AM"].
Proof. reflexivity. Qed.

Example filter_maxPrice_50_minSlots_1 :
  List.filter (Server.keepTime (Server.queryMaxPrice (Some "50"))
                 (Server.queryMinSlots (Some "1"))) sampleTeeTimes
  = sampleTeeTimes.
Proof. reflexivity. Qed.

(** C4.  A request with [maxPrice=0] parses the maximum as the number 0,
    which the guard of the filter takes for no maximum: under it every
    slot is kept or dropped as under no maximum at all, a slot at 45 with
    four places is kept, and a search that finds such a slot in Redis
    returns it under the filter [maxPrice: 0]. *)
Theorem search_zero_maxPrice_keeps_priced_slots :
  Server.queryMaxPrice (Some "0") = lit 0 /\
  (forall minSlots t,
      Server.keepTime (lit 0) minSlots t = Server.keepTime IsNull minSlots t) /\
  List.filter (Server.keepTime (Server.queryMaxPrice (Some "0"))
                 (Server.queryMinSlots None)) foreUpSlots = foreUpSlots /\
  exists w',
    Server.search (Some "2024-06-01") (Some "0") None warm
    = (Normal (Ok {| Server.sb_date := "2024-06-01";
                     Server.sb_maxPrice := lit 0;
                     Server.sb_minSlots := Fin 1;
                     Server.sb_results :=
                       [ {| Server.sr_course := bonneville;
                            Server.sr_teeTimes := foreUpSlots |} ] |}), w').
Proof.
  split; [reflexivity|]. split; [intros minSlots t; reflexivity|].
  split; [reflexivity|].
  eexists. vm_compute. reflexivity.
Qed.

(** ** The rendered page *)

(** On the success path the page is closed (and the slots read are lost
    at [redis.setex]). *)
Lemma golfnow_success_closes_page v course date w els :
  let key := cacheKeyOf "golfnow" course date in
  let reply := pages w (length (requests w)) (bookingUrl course +:+ "?date=" +:+ date) in
  cached key w = None ->
  browser w = true ->
  navigation reply = None ->
  document reply = Normal els ->
  exists w',
    scrape v GolfNowScraper course date w = (Normal [], w') /\
    openPages w' = openPages w.
Proof.
  intros key reply Hmiss Hb Hnav Hdoc. subst key reply.
  rewrite (scrape_cacheAside v GolfNowScraper "golfnow") by reflexivity.
  rewrite cacheAside_miss by assumption.
  destruct v; simpl;
    unfold Server.GolfNowScraper_onMiss, Part001.GolfNowScraper_onMiss;
    ops; run; repeat (rewrite ?Hb, ?Hnav, ?Hdoc; simpl);
    eexists; (split; [reflexivity|reflexivity]).
Qed.

(** When navigation or evaluation throws, [catch] returns the empty
    sequence and [page.close()] was never reached: one more page stays
    open. *)
Lemma golfnow_failure_leaks_page v course date w :
  let key := cacheKeyOf "golfnow" course date in
  let reply := pages w (length (requests w)) (bookingUrl course +:+ "?date=" +:+ date) in
  cached key w = None ->
  browser w = true ->
  (is_Some (navigation reply) \/ exists e, document reply = Throw e) ->
  exists w',
    scrape v GolfNowScraper course date w = (Normal [], w') /\
    openPages w' = S (openPages w).
Proof.
  intros key reply Hmiss Hb Hfail. subst key reply.
  rewrite (scrape_cacheAside v GolfNowScraper "golfnow") by reflexivity.
  rewrite cacheAside_miss by assumption.
  destruct v; simpl;
    unfold Server.GolfNowScraper_onMiss, Part001.GolfNowScraper_onMiss;
    ops; run; repeat (rewrite ?Hb; simpl);
    (destruct (navigation _) as [e|] eqn:Hnav; simpl;
     [eexists; split; reflexivity|]);
    (destruct Hfail as [[e He]|[e He]]; [discriminate|]);
    rewrite He; simpl; eexists; split; reflexivity.
Qed.

(** C9.  River Oaks, navigation timing out: the scraper answers with the
    empty sequence and leaves the page it opened open. *)
Theorem golfnow_timeout_leaves_page_open :
  openPages stalled = 0%nat /\
  exists w',
    Server.GolfNowScraper_scrapeTeeTimes riverOaks "2024-06-01" stalled
    = (Normal [], w') /\
    openPages w' = 1%nat.
Proof.
  split; [reflexivity|].
  eexists. split; [vm_compute; reflexivity|reflexivity].
Qed.

(** ** Records without a time *)

Lemma getProp_record v k :
  nullish v = false -> getProp v k = Normal (getPropOpt v k).
Proof. destruct v; simpl; intros; congruence. Qed.

Lemma mapC_total {B} (f : JsVal -> completion B) items :
  Forall (fun x => exists y, f x = Normal y) items ->
  exists ys, mapC f items = Normal ys /\ Forall2 (fun x y => f x = Normal y) items ys.
Proof.
  induction 1 as [|x r [y Hy] _ (ys & Hys & Hall)].
  - exists []. split; [reflexivity|constructor].
  - exists (y :: ys). simpl. unfold mbind, completion_bind. rewrite Hy, Hys.
    split; [reflexivity|constructor; assumption].
Qed.

Lemma ForeUp_slot_total slot :
  nullish slot = false -> exists t, ForeUp_slot slot = Normal t.
Proof.
  intros H. unfold ForeUp_slot. rewrite (getProp_record _ _ H). simpl. eauto.
Qed.

Lemma Part001_Chronogolf_slot_total slot :
  nullish slot = false -> exists t, Part001.Chronogolf_slot slot = Normal t.
Proof.
  intros H. unfold Part001.Chronogolf_slot. rewrite (getProp_record _ _ H). simpl. eauto.
Qed.

Lemma Server_Chronogolf_slot_total slot :
  nullish slot = false -> exists t, Server.Chronogolf_slot slot = Normal t.
Proof.
  intros H. unfold Server.Chronogolf_slot. rewrite (getProp_record _ _ H). simpl. eauto.
Qed.

(** ForeUp, both variants: every record of the batch is normalised, and
    exactly those whose time is falsy are dropped. *)
Lemma ForeUp_drops_untimed items :
  Forall (fun r => nullish r = false) items ->
  exists mapped,
    Forall2 (fun r t => ForeUp_slot r = Normal t) items mapped /\
    ForeUp_teeTimes (JArr items)
    = Normal (List.filter (fun t => truthy (time t)) mapped).
Proof.
  intros H.
  destruct (mapC_total ForeUp_slot items) as (ys & Hys & Hall).
  { eapply Forall_impl; [exact H|]. intros r Hr. apply ForeUp_slot_total, Hr. }
  exists ys. split; [exact Hall|].
  unfold ForeUp_teeTimes, arrayMap, mbind, completion_bind. rewrite Hys. reflexivity.
Qed.

(** Chronogolf in the second variant does the same. *)
Lemma Part001_Chronogolf_drops_untimed items :
  Forall (fun r => nullish r = false) items ->
  exists mapped,
    Forall2 (fun r t => Part001.Chronogolf_slot r = Normal t) items mapped /\
    Part001.Chronogolf_teeTimes (JObj [("tee_times", JArr items)])
    = Normal (List.filter (fun t => truthy (time t)) mapped).
Proof.
  intros H.
  destruct (mapC_total Part001.Chronogolf_slot items) as (ys & Hys & Hall).
  { eapply Forall_impl; [exact H|]. intros r Hr.
    apply Part001_Chronogolf_slot_total, Hr. }
  exists ys. split; [exact Hall|].
  unfold Part001.Chronogolf_teeTimes, arrayMap. simpl.
  unfold mbind, completion_bind. rewrite Hys. reflexivity.
Qed.

(** The page callback skips an element without time text. *)
Lemma GolfNow_drops_untimed e :
  optTruthy (option_map trim (timeNode e)) = false -> GolfNow_element e = None.
Proof.
  unfold GolfNow_element, optTruthy.
  destruct (option_map trim (timeNode e)) as [t|]; [|reflexivity].
  intros ->. destruct (option_map trim (priceNode e)); reflexivity.
Qed.

(** C6.  The Chronogolf normaliser of server.js maps the records and does
    not filter: a record without [start_time] stays in the sequence it
    gives, with no time.  The normaliser of the second variant, which ends
    with the filter, drops it. *)
Theorem server_chronogolf_keeps_untimed_record :
  Server.Chronogolf_teeTimes chronogolfBody
  = Normal [ {| time := JUndefined; price := lit 30; availableSlots := lit 4;
                holes := lit 18; isHotDeal := JBool false |};
             {| time := JStr "08:10"; price := lit 30; availableSlots := lit 4;
                holes := lit 18; isHotDeal := JBool false |} ]
  /\ Part001.Chronogolf_teeTimes chronogolfBody
     = Normal [ {| time := JStr "08:10"; price := lit 30; availableSlots := lit 4;
                   holes := lit 18; isHotDeal := JBool false |} ].
Proof.
  repeat split; vm_compute; reflexivity.
Qed.

(** ** The fallback *)

(** C8.  A booking system other than the three known ones is dispatched to
    the generic scraper, which cannot throw and, in each variant, answers
    with one fixed sequence whatever the course, the date and the world:
    the two sample slots in server.js, nothing in the second variant. *)
Theorem unknown_tag_falls_back v course date w :
  bookingSystem course <> "golfnow" ->
  bookingSystem course <> "foreup" ->
  bookingSystem course <> "chronogolf" ->
  createScraper (bookingSystem course) = GenericScraper /\
  resolveIn v course date w = (Normal (fallbackTeeTimes v), w) /\
  (fallbackTeeTimes v = [] \/ fallbackTeeTimes v = sampleTeeTimes).
Proof.
  intros H1 H2 H3.
  assert (createScraper (bookingSystem course) = GenericScraper) as Hgen.
  { unfold createScraper.
    apply String.eqb_neq in H1, H2, H3. rewrite H1, H2, H3. reflexivity. }
  split; [exact Hgen|]. split.
  - unfold resolveIn. rewrite Hgen. apply scrape_generic.
  - destruct v; simpl; auto.
Qed.

(** ** Defaults of the normalisers *)

Lemma jsOr_undefined b : JUndefined ||| b = b.
Proof. reflexivity. Qed.






(** ** Zero *)

Lemma assoc_without k k' fs :
  assoc k' (without k fs) = if String.eqb k' k then JUndefined else assoc k' fs.
Proof.
  induction fs as [|[k0 v0] rest IH]; simpl.
  - destruct (String.eqb k' k); reflexivity.
  - destruct (String.eqb k k0) eqn:E0; simpl.
    + apply String.eqb_eq in E0. subst k0. rewrite IH.
      destruct (String.eqb k' k); reflexivity.
    + rewrite IH. destruct (String.eqb k' k0) eqn:E1; [|reflexivity].
      apply String.eqb_eq in E1. subst k0.
      rewrite String.eqb_sym, E0. reflexivity.
Qed.

Lemma isZero_falsy v : isZero v = true -> truthy v = false.
Proof.
  destruct v as [| | |[| |q]| | |]; simpl; try discriminate.
  intros ->. reflexivity.
Qed.

Section ZeroField.

Variables (k : string) (fs : list (string * JsVal)).
Hypothesis Hzero : isZero (assoc k fs) = true.

Lemma jsOr_without k' b : assoc k' (without k fs) ||| b = assoc k' fs ||| b.
Proof.
  rewrite assoc_without. destruct (String.eqb k' k) eqn:E; [|reflexivity].
  apply String.eqb_eq in E. subst k'.
  unfold jsOr at 2. rewrite (isZero_falsy _ Hzero). reflexivity.
Qed.

Lemma isTrue_without k' : isTrue (assoc k' (without k fs)) = isTrue (assoc k' fs).
Proof.
  rewrite assoc_without. destruct (String.eqb k' k) eqn:E; [|reflexivity].
  apply String.eqb_eq in E. subst k'.
  destruct (assoc k fs) as [| | |[| |q]| | |]; try discriminate. reflexivity.
Qed.

Lemma getPropOpt_without k' k2 :
  getPropOpt (assoc k' (without k fs)) k2 = getPropOpt (assoc k' fs) k2.
Proof.
  rewrite assoc_without. destruct (String.eqb k' k) eqn:E; [|reflexivity].
  apply String.eqb_eq in E. subst k'.
  destruct (assoc k fs) as [| | |[| |q]| | |]; try discriminate. reflexivity.
Qed.

Lemma jsOr_without_second a k' b :
  (a ||| assoc k' (without k fs)) ||| b = (a ||| assoc k' fs) ||| b.
Proof.
  unfold jsOr at 2 4. destruct (truthy a); [reflexivity|]. apply jsOr_without.
Qed.

Lemma assoc_without_other k' : k <> k' -> assoc k' (without k fs) = assoc k' fs.
Proof.
  intros Hk. rewrite assoc_without.
  assert (String.eqb k' k = false) as -> by (apply String.eqb_neq; congruence).
  reflexivity.
Qed.

Lemma ForeUp_slot_without :
  k <> "start_time" ->
  ForeUp_slot (JObj fs) = ForeUp_slot (JObj (without k fs)).
Proof.
  intros Hk. unfold ForeUp_slot. simpl. unfold mbind, completion_bind.
  rewrite !jsOr_without_second, !jsOr_without, !isTrue_without.
  rewrite (assoc_without_other "start_time") by exact Hk. reflexivity.
Qed.

Lemma Part001_Chronogolf_slot_without :
  k <> "time" ->
  Part001.Chronogolf_slot (JObj fs) = Part001.Chronogolf_slot (JObj (without k fs)).
Proof.
  intros Hk. unfold Part001.Chronogolf_slot. simpl. unfold mbind, completion_bind.
  rewrite !jsOr_without_second, !jsOr_without, getPropOpt_without.
  rewrite (assoc_without_other "time") by exact Hk. reflexivity.
Qed.

Lemma Server_Chronogolf_slot_without :
  k <> "start_time" ->
  Server.Chronogolf_slot (JObj fs) = Server.Chronogolf_slot (JObj (without k fs)).
Proof.
  intros Hk. unfold Server.Chronogolf_slot. simpl. unfold mbind, completion_bind.
  rewrite !jsOr_without.
  rewrite (assoc_without_other "start_time") by exact Hk. reflexivity.
Qed.

End ZeroField.

Lemma jsOr_zeroOrAbsent slot k b : zeroOrAbsent slot k -> getPropOpt slot k ||| b = b.
Proof.
  intros [H|H]; unfold jsOr.
  - unfold absent in H. rewrite H. reflexivity.
  - rewrite (isZero_falsy _ H). reflexivity.
Qed.

(** C10, as the code has it.  A numeric source field that holds the
    number 0 counts for nothing: each direct-API normaliser gives the
    record the slot it gives the record without that field (the fields
    [time] and [start_time] are not numeric, and are left aside where
    they come last in their chain).  So when every candidate for the
    places is zero or missing the slot has 4 places, and when every
    candidate for the price is zero or missing its price is 50; a later
    candidate that holds a value is used instead. *)
Theorem zero_field_is_absent k fs (Hzero : isZero (assoc k fs) = true) :
  (k <> "start_time" ->
   ForeUp_slot (JObj fs) = ForeUp_slot (JObj (without k fs))) /\
  (k <> "time" ->
   Part001.Chronogolf_slot (JObj fs) = Part001.Chronogolf_slot (JObj (without k fs))) /\
  (k <> "start_time" ->
   Server.Chronogolf_slot (JObj fs) = Server.Chronogolf_slot (JObj (without k fs))) /\
  (forall slot t, ForeUp_slot slot = Normal t ->
     (zeroOrAbsent slot "available_spots" -> zeroOrAbsent slot "max_players" ->
      availableSlots t = lit 4) /\
     (zeroOrAbsent slot "green_fee" -> zeroOrAbsent slot "price" ->
      price t = lit 50) /\
     (zeroOrAbsent slot "holes" -> holes t = lit 18)) /\
  (forall slot t, Part001.Chronogolf_slot slot = Normal t ->
     (zeroOrAbsent slot "available_spots" -> zeroOrAbsent slot "remaining_spots" ->
      availableSlots t = lit 4) /\
     (zeroOrAbsent (getPropOpt slot "rate") "price" -> zeroOrAbsent slot "price" ->
      zeroOrAbsent slot "green_fee" -> price t = lit 50) /\
     (zeroOrAbsent slot "holes" -> zeroOrAbsent slot "nb_holes" ->
      holes t = lit 18)) /\
  (forall slot t, Server.Chronogolf_slot slot = Normal t ->
     (zeroOrAbsent slot "nb_bookable_slots" -> availableSlots t = lit 4) /\
     (zeroOrAbsent slot "green_fee" -> price t = lit 50) /\
     (zeroOrAbsent slot "nb_holes" -> holes t = lit 18)).
Proof.
  split; [apply ForeUp_slot_without; exact Hzero|].
  split; [apply Part001_Chronogolf_slot_without; exact Hzero|].
  split; [apply Server_Chronogolf_slot_without; exact Hzero|].
  split; [|split]; intros slot t Ht.
  - unfold ForeUp_slot in Ht.
    destruct (getProp slot "time") as [x|e]; [|discriminate].
    inversion Ht; subst t; clear Ht. cbn [price availableSlots holes].
    repeat split; intros; rewrite !jsOr_zeroOrAbsent by assumption; reflexivity.
  - unfold Part001.Chronogolf_slot in Ht.
    destruct (getProp slot "start_time") as [x|e]; [|discriminate].
    inversion Ht; subst t; clear Ht. cbn [price availableSlots holes].
    repeat split; intros; rewrite !jsOr_zeroOrAbsent by assumption; reflexivity.
  - unfold Server.Chronogolf_slot in Ht.
    destruct (getProp slot "start_time") as [x|e]; [|discriminate].
    inversion Ht; subst t; clear Ht. cbn [price availableSlots holes].
    repeat split; intros; rewrite !jsOr_zeroOrAbsent by assumption; reflexivity.
Qed.

(** ** Instances *)

Lemma upstream_failure_contained_witness :
  resolveIn ServerJs bonneville "2024-06-01" flaky
  = (Normal [],
     snd (onMiss ServerJs ForeUpScraper bonneville "2024-06-01"
            (cacheKeyOf "foreup" bonneville "2024-06-01") flaky)) /\
  redis (snd (onMiss ServerJs ForeUpScraper bonneville "2024-06-01"
                (cacheKeyOf "foreup" bonneville "2024-06-01") flaky))
  = redis flaky.
Proof.
  destruct (proj2 (upstream_failure_contained ServerJs bonneville "2024-06-01" flaky)
              "foreup" NetworkError
              (snd (onMiss ServerJs ForeUpScraper bonneville "2024-06-01"
                      (cacheKeyOf "foreup" bonneville "2024-06-01") flaky))
              eq_refl eq_refl eq_refl) as (Hres & Hredis & _).
  split; assumption.
Defined.

Lemma unknown_tag_falls_back_witness :
  createScraper (bookingSystem soldierHollow) = GenericScraper /\
  resolveIn ServerJs soldierHollow "2024-06-01" priced = (Normal sampleTeeTimes, priced) /\
  resolveIn Part001Js soldierHollow "2024-06-01" priced = (Normal [], priced).
Proof.
  assert (bookingSystem soldierHollow <> "golfnow") as H1 by discriminate.
  assert (bookingSystem soldierHollow <> "foreup") as H2 by discriminate.
  assert (bookingSystem soldierHollow <> "chronogolf") as H3 by discriminate.
  destruct (unknown_tag_falls_back ServerJs soldierHollow "2024-06-01" priced H1 H2 H3)
    as (Hgen & Hserver & _).
  destruct (unknown_tag_falls_back Part001Js soldierHollow "2024-06-01" priced H1 H2 H3)
    as (_ & Hpart & _).
  repeat split; assumption.
Defined.


(** The statement as given fails when a later candidate holds a value:
    zero [available_spots] with [max_players] 2 are 2 places, and a zero
    [green_fee] with a [price] of 30 is 30. *)
Lemma zero_with_second_candidate :
  ~ zeroBecomesDefault ForeUp_slot (JObj soldOutOfTwo) /\
  ForeUp_slot (JObj soldOutOfTwo)
  = Normal {| time := JStr "7:00 AM"; price := lit 30; availableSlots := lit 2;
              holes := lit 18; isHotDeal := JBool false |}.
Proof.
  split; [|reflexivity].
  intros H. destruct (H _ eq_refl) as [Hplaces _].
  specialize (Hplaces eq_refl). vm_compute in Hplaces. discriminate.
Qed.

Lemma zero_field_is_absent_witness :
  isZero (assoc "available_spots" soldOut) = true /\
  ForeUp_slot (JObj soldOut) = ForeUp_slot (JObj (without "available_spots" soldOut)) /\
  forall t, ForeUp_slot (JObj soldOut) = Normal t ->
            availableSlots t = lit 4 /\ price t = lit 50.
Proof.
  split; [reflexivity|].
  destruct (zero_field_is_absent "available_spots" soldOut eq_refl)
    as (Hforeup & _ & _ & Hdefault & _).
  split.
  - apply Hforeup. discriminate.
  - intros t Ht. destruct (Hdefault (JObj soldOut) t Ht) as (Hplaces & Hprice & _).
    split.
    + apply Hplaces; [right|left]; reflexivity.
    + apply Hprice; [right|left]; reflexivity.
Defined.

(** * Further properties of the scrapers, the handlers and the jobs *)

(** ** What one scrape does to the world *)

Lemma sameSites_refl w : sameSites w w.
Proof. repeat split. Qed.

Lemma sameSites_trans w1 w2 w3 : sameSites w1 w2 -> sameSites w2 w3 -> sameSites w1 w3.
Proof. unfold sameSites. intuition congruence. Qed.

Lemma onMiss_frame v scraper course date key w :
  let w' := snd (onMiss v scraper course date key w) in
  sameSites w w' /\
  (openPages w <= openPages w' <= S (openPages w))%nat /\
  (scraper <> GolfNowScraper -> openPages w' = openPages w).
Proof.
  destruct v, scraper; simpl;
    unfold ForeUpScraper_onMiss, Server.GolfNowScraper_onMiss,
      Server.ChronogolfScraper_onMiss, Part001.GolfNowScraper_onMiss,
      Part001.ChronogolfScraper_onMiss;
    ops; run; repeat case_match; simplify_eq; simpl;
    (split; [unfold sameSites; simpl; auto 10|]); (split; [lia|]);
    intros; congruence || lia.
Qed.

Lemma upstreamRequest_length scraper course date w :
  (length (upstreamRequest scraper course date w) <= 1)%nat.
Proof.
  destruct scraper; simpl; repeat case_match; simpl; lia.
Qed.

Lemma scrape_hit v scraper tag course date w teeTimes :
  cacheTag scraper = Some tag ->
  cached (cacheKeyOf tag course date) w = Some teeTimes ->
  scrape v scraper course date w = (Normal teeTimes, w).
Proof.
  intros Htag Hhit. rewrite (scrape_cacheAside v scraper tag) by exact Htag.
  apply cacheAside_hit, Hhit.
Qed.

Lemma scrape_miss v scraper tag course date w :
  cacheTag scraper = Some tag ->
  cached (cacheKeyOf tag course date) w = None ->
  scrape v scraper course date w
  = tryCatch (onMiss v scraper course date (cacheKeyOf tag course date))
      (fun _ => mret []) w.
Proof.
  intros Htag Hmiss. rewrite (scrape_cacheAside v scraper tag) by exact Htag.
  apply cacheAside_miss, Hmiss.
Qed.

Lemma tryCatch_world (body : M (list TeeTime)) w :
  snd (tryCatch body (fun _ => mret []) w) = snd (body w).
Proof. unfold tryCatch. destruct (body w) as [[r|e] w']; reflexivity. Qed.

Lemma scrape_requests v scraper course date w :
  requests (snd (scrape v scraper course date w))
  = (requests w ++
     match cacheTag scraper with
     | Some tag =>
         match cached (cacheKeyOf tag course date) w with
         | Some _ => []
         | None => upstreamRequest scraper course date w
         end
     | None => []
     end)%list.
Proof.
  destruct (cacheTag scraper) as [tag|] eqn:Htag.
  - destruct (cached (cacheKeyOf tag course date) w) as [t|] eqn:Hc.
    + rewrite (scrape_hit _ _ _ _ _ _ _ Htag Hc). simpl. rewrite app_nil_r. reflexivity.
    + rewrite (scrape_miss _ _ _ _ _ _ Htag Hc), tryCatch_world.
      apply onMiss_requests.
  - destruct scraper; try discriminate. rewrite scrape_generic. simpl.
    rewrite app_nil_r. reflexivity.
Qed.

Lemma scrape_requests_length v scraper course date w :
  (length (requests (snd (scrape v scraper course date w)))
   <= length (requests w) + 1)%nat.
Proof.
  rewrite scrape_requests, length_app.
  pose proof (upstreamRequest_length scraper course date w).
  repeat case_match; simpl; lia.
Qed.

(** X1.  A scrape sends at most one request upstream: none when the cache
    answers and none from the fallback, and on a miss exactly the request
    that the course and the date determine. *)
Theorem scrape_request_accounting v scraper course date w :
  requests (snd (scrape v scraper course date w))
  = (requests w ++
     match cacheTag scraper with
     | Some tag =>
         match cached (cacheKeyOf tag course date) w with
         | Some _ => []
         | None => upstreamRequest scraper course date w
         end
     | None => []
     end)%list
  /\ (length (requests (snd (scrape v scraper course date w)))
      <= length (requests w) + 1)%nat.
Proof.
  split; [apply scrape_requests|apply scrape_requests_length].
Qed.

(** X2.  A scrape writes at most one cache entry, under its own key: Redis
    is either what it was, or what it was with the returned tee times,
    JSON-encoded, stored under [tag:courseId:date] to expire [TTL] seconds
    after the write.  Every other key keeps its entry. *)
Theorem scrape_cache_effect v scraper tag course date w :
  cacheTag scraper = Some tag ->
  let key := cacheKeyOf tag course date in
  let w' := snd (scrape v scraper course date w) in
  (redis w' = redis w \/
   exists teeTimes,
     fst (scrape v scraper course date w) = Normal teeTimes /\
     redis w' = <[key := {| value := jsonRoundTrip teeTimes;
                            expiresAt := clock w' + TTL |}]> (redis w)) /\
  (forall k, k <> key -> redis w' !! k = redis w !! k).
Proof.
  intros Htag key w'.
  assert (redis w' = redis w \/
          exists teeTimes,
            fst (scrape v scraper course date w) = Normal teeTimes /\
            redis w' = <[key := {| value := jsonRoundTrip teeTimes;
                                   expiresAt := clock w' + TTL |}]> (redis w)) as H.
  { subst w'. destruct (cached key w) as [t|] eqn:Hc.
    - rewrite (scrape_hit _ _ _ _ _ _ _ Htag Hc). left. reflexivity.
    - rewrite (scrape_miss _ _ _ _ _ _ Htag Hc). fold key. unfold tryCatch.
      destruct (onMiss v scraper course date key w) as [[r|e] w1] eqn:Hrun;
        pose proof (onMiss_outcome _ _ _ _ _ _ _ _ _ Htag Hrun) as [_ Hredis]; simpl.
      + destruct Hredis as [[_ Hsame]|Hset]; [left; exact Hsame|].
        right. exists r. split; [reflexivity|exact Hset].
      + left. exact Hredis. }
  split; [exact H|].
  intros k Hk. destruct H as [->|(t & _ & ->)]; [reflexivity|].
  apply lookup_insert_ne. congruence.
Qed.

(** X3.  A scrape never touches the browser handle, and only the GolfNow
    scraper opens pages: the others leave the number of open pages as it
    is, GolfNow leaves at most one more page open, and a cache hit changes
    nothing at all. *)
Theorem scrape_frame v scraper course date w :
  let w' := snd (scrape v scraper course date w) in
  browser w' = browser w /\
  (openPages w <= openPages w' <= S (openPages w))%nat /\
  (scraper <> GolfNowScraper -> openPages w' = openPages w) /\
  (forall tag teeTimes,
      cacheTag scraper = Some tag ->
      cached (cacheKeyOf tag course date) w = Some teeTimes -> w' = w).
Proof.
  intros w'. subst w'.
  assert (forall tag teeTimes,
             cacheTag scraper = Some tag ->
             cached (cacheKeyOf tag course date) w = Some teeTimes ->
             snd (scrape v scraper course date w) = w) as Hhit.
  { intros tag t Htag Hc. rewrite (scrape_hit _ _ _ _ _ _ _ Htag Hc). reflexivity. }
  destruct (cacheTag scraper) as [tag|] eqn:Htag.
  - destruct (cached (cacheKeyOf tag course date) w) as [t|] eqn:Hc.
    + rewrite (Hhit tag t eq_refl Hc). repeat split; try lia; auto.
    + rewrite (scrape_miss _ _ _ _ _ _ Htag Hc), tryCatch_world.
      destruct (onMiss_frame v scraper course date (cacheKeyOf tag course date) w)
        as ((Hb & _) & Hp & Hn).
      repeat split; try lia; auto.
      intros tag' t' Htag' Hc'. congruence.
  - destruct scraper; try discriminate. rewrite scrape_generic. simpl.
    repeat split; try lia; auto.
Qed.

(** ** The cache invariant *)

Lemma jsonValue_isJson v : isJson (jsonValue v) = true.
Proof.
  induction v using JsVal_nested_ind; simpl; try reflexivity.
  - destruct n; reflexivity.
  - induction H as [|x r Hx _ IH]; simpl; [reflexivity|].
    rewrite Hx. exact IH.
  - induction H as [|[k x] r Hx _ IH]; simpl; [reflexivity|].
    simpl in Hx. destruct x; simpl in *; try exact IH; rewrite ?Hx; exact IH.
Qed.

Lemma jsonProp_is_clean v : cleanProp (jsonProp v) = true.
Proof.
  destruct v; simpl; try reflexivity.
  - destruct n; reflexivity.
  - apply (jsonValue_isJson (JArr items)).
  - apply (jsonValue_isJson (JObj fields)).
Qed.

Lemma jsonNumeric_is_clean x : cleanNumeric (jsonNumeric x) = true.
Proof. destruct x as [| |[| |q]]; reflexivity. Qed.

Lemma jsonRoundTrip_is_clean teeTimes :
  forallb cleanTeeTime (jsonRoundTrip teeTimes) = true.
Proof.
  unfold jsonRoundTrip. induction teeTimes as [|t r IH]; simpl; [reflexivity|].
  rewrite IH, andb_true_r. unfold cleanTeeTime, jsonTeeTime. simpl.
  rewrite !jsonProp_is_clean, !jsonNumeric_is_clean. reflexivity.
Qed.

Lemma cacheInv_later w w' :
  redis w' = redis w -> clock w <= clock w' -> cacheInv w -> cacheInv w'.
Proof.
  unfold cacheInv. intros Hr Hc H k e Hk. rewrite Hr in Hk.
  destruct (H k e Hk) as [Ht Hclean]. split; [lia|exact Hclean].
Qed.

Lemma cacheInv_stored key teeTimes w w' :
  redis w' = <[key := {| value := jsonRoundTrip teeTimes;
                         expiresAt := clock w' + TTL |}]> (redis w) ->
  clock w <= clock w' -> cacheInv w -> cacheInv w'.
Proof.
  unfold cacheInv. intros Hr Hc H k e Hk. rewrite Hr in Hk.
  destruct (decide (key = k)) as [->|Hne].
  - rewrite lookup_insert_eq in Hk. inversion Hk; subst e; clear Hk. simpl.
    split; [lia|apply jsonRoundTrip_is_clean].
  - rewrite lookup_insert_ne in Hk by exact Hne.
    destruct (H k e Hk) as [Ht Hclean]. split; [lia|exact Hclean].
Qed.

Lemma cacheInv_deleted key w :
  cacheInv w -> cacheInv (setRedis (delete key (redis w)) w).
Proof.
  unfold cacheInv. simpl. intros H k e Hk.
  destruct (decide (key = k)) as [->|Hne].
  - rewrite lookup_delete_eq in Hk. discriminate.
  - rewrite lookup_delete_ne in Hk by exact Hne. exact (H k e Hk).
Qed.

Lemma step_refl w : step w w.
Proof.
  unfold step. split; [apply sameSites_refl|]. split; [lia|].
  split; [exists []; rewrite app_nil_r; reflexivity|]. split; [lia|auto].
Qed.

Lemma step_trans w1 w2 w3 : step w1 w2 -> step w2 w3 -> step w1 w3.
Proof.
  unfold step. intros (Hs1 & Hc1 & (s1 & Hr1) & Hp1 & Hi1) (Hs2 & Hc2 & (s2 & Hr2) & Hp2 & Hi2).
  split; [eapply sameSites_trans; eassumption|]. split; [lia|].
  split; [exists (s1 ++ s2)%list; rewrite Hr2, Hr1, app_assoc; reflexivity|].
  split; [lia|auto].
Qed.

Lemma scrape_step v scraper course date w :
  step w (snd (scrape v scraper course date w)).
Proof.
  destruct (cacheTag scraper) as [tag|] eqn:Htag.
  - destruct (cached (cacheKeyOf tag course date) w) as [t|] eqn:Hc.
    + rewrite (scrape_hit _ _ _ _ _ _ _ Htag Hc). apply step_refl.
    + rewrite (scrape_miss _ _ _ _ _ _ Htag Hc), tryCatch_world.
      destruct (onMiss_frame v scraper course date (cacheKeyOf tag course date) w)
        as (Hsites & Hp & _).
      pose proof (onMiss_requests v scraper course date (cacheKeyOf tag course date) w)
        as Hreq.
      destruct (onMiss v scraper course date (cacheKeyOf tag course date) w)
        as [c w1] eqn:Hrun.
      pose proof (onMiss_outcome _ _ _ _ _ _ _ _ _ Htag Hrun) as [Hclock Hredis].
      simpl in *. unfold step. split; [exact Hsites|]. split; [exact Hclock|].
      split; [eauto|]. split; [lia|].
      destruct c as [r|e].
      * destruct Hredis as [[_ Hsame]|Hset].
        -- apply cacheInv_later; assumption.
        -- eapply cacheInv_stored; eassumption.
      * apply cacheInv_later; assumption.
  - destruct scraper; try discriminate. rewrite scrape_generic. apply step_refl.
Qed.

(** *** Computations that cannot fail *)

Lemma runs_ret {A} (a : A) : runs 0 (mret a).
Proof.
  intros w. exists a, w. split; [reflexivity|]. split; [apply step_refl|lia].
Qed.

Lemma runs_bind {A B} n m (c : M A) (k : A -> M B) :
  runs n c -> (forall a, runs m (k a)) -> runs (n + m) (c ≫= k).
Proof.
  intros Hc Hk w. destruct (Hc w) as (a & w1 & Hrun & Hstep & Hlen).
  destruct (Hk a w1) as (b & w2 & Hrun2 & Hstep2 & Hlen2).
  exists b, w2. unfold mbind, M_bind. rewrite Hrun, Hrun2.
  split; [reflexivity|]. split; [eapply step_trans; eassumption|lia].
Qed.

Lemma runs_weaken {A} n m (c : M A) : (n <= m)%nat -> runs n c -> runs m c.
Proof.
  intros Hnm Hc w. destruct (Hc w) as (a & w1 & Hrun & Hstep & Hlen).
  exists a, w1. split; [exact Hrun|]. split; [exact Hstep|lia].
Qed.

Lemma runs_tryCatch {A} n (body : M A) handler :
  runs n body -> runs n (tryCatch body handler).
Proof.
  intros Hc w. destruct (Hc w) as (a & w1 & Hrun & Hstep & Hlen).
  exists a, w1. unfold tryCatch. rewrite Hrun. auto.
Qed.

Lemma runs_mapM {A B} n (f : A -> M B) l :
  (forall x, runs n (f x)) -> runs (length l * n) (mapM f l).
Proof.
  intros Hf. induction l as [|x r IH]; simpl.
  - apply runs_ret.
  - apply runs_bind; [apply Hf|]. intros y.
    replace (length r * n)%nat with (length r * n + 0)%nat by lia.
    apply runs_bind; [exact IH|]. intros ys. apply runs_ret.
Qed.

Lemma runs_forEachM {A} n (f : A -> M unit) l :
  (forall x, runs n (f x)) -> runs (length l * n) (forEachM f l).
Proof.
  intros Hf. induction l as [|x r IH]; simpl.
  - apply runs_ret.
  - apply runs_bind; [apply Hf|]. intros _. exact IH.
Qed.

Lemma runs_scrape v scraper course date : runs 1 (scrape v scraper course date).
Proof.
  intros w. destruct (scrape_total v scraper course date w) as (t & w' & Hrun).
  exists t, w'. split; [exact Hrun|].
  pose proof (scrape_step v scraper course date w) as Hstep.
  pose proof (scrape_requests_length v scraper course date w) as Hlen.
  rewrite Hrun in Hstep, Hlen. simpl in *. auto.
Qed.

Lemma runs_today : runs 0 today.
Proof.
  intros w. eexists _, w. split; [reflexivity|]. split; [apply step_refl|lia].
Qed.

Lemma runs_tomorrow : runs 0 tomorrow.
Proof.
  intros w. eexists _, w. split; [reflexivity|]. split; [apply step_refl|lia].
Qed.

(** ** Handlers and scheduled jobs *)

Lemma runs_Server_resolve course date : runs 1 (Server.resolve course date).
Proof. apply (runs_scrape ServerJs). Qed.

Lemma runs_Part001_resolve course date : runs 1 (Part001.resolve course date).
Proof. apply (runs_scrape Part001Js). Qed.

Lemma runs_orToday given : runs 0 (Server.orToday given).
Proof.
  unfold Server.orToday. destruct given as [d|]; [destruct (nonEmpty d)|];
    try apply runs_today. apply runs_ret.
Qed.

Lemma filter_map_sublist {A B} (f : A -> B) (P : A -> bool) (l : list A) :
  sublist (List.map f (List.filter P l)) (List.map f l).
Proof.
  induction l as [|x r IH]; simpl; [constructor|].
  destruct (P x); simpl; constructor; exact IH.
Qed.

Lemma step_browser w w' : step w w' -> browser w' = browser w.
Proof. intros ((Hb & _) & _). exact Hb. Qed.

Lemma step_cacheInv w w' : step w w' -> cacheInv w -> cacheInv w'.
Proof. intros (_ & _ & _ & _ & H). exact H. Qed.

(** X4.  The search handler never answers with an error.  The courses of
    its answer are a sub-sequence of the registry, in the order of the
    registry; each comes with at least one slot and only with slots that
    passed the filter; and the whole search sends at most one request per
    registry course, keeps the browser handle and the cache invariant. *)
Theorem search_answers_in_registry_order courses queryDate queryMaxPrice queryMinSlots w :
  exists body w',
    Server.searchIn courses queryDate queryMaxPrice queryMinSlots w
    = (Normal (Ok body), w') /\
    sublist (List.map Server.sr_course (Server.sb_results body)) courses /\
    Forall (fun r =>
              Server.sr_teeTimes r <> [] /\
              Forall (fun t => Server.keepTime (Server.sb_maxPrice body)
                                 (Server.sb_minSlots body) t = true)
                (Server.sr_teeTimes r))
      (Server.sb_results body) /\
    (length (requests w') <= length (requests w) + length courses)%nat /\
    browser w' = browser w /\
    (cacheInv w -> cacheInv w').
Proof.
  destruct (orToday_run queryDate w) as (date & Hdate).
  destruct (searchCourse_all date (Server.queryMaxPrice queryMaxPrice)
              (Server.queryMinSlots queryMinSlots) courses w)
    as (rs & w' & Hrs & Hmap & Hkeep).
  assert (runs (length courses * 1)
            (mapM (Server.searchCourse date (Server.queryMaxPrice queryMaxPrice)
                     (Server.queryMinSlots queryMinSlots)) courses)) as Hruns.
  { apply runs_mapM. intros c. unfold Server.searchCourse.
    replace 1%nat with (1 + 0)%nat by lia.
    apply runs_bind; [apply runs_Server_resolve|]. intros t. apply runs_ret. }
  destruct (Hruns w) as (rs' & w'' & Hrs' & Hstep & Hlen).
  rewrite Hrs in Hrs'. inversion Hrs'; subst rs' w''; clear Hrs'.
  eexists _, w'. split.
  { unfold Server.searchIn, tryCatch, mbind, M_bind. rewrite Hdate, Hrs. reflexivity. }
  simpl. split; [rewrite <- Hmap; apply filter_map_sublist|].
  split.
  { apply List.Forall_forall. intros r Hr. apply List.filter_In in Hr as [Hin Hhas].
    split.
    - unfold Server.hasTeeTimes in Hhas. destruct (Server.sr_teeTimes r); [discriminate|congruence].
    - rewrite List.Forall_forall in Hkeep. apply Hkeep, Hin. }
  split; [lia|]. split; [apply step_browser, Hstep|apply step_cacheInv, Hstep].
Qed.

Lemma runs_warmCourse day nextDay course : runs 2 (Server.warmCourse day nextDay course).
Proof.
  unfold Server.warmCourse. apply runs_tryCatch.
  change 2%nat with (1 + (1 + 0))%nat.
  apply runs_bind; [apply (runs_scrape ServerJs)|]. intros _.
  apply runs_bind; [apply (runs_scrape ServerJs)|]. intros _. apply runs_ret.
Qed.

Lemma runs_updateCourse course : runs 2 (Part001.updateCourse course).
Proof.
  unfold Part001.updateCourse. apply runs_tryCatch.
  change 2%nat with (0 + (0 + (1 + (1 + 0))))%nat.
  apply runs_bind; [apply runs_today|]. intros day.
  apply runs_bind; [apply runs_tomorrow|]. intros nextDay.
  apply runs_bind; [apply (runs_scrape Part001Js)|]. intros _.
  apply runs_bind; [apply (runs_scrape Part001Js)|]. intros _. apply runs_ret.
Qed.

(** X5.  The scheduled jobs of both variants run to their end whatever
    the sites answer: no course's failure stops the loop.  A run sends at
    most two requests per course, never touches the browser handle and
    keeps the cache invariant. *)
Theorem scheduled_jobs_complete courses w :
  (exists w',
      Server.cacheWarmingIn courses w = (Normal tt, w') /\
      (length (requests w') <= length (requests w) + 2 * length courses)%nat /\
      browser w' = browser w /\ (cacheInv w -> cacheInv w')) /\
  (exists w',
      Part001.scheduledUpdateIn courses w = (Normal tt, w') /\
      (length (requests w') <= length (requests w) + 2 * length courses)%nat /\
      browser w' = browser w /\ (cacheInv w -> cacheInv w')).
Proof.
  split.
  - assert (runs (0 + (0 + length courses * 2)) (Server.cacheWarmingIn courses)) as Hruns.
    { unfold Server.cacheWarmingIn.
      apply runs_bind; [apply runs_today|]. intros day.
      apply runs_bind; [apply runs_tomorrow|]. intros nextDay.
      apply runs_forEachM. intros c. apply runs_warmCourse. }
    destruct (Hruns w) as ([] & w' & Hrun & Hstep & Hlen).
    exists w'. split; [exact Hrun|]. split; [lia|].
    split; [apply step_browser, Hstep|apply step_cacheInv, Hstep].
  - assert (runs (length courses * 2) (Part001.scheduledUpdateIn courses)) as Hruns.
    { apply runs_forEachM. intros c. apply runs_updateCourse. }
    destruct (Hruns w) as ([] & w' & Hrun & Hstep & Hlen).
    exists w'. split; [exact Hrun|]. split; [lia|].
    split; [apply step_browser, Hstep|apply step_cacheInv, Hstep].
Qed.

Lemma orToday_dayOr given w : Server.orToday given w = (Normal (dayOr given w), w).
Proof.
  unfold Server.orToday, dayOr, today.
  destruct given as [d|]; [destruct (nonEmpty d)|]; reflexivity.
Qed.

(** X6.  The two tee-time handlers answer 404 for an id that is not in
    the registry and leave the world as it is: nothing is fetched, cached
    or logged.  For a registry course they never answer with an error:
    the body carries the course, the date asked for (today when none is
    given) and exactly what the dispatcher resolved, with its length in
    the second variant. *)
Theorem tee_time_handlers_answer courseId queryDate w :
  let day := dayOr queryDate w in
  (findCourse courseId = None ->
   Server.getTeeTimes courseId queryDate w = (Normal NotFound, w) /\
   Part001.getCourseTeeTimes courseId queryDate w = (Normal NotFound, w)) /\
  (forall course, findCourse courseId = Some course ->
     id course = courseId /\
     (exists teeTimes w',
         Server.resolve course day w = (Normal teeTimes, w') /\
         Server.getTeeTimes courseId queryDate w
         = (Normal (Ok {| Server.tt_course := course; Server.tt_date := day;
                          Server.tt_teeTimes := teeTimes |}), w')) /\
     (exists teeTimes w',
         Part001.resolve course day w = (Normal teeTimes, w') /\
         Part001.getCourseTeeTimes courseId queryDate w
         = (Normal (Ok {| Part001.ct_course := course; Part001.ct_date := day;
                          Part001.ct_teeTimes := teeTimes;
                          Part001.ct_count := length teeTimes |}), w'))).
Proof.
  intros day.
  assert (forall (k : string -> M (Reply Part001.CourseTeeTimes)),
             (day0 ← match queryDate with
                      | Some d => if nonEmpty d then mret d else today
                      | None => today
                      end; k day0) w = k day w) as Hday.
  { intros k. unfold mbind, M_bind, mret, M_ret, today. subst day. unfold dayOr.
    destruct queryDate as [d|]; [destruct (nonEmpty d)|]; reflexivity. }
  split.
  - intros Hnone. split.
    + unfold Server.getTeeTimes. rewrite Hnone. reflexivity.
    + unfold Part001.getCourseTeeTimes, tryCatch. rewrite Hday.
      unfold findCourse in Hnone. rewrite Hnone. reflexivity.
  - intros course Hsome. split; [|split].
    + unfold findCourse in Hsome. apply List.find_some in Hsome as [_ Heq].
      apply String.eqb_eq, Heq.
    + destruct (Server_resolve_total course day w) as (t & w' & Hres).
      exists t, w'. split; [exact Hres|].
      unfold Server.getTeeTimes. rewrite Hsome.
      unfold mbind, M_bind, tryCatch. rewrite orToday_dayOr. fold day.
      rewrite Hres. reflexivity.
    + destruct (Part001_resolve_total course day w) as (t & w' & Hres).
      exists t, w'. split; [exact Hres|].
      unfold Part001.getCourseTeeTimes, tryCatch. rewrite Hday.
      unfold findCourse in Hsome. rewrite Hsome.
      unfold mbind, M_bind. rewrite Hres. reflexivity.
Qed.

Lemma step_deleted key w : step w (setRedis (delete key (redis w)) w).
Proof.
  unfold step. split; [unfold sameSites; simpl; auto 10|]. simpl. split; [lia|].
  split; [exists []; rewrite app_nil_r; reflexivity|]. split; [lia|].
  apply cacheInv_deleted.
Qed.

(** When Redis rejects the deletion, nothing else is done. *)
Lemma refreshCourse_rejected course date w e :
  delReply w (cacheKeyOf (bookingSystem course) course date) = Some e ->
  Server.refreshCourse course date w = (Throw e, w).
Proof.
  intros Hdel. unfold Server.refreshCourse, redis_del, mbind, M_bind.
  rewrite Hdel. reflexivity.
Qed.

(** When Redis takes the deletion, the scraper runs on the world without
    the key, and stores nothing. *)
Lemma refreshCourse_deleted course date w :
  let key := cacheKeyOf (bookingSystem course) course date in
  delReply w key = None ->
  exists teeTimes w',
    Server.refreshCourse course date w = (Normal teeTimes, w') /\
    step w w' /\
    (length (requests w') <= length (requests w) + 1)%nat /\
    redis w' = delete key (redis w) /\
    (is_Some (cacheTag (createScraper (bookingSystem course))) -> teeTimes = []).
Proof.
  intros key Hdel.
  set (w0 := setRedis (delete key (redis w)) w).
  assert (Server.refreshCourse course date w = Server.resolve course date w0) as Hrun.
  { unfold Server.refreshCourse, redis_del, mbind, M_bind. fold key.
    rewrite Hdel. reflexivity. }
  destruct (runs_Server_resolve course date w0) as (t & w' & Hres & Hstep & Hlen).
  exists t, w'. rewrite Hrun. split; [exact Hres|].
  split; [eapply step_trans; [apply step_deleted|exact Hstep]|].
  split; [exact Hlen|].
  destruct (cacheTag (createScraper (bookingSystem course))) as [tag|] eqn:Htag.
  - destruct (refreshCourse_known course date tag w Htag Hdel)
      as (w'' & Hknown & Hredis & _).
    rewrite Hrun, Hres in Hknown. inversion Hknown; subst t w''.
    split; [exact Hredis|reflexivity].
  - split; [|intros [x Hx]; discriminate].
    unfold Server.resolve in Hres.
    change Server.scrapeTeeTimes with (scrape ServerJs) in Hres.
    destruct (createScraper (bookingSystem course)); try discriminate.
    rewrite scrape_generic in Hres. inversion Hres. reflexivity.
Qed.

(** X7.  The refresh handler answers 404 for an id that is not in the
    registry without deleting anything.  For a registry course, when
    Redis rejects the deletion it answers 500 and nothing else is done:
    nothing is fetched and the world is as it was.  When Redis takes the
    deletion it answers 200 after at most one request; Redis is what it
    was without the key of the course and the date, the cache invariant
    is kept, and for a course of a known booking system the tee times of
    the answer are the empty sequence. *)
Theorem refresh_handler_answers courseId bodyDate w :
  let day := dayOr bodyDate w in
  (findCourse courseId = None ->
   Server.refresh courseId bodyDate w = (Normal NotFound, w)) /\
  (forall course, findCourse courseId = Some course ->
     let key := cacheKeyOf (bookingSystem course) course day in
     match delReply w key with
     | Some _ => Server.refresh courseId bodyDate w = (Normal ServerError, w)
     | None =>
         exists teeTimes w',
           Server.refresh courseId bodyDate w
           = (Normal (Ok {| Server.tt_course := course; Server.tt_date := day;
                            Server.tt_teeTimes := teeTimes |}), w') /\
           (length (requests w') <= length (requests w) + 1)%nat /\
           redis w' = delete key (redis w) /\
           (cacheInv w -> cacheInv w') /\
           (is_Some (cacheTag (createScraper (bookingSystem course))) ->
            teeTimes = [])
     end).
Proof.
  intros day. split.
  - intros Hnone. unfold Server.refresh. rewrite Hnone. reflexivity.
  - intros course Hsome key.
    assert (Server.refresh courseId bodyDate w
            = tryCatch
                (teeTimes ← Server.refreshCourse course day;
                 mret (Ok {| Server.tt_course := course; Server.tt_date := day;
                             Server.tt_teeTimes := teeTimes |}))
                (fun _ => mret ServerError) w) as Hrefresh.
    { unfold Server.refresh. rewrite Hsome.
      unfold mbind at 1, M_bind at 1. rewrite orToday_dayOr. reflexivity. }
    rewrite Hrefresh.
    destruct (delReply w key) as [e|] eqn:Hdel.
    + unfold tryCatch, mbind, M_bind.
      rewrite (refreshCourse_rejected course day w e Hdel). reflexivity.
    + destruct (refreshCourse_deleted course day w Hdel)
        as (t & w' & Hrun & Hstep & Hlen & Hredis & Hempty).
      exists t, w'. unfold tryCatch, mbind, M_bind. rewrite Hrun.
      split; [reflexivity|]. split; [exact Hlen|]. split; [exact Hredis|].
      split; [apply step_cacheInv, Hstep|exact Hempty].
Qed.

Lemma upstreamRequest_browser scraper course date w w' :
  browser w' = browser w ->
  upstreamRequest scraper course date w' = upstreamRequest scraper course date w.
Proof. intros H. destruct scraper; simpl; rewrite ?H; reflexivity. Qed.

(** X8.  A refresh does not warm the cache.  After the refresh of a
    course of a known booking system (Redis taking the deletion) the key
    of the course and the date is unset, whatever came back from
    upstream; a resolution any time later misses, sends the request of
    the course once more and answers with the empty sequence. *)
Theorem refresh_then_resolve course date tag w dt :
  let scraper := createScraper (bookingSystem course) in
  let key := cacheKeyOf (bookingSystem course) course date in
  cacheTag scraper = Some tag ->
  delReply w key = None ->
  0 <= dt ->
  exists w1 w2,
    Server.refreshCourse course date w = (Normal [], w1) /\
    requests w1 = (requests w ++ upstreamRequest scraper course date w)%list /\
    cached key (elapse dt w1) = None /\
    Server.resolve course date (elapse dt w1) = (Normal [], w2) /\
    requests w2 = (requests w1 ++ upstreamRequest scraper course date w)%list.
Proof.
  intros scraper key Htag Hdel Hdt.
  assert (bookingSystem course = tag) as Hbs by (apply createScraper_tag; exact Htag).
  destruct (refreshCourse_deleted course date w Hdel)
    as (t & w1 & Hrun & Hstep & _ & Hredis & Hempty).
  rewrite (Hempty (ex_intro _ tag Htag)) in Hrun.
  destruct (refreshCourse_known course date tag w Htag Hdel)
    as (w1' & Hknown & _ & _ & Hreq).
  rewrite Hrun in Hknown. inversion Hknown; subst w1'; clear Hknown.
  assert (cached key (elapse dt w1) = None) as Hmiss.
  { unfold cached. simpl. rewrite Hredis, lookup_delete_eq. reflexivity. }
  destruct (scrape_miss_empty ServerJs scraper tag course date (elapse dt w1) Htag)
    as (w2 & Hres & _ & _ & Hreq2).
  { rewrite <- Hbs. exact Hmiss. }
  exists w1, w2. split; [exact Hrun|]. split; [exact Hreq|].
  split; [exact Hmiss|]. split; [exact Hres|].
  rewrite Hreq2. simpl. f_equal. apply upstreamRequest_browser. simpl.
  apply step_browser, Hstep.
Qed.

(** ** The filter of the search *)

Lemma number_lt_raise m m' p :
  (m <= m')%Q -> number_lt (Fin m) p = false -> number_lt (Fin m') p = false.
Proof.
  intros Hm. destruct p as [|[|]|q]; simpl; try congruence.
  rewrite !negb_false_iff, !Qle_bool_iff. intros Hq. eapply Qle_trans; eassumption.
Qed.

Lemma number_lt_lower k k' a :
  (k' <= k)%Q -> number_lt a (Fin k) = false -> number_lt a (Fin k') = false.
Proof.
  intros Hk. destruct a as [|[|]|q]; simpl; try congruence.
  rewrite !negb_false_iff, !Qle_bool_iff. intros Hq. eapply Qle_trans; eassumption.
Qed.

(** X9.  Loosening the filter never loses a slot: a slot kept under a
    maximum price other than zero and a minimum number of places is kept
    under every higher maximum, under no maximum at all, and under every
    lower minimum.  (From a maximum of zero the property fails: zero is no
    maximum, so raising it removes slots.) *)
Theorem keepTime_loosen m m' k k' t :
  ~ (m == 0)%Q -> (m <= m')%Q -> (k' <= k)%Q ->
  Server.keepTime (IsNum (Fin m)) (Fin k) t = true ->
  Server.keepTime (IsNum (Fin m')) (Fin k') t = true /\
  Server.keepTime IsNull (Fin k') t = true.
Proof.
  intros Hm Hmm Hkk. rewrite !keepTime_true. simpl toNumber. simpl numeric_truthy.
  assert (Qeq_bool m 0 = false) as ->.
  { destruct (Qeq_bool m 0) eqn:E; [|reflexivity].
    apply Qeq_bool_iff in E. contradiction. }
  simpl. intros [[Hoff|Hprice] Hplaces]; [discriminate|].
  pose proof (number_lt_lower _ _ _ Hkk Hplaces) as Hplaces'.
  split; split; auto. right. eapply number_lt_raise; eassumption.
Qed.

(** ** Cache keys and the registry *)

Lemma append_colon_inj a a' r r' :
  colonFree a = true -> colonFree a' = true ->
  a +:+ ":" +:+ r = a' +:+ ":" +:+ r' -> a = a' /\ r = r'.
Proof.
  revert a'. induction a as [|c a IH]; intros [|c' a'] Ha Ha' H; simpl in *.
  - inversion H. auto.
  - inversion H; subst c'. apply andb_prop in Ha' as [Hc _].
    rewrite Ascii.eqb_refl in Hc. discriminate.
  - inversion H; subst c. apply andb_prop in Ha as [Hc _].
    rewrite Ascii.eqb_refl in Hc. discriminate.
  - inversion H; subst c'. apply andb_prop in Ha as [_ Ha].
    apply andb_prop in Ha' as [_ Ha'].
    destruct (IH a' Ha Ha' H2) as [-> ->]. auto.
Qed.

(** X10.  Cache keys do not collide: when the tags and the course ids
    hold no colon, as those of the registry do, two keys are equal only
    for the same tag, the same course id and the same date, whatever the
    date text is. *)
Theorem cacheKeyOf_injective tag tag' course course' date date' :
  colonFree tag = true -> colonFree tag' = true ->
  colonFree (id course) = true -> colonFree (id course') = true ->
  cacheKeyOf tag course date = cacheKeyOf tag' course' date' ->
  tag = tag' /\ id course = id course' /\ date = date'.
Proof.
  unfold cacheKeyOf. intros Ht Ht' Hc Hc' H.
  apply append_colon_inj in H as [-> H]; [|assumption..].
  apply append_colon_inj in H as [-> ->]; [|assumption..]. auto.
Qed.

Lemma registry_colon_free :
  forallb (fun c => colonFree (id c) && colonFree (bookingSystem c)) UTAH_COURSES = true.
Proof. reflexivity. Qed.

Lemma find_by_id courses c :
  NoDup (List.map id courses) -> In c courses ->
  List.find (fun c' => String.eqb (id c') (id c)) courses = Some c.
Proof.
  induction courses as [|x r IH]; simpl; intros Hnd Hin; [contradiction|].
  apply NoDup_cons in Hnd as [Hx Hnd].
  destruct Hin as [->|Hin].
  - rewrite String.eqb_refl. reflexivity.
  - destruct (String.eqb (id x) (id c)) eqn:E.
    + apply String.eqb_eq in E. exfalso. apply Hx. rewrite E.
      apply list_elem_of_In, List.in_map, Hin.
    + apply IH; assumption.
Qed.

Lemma registry_ids_distinct : NoDup (List.map id UTAH_COURSES).
Proof.
  simpl.
  repeat (apply NoDup_cons_2;
          [rewrite ?elem_of_cons, elem_of_nil; intuition discriminate|]).
  apply NoDup_nil_2.
Qed.

(** X11.  Looking a course up by id: in a registry whose ids are all
    different, as the ids of [UTAH_COURSES] are, every course is found
    under its own id; and whatever is found is a course of the registry
    with the id asked for, which has to be a string. *)
Theorem find_course_by_id courses :
  (NoDup (List.map id courses) ->
   forall c, In c courses -> Part001.findIn courses (JStr (id c)) = Some c) /\
  (forall cid c, Part001.findIn courses cid = Some c ->
                 In c courses /\ cid = JStr (id c)) /\
  NoDup (List.map id UTAH_COURSES) /\
  (forall c, In c UTAH_COURSES -> findCourse (id c) = Some c).
Proof.
  split; [|split; [|split]].
  - intros Hnd c Hin. simpl. apply find_by_id; assumption.
  - intros cid c H. destruct cid; simpl in H; try discriminate.
    apply List.find_some in H as [Hin Heq]. apply String.eqb_eq in Heq.
    split; [exact Hin|congruence].
  - apply registry_ids_distinct.
  - intros c Hin. unfold findCourse. apply find_by_id; [|exact Hin].
    apply registry_ids_distinct.
Qed.

(** ** The locators *)

Lemma append_cons c a b : String c a +:+ b = String c (a +:+ b).
Proof. reflexivity. Qed.

Lemma append_empty b : "" +:+ b = b.
Proof. reflexivity. Qed.

Lemma append_assoc_string a b c : (a +:+ b) +:+ c = a +:+ (b +:+ c).
Proof.
  induction a as [|x a IH]; [reflexivity|].
  rewrite !append_cons, IH. reflexivity.
Qed.

Lemma stripPrefix_app p r : stripPrefix p (p +:+ r) = Some r.
Proof.
  induction p as [|c p IH]; [destruct r; reflexivity|].
  rewrite append_cons. simpl. rewrite Ascii.eqb_refl. exact IH.
Qed.

Lemma stripPrefix_Some p : forall s r, stripPrefix p s = Some r -> s = p +:+ r.
Proof.
  induction p as [|c p IH]; intros s r H.
  - destruct s; simpl in H; inversion H; reflexivity.
  - destruct s as [|c' s]; simpl in H; [discriminate|].
    destruct (Ascii.eqb c c') eqn:E; [|discriminate].
    apply Ascii.eqb_eq in E. subst c'. rewrite append_cons, (IH s r H). reflexivity.
Qed.

Lemma includes_cons needle c s :
  includes needle s = true -> includes needle (String c s) = true.
Proof.
  intros H. simpl. destruct (stripPrefix needle (String c s)); [reflexivity|exact H].
Qed.

Lemma includes_app needle p r : includes needle (p +:+ needle +:+ r) = true.
Proof.
  induction p as [|c p IH].
  - rewrite append_empty.
    destruct (needle +:+ r) eqn:E; simpl; rewrite <- E, stripPrefix_app; reflexivity.
  - rewrite append_cons. apply includes_cons, IH.
Qed.

Lemma digitRun_spec s :
  s = fst (digitRun s) +:+ snd (digitRun s) /\ allDigits (fst (digitRun s)) = true.
Proof.
  induction s as [|c s [IH1 IH2]]; simpl; [auto|].
  destruct (isDigit c) eqn:E; [|auto].
  destruct (digitRun s) as [ds rest]. simpl in *.
  rewrite append_cons, <- IH1, E. auto.
Qed.

Lemma digitRun_app a x :
  allDigits a = true ->
  digitRun (a +:+ x) = (a +:+ fst (digitRun x), snd (digitRun x)).
Proof.
  induction a as [|c a IH]; simpl; intros H.
  - rewrite !append_empty. destruct (digitRun x); reflexivity.
  - apply andb_prop in H as [Hc Ha]. rewrite !append_cons. simpl.
    rewrite Hc, (IH Ha). reflexivity.
Qed.

Lemma nonEmpty_append a b : nonEmpty a = true -> nonEmpty (a +:+ b) = true.
Proof. destruct a; [discriminate|reflexivity]. Qed.

Lemma matchBookingAt_sound s a b :
  matchBookingAt s = Some (a, b) ->
  nonEmpty a = true /\ nonEmpty b = true /\
  allDigits a = true /\ allDigits b = true /\
  exists rest, s = ("booking/" +:+ a +:+ "/" +:+ b) +:+ rest.
Proof.
  unfold matchBookingAt.
  destruct (stripPrefix "booking/" s) as [r|] eqn:Hp; [|discriminate].
  apply stripPrefix_Some in Hp.
  pose proof (digitRun_spec r) as [Hr Ha].
  destruct (digitRun r) as [a0 r1]. simpl in Hr, Ha.
  destruct r1 as [|c r2]; [discriminate|].
  destruct (Ascii.eqb c "/") eqn:Ec.
  - apply Ascii.eqb_eq in Ec. subst c.
    pose proof (digitRun_spec r2) as [Hr2 Hb].
    destruct (digitRun r2) as [d1 d2]. simpl in *.
    destruct (nonEmpty a0 && nonEmpty d1) eqn:Hne; [|discriminate].
    intros H. inversion H; subst a b; clear H.
    apply andb_prop in Hne as [Hna Hnb].
    repeat split; try assumption.
    exists d2. subst s r r2.
    repeat (rewrite ?append_assoc_string, ?append_cons, ?append_empty).
    reflexivity.
  - intros H. exfalso. revert H.
    destruct c as [[] [] [] [] [] [] [] []]; try discriminate Ec; discriminate.
Qed.

Lemma matchBooking_sound s : forall a b,
  matchBooking s = Some (a, b) ->
  nonEmpty a = true /\ nonEmpty b = true /\
  allDigits a = true /\ allDigits b = true /\
  includes ("booking/" +:+ a +:+ "/" +:+ b) s = true.
Proof.
  induction s as [|c s IH]; intros a b H.
  - simpl in H. discriminate.
  - simpl in H. destruct (matchBookingAt (String c s)) as [[a0 b0]|] eqn:Hat.
    + inversion H; subst a0 b0; clear H.
      destruct (matchBookingAt_sound _ _ _ Hat) as (Ha & Hb & Hda & Hdb & rest & Hs).
      repeat split; try assumption.
      rewrite Hs. apply (includes_app _ "" rest).
    + destruct (IH a b H) as (Ha & Hb & Hda & Hdb & Hin).
      repeat split; try assumption. apply includes_cons, Hin.
Qed.

Lemma append_nil_r a : a +:+ "" = a.
Proof. induction a as [|c a IH]; [reflexivity|]. rewrite append_cons, IH. reflexivity. Qed.

Lemma matchBookingAt_complete a b r :
  nonEmpty a = true -> allDigits a = true ->
  nonEmpty b = true -> allDigits b = true ->
  matchBookingAt ("booking/" +:+ a +:+ "/" +:+ b +:+ r)
  = Some (a, b +:+ fst (digitRun r)).
Proof.
  intros Hna Hda Hnb Hdb. unfold matchBookingAt.
  rewrite stripPrefix_app, (digitRun_app a) by exact Hda.
  rewrite append_cons, append_empty.
  change (digitRun (String "/" (b +:+ r))) with (EmptyString, String "/" (b +:+ r)).
  cbn [fst snd]. rewrite append_nil_r, (digitRun_app b) by exact Hdb.
  cbn [fst snd]. rewrite Hna, (nonEmpty_append _ _ Hnb). reflexivity.
Qed.

Lemma matchBooking_here s m : matchBookingAt s = Some m -> matchBooking s = Some m.
Proof.
  destruct s as [|c s]; intros H.
  - vm_compute in H. discriminate.
  - simpl. rewrite H. reflexivity.
Qed.

Lemma matchBooking_complete p a b r :
  nonEmpty a = true -> allDigits a = true ->
  nonEmpty b = true -> allDigits b = true ->
  is_Some (matchBooking (p +:+ "booking/" +:+ a +:+ "/" +:+ b +:+ r)).
Proof.
  intros Hna Hda Hnb Hdb. induction p as [|c p IH].
  - rewrite append_empty.
    pose proof (matchBookingAt_complete a b r Hna Hda Hnb Hdb) as Hat.
    rewrite (matchBooking_here _ _ Hat). eauto.
  - rewrite append_cons. simpl.
    destruct (matchBookingAt _); [eauto|exact IH].
Qed.

(** X12.  The ForeUp locator.  Whatever the scraper reads out of a
    booking URL are two non-empty runs of digits that stand in the URL as
    [booking/<first>/<second>]; every URL with such a segment is accepted;
    and for a URL without one the scraper answers with the empty sequence
    and does nothing: no request, no cache entry. *)
Theorem foreup_locator :
  (forall s a b, matchBooking s = Some (a, b) ->
     nonEmpty a = true /\ nonEmpty b = true /\
     allDigits a = true /\ allDigits b = true /\
     includes ("booking/" +:+ a +:+ "/" +:+ b) s = true) /\
  (forall p a b r,
     nonEmpty a = true -> allDigits a = true ->
     nonEmpty b = true -> allDigits b = true ->
     is_Some (matchBooking (p +:+ "booking/" +:+ a +:+ "/" +:+ b +:+ r))) /\
  (forall course date w,
     matchBooking (bookingUrl course) = None ->
     cached (cacheKeyOf "foreup" course date) w = None ->
     ForeUpScraper_scrapeTeeTimes course date w = (Normal [], w)).
Proof.
  split; [exact matchBooking_sound|]. split; [exact matchBooking_complete|].
  intros course date w Hnone Hmiss.
  unfold ForeUpScraper_scrapeTeeTimes. rewrite cacheAside_miss by exact Hmiss.
  unfold ForeUpScraper_onMiss, tryCatch. rewrite Hnone. reflexivity.
Qed.

Lemma slugRun_spec r :
  slugText (slugRun r) = true /\ exists rest, r = slugRun r +:+ rest.
Proof.
  induction r as [|c r [IH1 [rest IH2]]]; simpl.
  - split; [reflexivity|exists ""; reflexivity].
  - destruct (Ascii.eqb c "/" || Ascii.eqb c "?") eqn:E.
    + split; [reflexivity|]. exists (String c r). reflexivity.
    + simpl. rewrite E, IH1. split; [reflexivity|].
      exists rest. rewrite append_cons, <- IH2. reflexivity.
Qed.

Lemma slugRun_app g r :
  slugText g = true -> slugRun (g +:+ r) = g +:+ slugRun r.
Proof.
  induction g as [|c g IH]; simpl; intros H; [reflexivity|].
  apply andb_prop in H as [Hc Hg]. apply negb_true_iff in Hc.
  rewrite !append_cons. simpl. rewrite Hc, (IH Hg). reflexivity.
Qed.

Lemma matchCourse_unfold s :
  matchCourse s
  = match courseHere s with
    | Some g => Some g
    | None =>
        match s with
        | String _ r => matchCourse r
        | EmptyString => None
        end
    end.
Proof. destruct s; reflexivity. Qed.

Lemma courseHere_sound s g :
  courseHere s = Some g ->
  nonEmpty g = true /\ slugText g = true /\ includes ("course/" +:+ g) s = true.
Proof.
  unfold courseHere. intros H.
  destruct (stripPrefix "course/" s) as [r|] eqn:Hp; [|discriminate].
  apply stripPrefix_Some in Hp. cbv zeta in H.
  destruct (nonEmpty (slugRun r)) eqn:Hne; [|discriminate].
  inversion H; subst g; clear H.
  destruct (slugRun_spec r) as [Hslug [rest Hr]].
  repeat split; try assumption.
  rewrite Hp. rewrite Hr at 2. rewrite <- append_assoc_string.
  apply (includes_app _ "" rest).
Qed.

Lemma matchCourse_sound s : forall g,
  matchCourse s = Some g ->
  nonEmpty g = true /\ slugText g = true /\ includes ("course/" +:+ g) s = true.
Proof.
  induction s as [|c s IH]; intros g H; rewrite matchCourse_unfold in H.
  - destruct (courseHere "") as [g0|] eqn:Hat; [|discriminate].
    assert (g0 = g) as -> by congruence. apply (courseHere_sound _ _ Hat).
  - destruct (courseHere (String c s)) as [g0|] eqn:Hat.
    + assert (g0 = g) as -> by congruence. apply (courseHere_sound _ _ Hat).
    + destruct (IH g H) as (Hn & Hs & Hin).
      repeat split; try assumption. apply includes_cons, Hin.
Qed.

Lemma matchCourse_complete p g r :
  nonEmpty g = true -> slugText g = true ->
  is_Some (matchCourse (p +:+ "course/" +:+ g +:+ r)).
Proof.
  intros Hn Hs.
  assert (courseHere ("course/" +:+ g +:+ r) = Some (g +:+ slugRun r)) as Hat.
  { unfold courseHere. rewrite stripPrefix_app. cbv zeta.
    rewrite (slugRun_app g r Hs), (nonEmpty_append _ _ Hn). reflexivity. }
  induction p as [|c p IH].
  - rewrite append_empty, matchCourse_unfold, Hat. eauto.
  - rewrite append_cons, matchCourse_unfold.
    destruct (courseHere (String c (p +:+ "course/" +:+ g +:+ r))); [eauto|exact IH].
Qed.

(** X13.  The Chronogolf locator.  The slug read out of a course URL is a
    non-empty text without slash or question mark that stands in the URL
    as [course/<slug>]; every URL with such a segment is accepted; and for
    a URL without one both variants of the scraper answer with the empty
    sequence and do nothing. *)
Theorem chronogolf_locator :
  (forall s g, matchCourse s = Some g ->
     nonEmpty g = true /\ slugText g = true /\
     includes ("course/" +:+ g) s = true) /\
  (forall p g r, nonEmpty g = true -> slugText g = true ->
     is_Some (matchCourse (p +:+ "course/" +:+ g +:+ r))) /\
  (forall v course date w,
     matchCourse (bookingUrl course) = None ->
     cached (cacheKeyOf "chronogolf" course date) w = None ->
     scrape v ChronogolfScraper course date w = (Normal [], w)).
Proof.
  split; [exact matchCourse_sound|]. split; [exact matchCourse_complete|].
  intros v course date w Hnone Hmiss.
  rewrite (scrape_miss v ChronogolfScraper "chronogolf") by auto.
  destruct v; simpl;
    unfold Server.ChronogolfScraper_onMiss, Part001.ChronogolfScraper_onMiss, tryCatch;
    rewrite Hnone; reflexivity.
Qed.

(** ** The slots read off the rendered page *)

Lemma digitVal_nonneg c : isDigit c = true -> 0 <= digitVal c.
Proof.
  unfold isDigit, digitVal. intros H. apply andb_prop in H as [H _].
  apply N.leb_le in H. lia.
Qed.

Lemma takeDigits_bounds s : forall acc len,
  0 <= acc ->
  0 <= fst (fst (takeDigits s acc len)) /\ (len <= snd (fst (takeDigits s acc len)))%nat.
Proof.
  induction s as [|c s IH]; intros acc len Hacc; simpl; [split; [exact Hacc|lia]|].
  destruct (isDigit c) eqn:E; [|simpl; split; [exact Hacc|lia]].
  pose proof (digitVal_nonneg c E).
  destruct (IH (10 * acc + digitVal c) (S len)) as [H1 H2]; [lia|].
  split; [exact H1|lia].
Qed.

Lemma scale10_nonneg m e : 0 <= m -> (0 <= scale10 m e)%Q.
Proof.
  intros Hm. unfold scale10. destruct (0 <=? e) eqn:E.
  - apply Z.leb_le in E. unfold Qle. simpl.
    assert (0 <= m * 10 ^ e) by (apply Z.mul_nonneg_nonneg; [lia|apply Z.pow_nonneg; lia]).
    lia.
  - rewrite Qred_correct. unfold Qle. simpl. lia.
Qed.

Lemma floatTail_nonneg ip ilen s2 :
  0 <= ip -> (1 <= ilen)%nat ->
  exists q, floatTail false ip ilen s2 = Fin q /\ (0 <= q)%Q.
Proof.
  intros Hip Hlen. unfold floatTail. destruct ilen as [|n]; [lia|].
  set (X := match s2 with
            | String "." r => let '(v, len, r') := takeDigits r ip 0%nat in (v, len, r')
            | _ => (ip, 0%nat, s2)
            end).
  assert (0 <= fst (fst X)) as HX.
  { subst X. destruct s2 as [|c r]; [exact Hip|].
    destruct (takeDigits_bounds r ip 0%nat Hip) as [Hv _].
    destruct (takeDigits r ip 0) as [[v len] r'] eqn:Hd. simpl in Hv.
    destruct c as [[] [] [] [] [] [] [] []]; try exact Hip. exact Hv. }
  destruct X as [[m flen] s3]. simpl in HX.
  eexists. split; [reflexivity|]. apply scale10_nonneg. exact HX.
Qed.

Lemma parseFloatString_unfold s :
  parseFloatString s
  = let '(neg, s1) := takeSign (trimStart s) in
    if String.prefix "Infinity" s1 then Infinity neg
    else let '(ip, ilen, s2) := takeDigits s1 0 0%nat in floatTail neg ip ilen s2.
Proof.
  unfold parseFloatString, floatTail.
  destruct (takeSign (trimStart s)) as [neg s1].
  destruct (String.prefix "Infinity" s1); [reflexivity|].
  destruct (takeDigits s1 0 0) as [[ip ilen] s2]. reflexivity.
Qed.

(** A text that starts with a digit parses to a number that is not
    negative. *)
Lemma parseFloatString_digit c x :
  isDigit c = true ->
  exists q, parseFloatString (String c x) = Fin q /\ (0 <= q)%Q.
Proof.
  intros Hc. rewrite parseFloatString_unfold.
  assert (takeSign (trimStart (String c x)) = (false, String c x)) as ->.
  { destruct c as [[] [] [] [] [] [] [] []]; try discriminate Hc; reflexivity. }
  assert (String.prefix "Infinity" (String c x) = false) as ->.
  { destruct c as [[] [] [] [] [] [] [] []]; try discriminate Hc; reflexivity. }
  destruct (takeDigits_bounds (String c x) 0 0%nat (Z.le_refl 0)) as [Hip Hlen].
  assert (1 <= snd (fst (takeDigits (String c x) 0 0)))%nat as Hone.
  { simpl. rewrite Hc.
    destruct (takeDigits_bounds x (10 * 0 + digitVal c) 1%nat) as [_ H];
      [pose proof (digitVal_nonneg c Hc); lia|exact H]. }
  destruct (takeDigits (String c x) 0 0) as [[ip ilen] s2]. simpl in *.
  apply floatTail_nonneg; assumption.
Qed.

Lemma no_hex_prefix {A} s (hexLower hexUpper : string -> A) (dec : A) :
  allDigits s = true ->
  match s with
  | String "0" (String "x" r) => hexLower r
  | String "0" (String "X" r) => hexUpper r
  | _ => dec
  end = dec.
Proof.
  intros H. destruct s as [|c s]; [reflexivity|].
  simpl in H. apply andb_prop in H as [Hc Hs].
  destruct c as [[] [] [] [] [] [] [] []]; try discriminate Hc; try reflexivity.
  destruct s as [|c2 s]; [reflexivity|].
  simpl in Hs. apply andb_prop in Hs as [Hc2 _].
  destruct c2 as [[] [] [] [] [] [] [] []]; try discriminate Hc2; reflexivity.
Qed.

(** A non-empty run of digits parses to an integer that is not negative. *)
Lemma parseIntString_digits c x :
  allDigits (String c x) = true ->
  exists q, parseIntString (String c x) = Fin q /\ (0 <= q)%Q.
Proof.
  intros Hall. pose proof Hall as Hc. simpl in Hc. apply andb_prop in Hc as [Hc _].
  unfold parseIntString.
  assert (takeSign (trimStart (String c x)) = (false, String c x)) as ->.
  { destruct c as [[] [] [] [] [] [] [] []]; try discriminate Hc; reflexivity. }
  rewrite (no_hex_prefix (String c x)) by exact Hall.
  destruct (takeDigits_bounds (String c x) 0 0%nat (Z.le_refl 0)) as [Hip _].
  assert (1 <= snd (fst (takeDigits (String c x) 0 0)))%nat as Hone.
  { simpl. rewrite Hc.
    destruct (takeDigits_bounds x (10 * 0 + digitVal c) 1%nat) as [_ H];
      [pose proof (digitVal_nonneg c Hc); lia|exact H]. }
  destruct (takeDigits (String c x) 0 0) as [[v len] rest]. simpl in *.
  destruct len; [lia|]. eexists. split; [reflexivity|].
  unfold Qle. simpl. lia.
Qed.

Lemma fromFirstDigit_Some s : forall r,
  fromFirstDigit s = Some r -> exists c r', r = String c r' /\ isDigit c = true.
Proof.
  induction s as [|c s IH]; intros r H; simpl in H; [discriminate|].
  destruct (isDigit c) eqn:E; [|apply IH; exact H].
  inversion H; subst r. eauto.
Qed.

Lemma digitRun_head c r :
  isDigit c = true -> fst (digitRun (String c r)) = String c (fst (digitRun r)).
Proof. intros H. simpl. rewrite H. destruct (digitRun r). reflexivity. Qed.

Lemma matchPrice_digit s g :
  matchPrice s = Some g -> exists c x, g = String c x /\ isDigit c = true.
Proof.
  unfold matchPrice. destruct (fromFirstDigit s) as [r|] eqn:Hr; [|discriminate].
  apply fromFirstDigit_Some in Hr as (c & r' & -> & Hc).
  pose proof (digitRun_head c r' Hc) as Hhead.
  destruct (digitRun (String c r')) as [ds rest]. simpl in Hhead. subst ds.
  intros H.
  assert (g = String c (fst (digitRun r')) \/
          exists tail, g = (String c (fst (digitRun r')) ++ tail)%string) as [->| [tail ->]].
  { destruct rest as [|c1 rest]; [left; simpl in H; congruence|].
    destruct c1 as [[] [] [] [] [] [] [] []]; try (left; simpl in H; congruence).
    destruct rest as [|a [|b rest]]; try (left; simpl in H; congruence).
    destruct (isDigit a && isDigit b).
    - right. inversion H. eexists. reflexivity.
    - left. congruence. }
  - eauto.
  - rewrite append_cons. eauto.
Qed.

Lemma matchDigits_digits s g :
  matchDigits s = Some g -> exists c x, g = String c x /\ allDigits g = true.
Proof.
  unfold matchDigits. destruct (fromFirstDigit s) as [r|] eqn:Hr; [|discriminate].
  apply fromFirstDigit_Some in Hr as (c & r' & -> & Hc).
  pose proof (digitRun_spec (String c r')) as [_ Hall].
  rewrite (digitRun_head c r' Hc) in *.
  intros H. assert (g = String c (fst (digitRun r'))) as -> by congruence.
  eexists _, _. split; [reflexivity|exact Hall].
Qed.

Lemma GolfNow_element_pageSlot e t : GolfNow_element e = Some t -> pageSlot t.
Proof.
  unfold GolfNow_element.
  destruct (option_map trim (timeNode e)) as [tx|]; [|discriminate].
  destruct (option_map trim (priceNode e)) as [px|]; [|discriminate].
  destruct (nonEmpty tx && nonEmpty px) eqn:Hne; [|discriminate].
  apply andb_prop in Hne as [Htx _].
  intros H. inversion H; subst t; clear H. unfold pageSlot. simpl.
  split; [eauto|]. split; [|split; [|split; [reflexivity|eauto]]].
  - destruct (matchPrice px) as [g|] eqn:Hg; [right|left; reflexivity].
    apply matchPrice_digit in Hg as (c & x & -> & Hc).
    destruct (parseFloatString_digit c x Hc) as (q & Hq & Hpos).
    exists q. simpl. rewrite Hq. auto.
  - destruct (match option_map trim (slotsNode e) with
              | Some st => matchDigits st
              | None => None
              end) as [g|] eqn:Hg.
    + assert (exists st, matchDigits st = Some g) as [st Hst].
      { destruct (option_map trim (slotsNode e)) as [st|]; [eauto|discriminate]. }
      apply matchDigits_digits in Hst as (c & x & -> & Hall).
      destruct (parseIntString_digits c x Hall) as (q & Hq & Hpos).
      exists q. simpl. rewrite Hq. auto.
    + exists (inject_Z 4). split; [reflexivity|]. unfold Qle. simpl. lia.
Qed.

Lemma pageSlot_clean t : pageSlot t -> cleanTeeTime t = true.
Proof.
  intros ((s & Hs & _) & Hp & (q & Hq & _) & Hh & (b & Hb)).
  unfold cleanTeeTime. rewrite Hs, Hq, Hh, Hb. simpl.
  destruct Hp as [->|(p & -> & _)]; reflexivity.
Qed.

Lemma GolfNow_extract_pageSlot elements : Forall pageSlot (GolfNow_extract elements).
Proof.
  induction elements as [|e r IH]; simpl; [constructor|].
  destruct (GolfNow_element e) as [t|] eqn:He; [|exact IH].
  constructor; [apply (GolfNow_element_pageSlot e t He)|exact IH].
Qed.

Lemma GolfNow_extract_roundtrip elements :
  jsonRoundTrip (GolfNow_extract elements) = GolfNow_extract elements.
Proof.
  apply jsonRoundTrip_clean.
  induction (GolfNow_extract_pageSlot elements) as [|t r Ht _ IH]; simpl; [reflexivity|].
  rewrite (pageSlot_clean t Ht), IH. reflexivity.
Qed.

(** X14.  Every slot read off the rendered page has a non-empty time
    text, a price that is [null] or a number that is not negative, a
    number of places that is not negative, no holes and a boolean deal
    flag; no more slots are read than elements were matched; and such
    slots come back from the cache exactly as they were stored.  (Numbers
    are exact here: a run of digits too long for a double is outside the
    model.) *)
Theorem golfnow_slots_well_formed elements :
  Forall pageSlot (GolfNow_extract elements) /\
  (length (GolfNow_extract elements) <= length elements)%nat /\
  jsonRoundTrip (GolfNow_extract elements) = GolfNow_extract elements.
Proof.
  split; [apply GolfNow_extract_pageSlot|].
  split; [|apply GolfNow_extract_roundtrip].
  induction elements as [|e r IH]; simpl; [lia|].
  destruct (GolfNow_element e); simpl; lia.
Qed.

Lemma cached_later key w w1 :
  cached key w = None -> redis w1 = redis w -> clock w <= clock w1 ->
  cached key w1 = None.
Proof.
  unfold cached. intros H Hr Hc. rewrite Hr.
  destruct (redis w !! key) as [e|]; [|reflexivity].
  destruct (clock w <? expiresAt e) eqn:Hlive; [discriminate|].
  apply Z.ltb_ge in Hlive.
  assert ((clock w1 <? expiresAt e) = false) as -> by (apply Z.ltb_ge; lia).
  reflexivity.
Qed.

(** X15.  The life of a GolfNow page on a cache miss, in both variants.
    Without a browser the scraper answers with the empty sequence and
    does nothing.  With a browser it opens one page and navigates, which
    is its one request.  When navigation and evaluation succeed the page
    is closed, and the slots read off it are lost when [redis.setex]
    throws; when either fails the page stays open.  In every case the
    answer is the empty sequence and the key stays unset. *)
Theorem golfnow_page_lifecycle v course date w :
  let key := cacheKeyOf "golfnow" course date in
  let url := bookingUrl course +:+ "?date=" +:+ date in
  let reply := pages w (length (requests w)) url in
  let closed := match navigation reply, document reply with
                | None, Normal _ => true
                | _, _ => false
                end in
  cached key w = None ->
  (browser w = false -> scrape v GolfNowScraper course date w = (Normal [], w)) /\
  (browser w = true ->
   exists w',
     scrape v GolfNowScraper course date w = (Normal [], w') /\
     openPages w' = (if closed then openPages w else S (openPages w)) /\
     requests w' = (requests w ++ [PageGoto url])%list /\
     cached key w' = None).
Proof.
  intros key url reply closed Hmiss. subst key url reply closed.
  rewrite (scrape_cacheAside v GolfNowScraper "golfnow") by reflexivity.
  rewrite cacheAside_miss by assumption.
  split; intros Hb.
  - destruct v; simpl;
      unfold Server.GolfNowScraper_onMiss, Part001.GolfNowScraper_onMiss;
      ops; run; repeat (rewrite ?Hb; simpl); reflexivity.
  - assert (forall w1, redis w1 = redis w -> clock w <= clock w1 ->
                       cached (cacheKeyOf "golfnow" course date) w1 = None) as Hstay.
    { intros w1 Hr Hc. eapply cached_later; eassumption. }
    destruct v; simpl;
      unfold Server.GolfNowScraper_onMiss, Part001.GolfNowScraper_onMiss;
      ops; run; repeat (rewrite ?Hb; simpl);
      (destruct (navigation _) as [e|] eqn:Hnav; simpl;
       [|destruct (document _) as [els|e] eqn:Hdoc; simpl]);
      (eexists; split; [reflexivity|]; split; [reflexivity|];
       split; [reflexivity|]; apply Hstay; simpl; [reflexivity|lia]).
Qed.

(** ** The course handler *)

(** X16.  [GET /api/courses/:id] answers with a course of the registry
    that carries the id asked for, never with another one and never with
    an error; it answers 404 exactly when no course of the registry has
    the id; and every course of the registry is served under its id. *)
Theorem course_handler_answers courseId :
  (forall c, Server.getCourse courseId = Ok c ->
             In c UTAH_COURSES /\ id c = courseId) /\
  (Server.getCourse courseId = NotFound <->
   ~ In courseId (List.map id UTAH_COURSES)) /\
  Server.getCourse courseId <> ServerError /\
  (forall c, In c UTAH_COURSES -> Server.getCourse (id c) = Ok c).
Proof.
  unfold Server.getCourse, findCourse. split; [|split; [|split]].
  - intros c H.
    destruct (List.find _ UTAH_COURSES) as [c'|] eqn:Hf; [|discriminate].
    inversion H; subst c'. apply List.find_some in Hf as [Hin Heq].
    apply String.eqb_eq in Heq. auto.
  - destruct (List.find _ UTAH_COURSES) as [c'|] eqn:Hf.
    + split; [discriminate|]. intros Hno. exfalso. apply Hno.
      apply List.find_some in Hf as [Hin Heq]. apply String.eqb_eq in Heq.
      rewrite <- Heq. apply List.in_map, Hin.
    + split; [|reflexivity]. intros _ Hin.
      apply List.in_map_iff in Hin as (c & Hid & Hin).
      pose proof (List.find_none _ _ Hf c Hin) as Hne. simpl in Hne.
      rewrite Hid, String.eqb_refl in Hne. discriminate.
  - destruct (List.find _ UTAH_COURSES); discriminate.
  - intros c Hin. rewrite (find_by_id UTAH_COURSES c registry_ids_distinct Hin).
    reflexivity.
Qed.

(** ** The bodies the normalisers accept *)

Section Normaliser.

Variable f : JsVal -> completion TeeTime.
Hypothesis f_null : forall r, nullish r = true -> f r = Throw TypeError.
Hypothesis f_record : forall r, nullish r = false -> exists t, f r = Normal t.

Lemma mapC_records items :
  if forallb (fun r => negb (nullish r)) items
  then exists ys, mapC f items = Normal ys /\ length ys = length items /\
                  Forall2 (fun r t => f r = Normal t) items ys
  else mapC f items = Throw TypeError.
Proof.
  induction items as [|r rest IH]; simpl.
  - exists []. repeat split. constructor.
  - unfold mbind, completion_bind.
    destruct (nullish r) eqn:Hr; simpl.
    + rewrite (f_null r Hr). reflexivity.
    + destruct (f_record r Hr) as [t Ht]. rewrite Ht.
      destruct (forallb (fun r => negb (nullish r)) rest).
      * destruct IH as (ys & -> & Hlen & Hall). exists (t :: ys).
        split; [reflexivity|]. split; [simpl; congruence|constructor; assumption].
      * rewrite IH. reflexivity.
Qed.

Lemma arrayMap_records v :
  match records v with
  | Some items =>
      exists ys, arrayMap f v = Normal ys /\ length ys = length items /\
                 Forall2 (fun r t => f r = Normal t) items ys
  | None => arrayMap f v = Throw TypeError
  end.
Proof.
  destruct v; simpl; try reflexivity.
  pose proof (mapC_records items) as H.
  destruct (forallb (fun r => negb (nullish r)) items); exact H.
Qed.

End Normaliser.

Lemma slot_throws slot k (g : JsVal -> completion TeeTime) :
  nullish slot = true -> (getProp slot k ≫= g) = Throw TypeError.
Proof. destruct slot; simpl; intros; congruence || reflexivity. Qed.

Lemma ForeUp_slot_null slot : nullish slot = true -> ForeUp_slot slot = Throw TypeError.
Proof. apply slot_throws. Qed.

Lemma Server_Chronogolf_slot_null slot :
  nullish slot = true -> Server.Chronogolf_slot slot = Throw TypeError.
Proof. apply slot_throws. Qed.

Lemma Part001_Chronogolf_slot_null slot :
  nullish slot = true -> Part001.Chronogolf_slot slot = Throw TypeError.
Proof. apply slot_throws. Qed.

Lemma filter_timed (mapped : list TeeTime) :
  Forall timed (List.filter (fun t => truthy (time t)) mapped) /\
  (length (List.filter (fun t => truthy (time t)) mapped) <= length mapped)%nat.
Proof.
  split; [|apply List.filter_length_le].
  apply List.Forall_forall. intros t Ht. apply List.filter_In in Ht as [_ Ht]. exact Ht.
Qed.

Lemma numbered_of (f : JsVal -> completion TeeTime) items ys :
  (forall r t, f r = Normal t -> numbered t) ->
  Forall2 (fun r t => f r = Normal t) items ys -> Forall numbered ys.
Proof.
  intros Hf H. induction H as [|r t items ys Hrt _ IH]; constructor; eauto.
Qed.

Lemma ForeUp_slot_numbered r t : ForeUp_slot r = Normal t -> numbered t.
Proof.
  unfold ForeUp_slot, mbind, completion_bind.
  destruct (getProp r "time"); [|discriminate].
  intros H. inversion H; subst t. unfold numbered. simpl.
  eexists _, _, _. repeat split.
Qed.

Lemma Server_Chronogolf_slot_numbered r t :
  Server.Chronogolf_slot r = Normal t -> numbered t.
Proof.
  unfold Server.Chronogolf_slot, mbind, completion_bind.
  destruct (getProp r "start_time"); [|discriminate].
  intros H. inversion H; subst t. unfold numbered. simpl.
  eexists _, _, _. repeat split.
Qed.

Lemma Part001_Chronogolf_slot_numbered r t :
  Part001.Chronogolf_slot r = Normal t -> numbered t.
Proof.
  unfold Part001.Chronogolf_slot, mbind, completion_bind.
  destruct (getProp r "start_time"); [|discriminate].
  intros H. inversion H; subst t. unfold numbered. simpl.
  eexists _, _, _. repeat split.
Qed.

Lemma Forall_filter_keeps {A} (P : A -> Prop) (keep : A -> bool) l :
  Forall P l -> Forall P (List.filter keep l).
Proof.
  intros H. apply List.Forall_forall. intros x Hx.
  apply List.filter_In in Hx as [Hx _].
  rewrite List.Forall_forall in H. apply H, Hx.
Qed.

(** X17.  Which bodies the three normalisers accept, and what they make
    of them.  ForeUp throws a type error on every body that is not an
    array or that holds a [null] or an [undefined] element.  Chronogolf
    in server.js throws on a [null] or [undefined] body, takes a body
    without [tee_times] for an empty day, and throws when [tee_times] is
    anything else that is not such an array.  Chronogolf in the second
    variant falls back to the body itself when [tee_times] is falsy, so
    that a bare array is read and an object without [tee_times] is a type
    error.  An array of records none of which holds an object with an own
    property [toString] is accepted: the numeric fields of every slot
    that comes out are set, server.js keeps every Chronogolf record, and
    where the source filters, every slot has a time.  (Of the arrays
    that hold such an object nothing is said: converting it to a string
    throws.) *)
Theorem normalisers_accept data :
  match records data with
  | Some items =>
      forallb noToString items = true ->
      exists ts, ForeUp_teeTimes data = Normal ts /\
                 (length ts <= length items)%nat /\
                 Forall timed ts /\ Forall numbered ts
  | None => ForeUp_teeTimes data = Throw TypeError
  end /\
  (if nullish data then Server.Chronogolf_teeTimes data = Throw TypeError
   else if nullish (getPropOpt data "tee_times")
   then Server.Chronogolf_teeTimes data = Normal []
   else match records (getPropOpt data "tee_times") with
        | Some items =>
            forallb noToString items = true ->
            exists ts, Server.Chronogolf_teeTimes data = Normal ts /\
                       length ts = length items /\ Forall numbered ts
        | None => Server.Chronogolf_teeTimes data = Throw TypeError
        end) /\
  (if nullish data then Part001.Chronogolf_teeTimes data = Throw TypeError
   else match records (getPropOpt data "tee_times" ||| data) with
        | Some items =>
            forallb noToString items = true ->
            exists ts, Part001.Chronogolf_teeTimes data = Normal ts /\
                       (length ts <= length items)%nat /\
                       Forall timed ts /\ Forall numbered ts
        | None => Part001.Chronogolf_teeTimes data = Throw TypeError
        end).
Proof.
  split; [|split].
  - pose proof (arrayMap_records ForeUp_slot ForeUp_slot_null ForeUp_slot_total data) as H.
    unfold ForeUp_teeTimes, mbind, completion_bind.
    destruct (records data) as [items|].
    + intros _. destruct H as (ys & -> & Hlen & Hall).
      destruct (filter_timed ys) as [Ht Hle].
      eexists. split; [reflexivity|]. split; [lia|]. split; [exact Ht|].
      apply Forall_filter_keeps.
      exact (numbered_of _ _ _ ForeUp_slot_numbered Hall).
    + rewrite H. reflexivity.
  - destruct (nullish data) eqn:Hd.
    { destruct data; try discriminate; reflexivity. }
    unfold Server.Chronogolf_teeTimes. rewrite (getProp_record _ _ Hd).
    unfold mbind, completion_bind.
    pose proof (arrayMap_records Server.Chronogolf_slot Server_Chronogolf_slot_null
                  Server_Chronogolf_slot_total (getPropOpt data "tee_times")) as H.
    destruct (getPropOpt data "tee_times") as [| |b|n|s|items|fs] eqn:Ht;
      simpl nullish; cbv iota; try reflexivity;
      try (simpl records in *; exact H).
    destruct (records (JArr items)) as [its|]; [|exact H].
    intros _. destruct H as (ys & Hys & Hlen & Hall).
    exists ys. split; [exact Hys|]. split; [exact Hlen|].
    exact (numbered_of _ _ _ Server_Chronogolf_slot_numbered Hall).
  - destruct (nullish data) eqn:Hd.
    { destruct data; try discriminate; reflexivity. }
    unfold Part001.Chronogolf_teeTimes. rewrite (getProp_record _ _ Hd).
    unfold mbind, completion_bind.
    pose proof (arrayMap_records Part001.Chronogolf_slot Part001_Chronogolf_slot_null
                  Part001_Chronogolf_slot_total (getPropOpt data "tee_times" ||| data)) as H.
    destruct (records (getPropOpt data "tee_times" ||| data)) as [items|].
    + intros _. destruct H as (ys & -> & Hlen & Hall).
      destruct (filter_timed ys) as [Ht Hle].
      eexists. split; [reflexivity|]. split; [lia|]. split; [exact Ht|].
      apply Forall_filter_keeps.
      exact (numbered_of _ _ _ Part001_Chronogolf_slot_numbered Hall).
    + rewrite H. reflexivity.
Qed.

(** ** What the batch handler does to the world *)

Lemma runs_batchEntry date course : runs 1 (batchEntry date course).
Proof.
  unfold batchEntry. change 1%nat with (1 + 0)%nat.
  apply runs_bind; [apply runs_Part001_resolve|]. intros t. apply runs_ret.
Qed.

(** X18.  The batch handler never answers with an error and sends at
    most one request for each id it finds in the registry: ids that are
    not in the registry, or are no strings, cost nothing, and a batch
    without a known id leaves the world as it is.  The browser handle and
    the cache invariant are kept. *)
Theorem batch_requests courses courseIds bodyDate w :
  let found := omap (Part001.findIn courses) courseIds in
  exists body w',
    Part001.batchIn courses courseIds bodyDate w = (Normal (Ok body), w') /\
    (length found <= length courseIds)%nat /\
    (length (requests w') <= length (requests w) + length found)%nat /\
    browser w' = browser w /\
    (cacheInv w -> cacheInv w') /\
    (found = [] -> w' = w).
Proof.
  intros found.
  destruct (batch_settled courses (dayOf bodyDate w) courseIds w)
    as (entries & w' & Hent & results & Hres & Hom).
  fold found in Hent.
  destruct (runs_mapM 1 (batchEntry (dayOf bodyDate w)) found
              (runs_batchEntry (dayOf bodyDate w)) w)
    as (entries' & w'' & Hrun & Hstep & Hlen).
  rewrite Hent in Hrun. inversion Hrun; subst entries' w''; clear Hrun.
  exists {| Part001.data := entries; Part001.date := dayOf bodyDate w;
            Part001.totalCourses := length entries |}, w'.
  split.
  { unfold Part001.batchIn, tryCatch, mbind, M_bind.
    destruct bodyDate as [d|]; unfold today, mret, M_ret, dayOf in *;
      rewrite Hres, Hom; reflexivity. }
  split.
  { subst found. clear. induction courseIds as [|c r IH]; [simpl; lia|].
    rewrite omap_cons. destruct (Part001.findIn courses c); simpl; lia. }
  split; [lia|]. split; [apply step_browser, Hstep|].
  split; [apply step_cacheInv, Hstep|].
  intros Hnone. rewrite Hnone in Hent. inversion Hent. reflexivity.
Qed.

(** ** Instances of the further properties *)

Lemma scrape_cache_effect_witness :
  redis (snd (scrape ServerJs ForeUpScraper bonneville "2024-06-01" priced))
    !! "golfnow:river-oaks:2024-06-01"
  = redis priced !! "golfnow:river-oaks:2024-06-01".
Proof.
  destruct (scrape_cache_effect ServerJs ForeUpScraper "foreup" bonneville
              "2024-06-01" priced eq_refl) as [_ Hothers].
  apply Hothers. vm_compute. discriminate.
Defined.

Lemma scrape_frame_witness :
  openPages (snd (scrape ServerJs ForeUpScraper bonneville "2024-06-01" priced))
  = openPages priced.
Proof.
  destruct (scrape_frame ServerJs ForeUpScraper bonneville "2024-06-01" priced)
    as (_ & _ & Hpages & _).
  apply Hpages. discriminate.
Defined.

Lemma search_answers_in_registry_order_witness :
  exists body w',
    Server.search None None None priced = (Normal (Ok body), w') /\
    cacheInv w'.
Proof.
  destruct (search_answers_in_registry_order UTAH_COURSES None None None priced)
    as (body & w' & Hrun & _ & _ & _ & _ & Hinv).
  exists body, w'. split; [exact Hrun|].
  apply Hinv. intros k e Hk. vm_compute in Hk. discriminate.
Defined.

Lemma scheduled_jobs_complete_witness :
  (exists w', Server.cacheWarming priced = (Normal tt, w') /\ cacheInv w') /\
  (exists w', Part001.scheduledUpdate priced = (Normal tt, w') /\ cacheInv w').
Proof.
  assert (cacheInv priced) as Hinv
    by (intros k e Hk; vm_compute in Hk; discriminate).
  destruct (scheduled_jobs_complete UTAH_COURSES priced)
    as [(w1 & Hrun1 & _ & _ & Hinv1) (w2 & Hrun2 & _ & _ & Hinv2)].
  split; [exists w1|exists w2]; split; auto.
Defined.

Lemma tee_time_handlers_answer_witness :
  Server.getTeeTimes "nowhere" None priced = (Normal NotFound, priced) /\
  Part001.getCourseTeeTimes "nowhere" None priced = (Normal NotFound, priced) /\
  id bonneville = "bonneville".
Proof.
  destruct (tee_time_handlers_answer "nowhere" None priced) as [Hmissing _].
  destruct (tee_time_handlers_answer "bonneville" None priced) as [_ Hfound].
  destruct (Hmissing eq_refl) as [Hserver Hpart].
  destruct (Hfound bonneville eq_refl) as (Hid & _).
  repeat split; assumption.
Defined.

Lemma refresh_handler_answers_witness :
  Server.refresh "nowhere" None priced = (Normal NotFound, priced) /\
  Server.refresh "bonneville" (Some "2024-06-01") readOnly
  = (Normal ServerError, readOnly) /\
  exists w',
    Server.refresh "bonneville" (Some "2024-06-01") warm
    = (Normal (Ok {| Server.tt_course := bonneville; Server.tt_date := "2024-06-01";
                     Server.tt_teeTimes := [] |}), w') /\
    redis w' = delete "foreup:bonneville:2024-06-01" (redis warm) /\
    cacheInv w'.
Proof.
  destruct (refresh_handler_answers "nowhere" None priced) as [Hmissing _].
  destruct (refresh_handler_answers "bonneville" (Some "2024-06-01") readOnly)
    as [_ Hrejected].
  destruct (refresh_handler_answers "bonneville" (Some "2024-06-01") warm)
    as [_ Htaken].
  split; [exact (Hmissing eq_refl)|]. split; [exact (Hrejected bonneville eq_refl)|].
  destruct (Htaken bonneville eq_refl) as (teeTimes & w' & Hrun & _ & Hredis & Hinv & Hempty).
  rewrite (Hempty (ex_intro _ "foreup" eq_refl)) in Hrun.
  exists w'. split; [exact Hrun|]. split; [exact Hredis|].
  apply Hinv. intros k e Hk.
  destruct (decide (k = "foreup:bonneville:2024-06-01")) as [->|Hne].
  - vm_compute in Hk. inversion Hk. split; [vm_compute; discriminate|reflexivity].
  - unfold warm in Hk. simpl in Hk. rewrite lookup_singleton_ne in Hk by congruence.
    discriminate.
Defined.

Lemma refresh_then_resolve_witness :
  exists w1 w2,
    Server.refreshCourse bonneville "2024-06-01" warm = (Normal [], w1) /\
    requests w1 = [bonnevilleRequest] /\
    cached "foreup:bonneville:2024-06-01" (elapse 60 w1) = None /\
    Server.resolve bonneville "2024-06-01" (elapse 60 w1) = (Normal [], w2) /\
    requests w2 = [bonnevilleRequest; bonnevilleRequest].
Proof.
  assert (0 <= 60) as Hdt by lia.
  destruct (refresh_then_resolve bonneville "2024-06-01" "foreup" warm 60
              eq_refl eq_refl Hdt) as (w1 & w2 & Hrun & Hreq & Hmiss & Hres & Hreq2).
  exists w1, w2. split; [exact Hrun|]. split; [exact Hreq|]. split; [exact Hmiss|].
  split; [exact Hres|]. rewrite Hreq2, Hreq. reflexivity.
Defined.

Lemma keepTime_loosen_witness :
  Server.keepTime (IsNum (Fin (inject_Z 60))) (Fin (inject_Z 1))
    {| time := JStr "7:00 AM"; price := lit 45; availableSlots := lit 4;
       holes := lit 18; isHotDeal := JBool false |} = true /\
  Server.keepTime IsNull (Fin (inject_Z 1))
    {| time := JStr "7:00 AM"; price := lit 45; availableSlots := lit 4;
       holes := lit 18; isHotDeal := JBool false |} = true.
Proof.
  apply (keepTime_loosen (inject_Z 50) (inject_Z 60) (inject_Z 2) (inject_Z 1)).
  - unfold Qeq. simpl. lia.
  - unfold Qle. simpl. lia.
  - unfold Qle. simpl. lia.
  - reflexivity.
Defined.

Lemma cacheKeyOf_injective_witness :
  "foreup" = "foreup" /\ id bonneville = id bonneville /\ "2024-06-01" = "2024-06-01".
Proof.
  exact (cacheKeyOf_injective "foreup" "foreup" bonneville bonneville
           "2024-06-01" "2024-06-01" eq_refl eq_refl eq_refl eq_refl eq_refl).
Defined.

Lemma find_course_by_id_witness :
  Part001.findIn UTAH_COURSES (JStr (id meadowbrook)) = Some meadowbrook /\
  findCourse (id riverOaks) = Some riverOaks.
Proof.
  destruct (find_course_by_id UTAH_COURSES) as (Hfind & _ & Hdistinct & Hregistry).
  split.
  - apply (Hfind Hdistinct). simpl. auto 10.
  - apply Hregistry. simpl. auto 10.
Defined.

Lemma foreup_locator_witness :
  includes ("booking/" +:+ "20287" +:+ "/" +:+ "5495") (bookingUrl bonneville) = true /\
  is_Some (matchBooking ("https://foreupsoftware.com/index.php/"
                         +:+ "booking/" +:+ "1" +:+ "/" +:+ "2" +:+ "#teetimes")) /\
  ForeUpScraper_scrapeTeeTimes soldierHollow "2024-06-01" priced = (Normal [], priced).
Proof.
  destruct foreup_locator as (Hsound & Hcomplete & Hnone).
  destruct (Hsound (bookingUrl bonneville) "20287" "5495" eq_refl)
    as (_ & _ & _ & _ & Hin).
  split; [exact Hin|]. split.
  - apply Hcomplete; reflexivity.
  - apply Hnone; reflexivity.
Defined.

Lemma chronogolf_locator_witness :
  includes ("course/" +:+ "meadowbrook-golf-course") (bookingUrl meadowbrook) = true /\
  is_Some (matchCourse ("https://www.chronogolf.com/" +:+ "course/" +:+ "glendale"
                        +:+ "?tab=teetimes")) /\
  scrape ServerJs ChronogolfScraper soldierHollow "2024-06-01" priced
  = (Normal [], priced).
Proof.
  destruct chronogolf_locator as (Hsound & Hcomplete & Hnone).
  destruct (Hsound (bookingUrl meadowbrook) "meadowbrook-golf-course" eq_refl)
    as (_ & _ & Hin).
  split; [exact Hin|]. split.
  - apply Hcomplete; reflexivity.
  - apply Hnone; reflexivity.
Defined.

Lemma golfnow_page_lifecycle_witness :
  (exists w',
      scrape ServerJs GolfNowScraper riverOaks "2024-06-01" stalled = (Normal [], w') /\
      openPages w' = 1%nat /\
      cached (cacheKeyOf "golfnow" riverOaks "2024-06-01") w' = None) /\
  (exists w',
      scrape ServerJs GolfNowScraper riverOaks "2024-06-01" priced = (Normal [], w') /\
      openPages w' = 0%nat /\
      cached (cacheKeyOf "golfnow" riverOaks "2024-06-01") w' = None).
Proof.
  destruct (golfnow_page_lifecycle ServerJs riverOaks "2024-06-01" stalled eq_refl)
    as [_ Hstalled].
  destruct (golfnow_page_lifecycle ServerJs riverOaks "2024-06-01" priced eq_refl)
    as [_ Hpriced].
  destruct (Hstalled eq_refl) as (w1 & Hrun1 & Hpages1 & _ & Hcache1).
  destruct (Hpriced eq_refl) as (w2 & Hrun2 & Hpages2 & _ & Hcache2).
  split; [exists w1|exists w2]; (split; [assumption|split; assumption]).
Defined.

Lemma normalisers_accept_witness :
  (exists ts, ForeUp_teeTimes foreUpBody = Normal ts /\ Forall timed ts) /\
  (exists ts, Server.Chronogolf_teeTimes chronogolfBody = Normal ts /\
              length ts = 2%nat) /\
  (exists ts, Part001.Chronogolf_teeTimes chronogolfBody = Normal ts /\
              Forall timed ts).
Proof.
  destruct (normalisers_accept foreUpBody) as (Hforeup & _ & _).
  destruct (normalisers_accept chronogolfBody) as (_ & Hserver & Hpart).
  destruct (Hforeup eq_refl) as (ts1 & Hrun1 & _ & Htimed1 & _).
  destruct (Hserver eq_refl) as (ts2 & Hrun2 & Hlen2 & _).
  destruct (Hpart eq_refl) as (ts3 & Hrun3 & _ & Htimed3 & _).
  split; [exists ts1; auto|]. split; [exists ts2; auto|exists ts3; auto].
Defined.

Lemma course_handler_answers_witness :
  In bonneville UTAH_COURSES /\ id bonneville = "bonneville".
Proof.
  destruct (course_handler_answers "bonneville") as (Hfound & _).
  apply Hfound. reflexivity.
Defined.

Lemma batch_requests_witness :
  exists body,
    Part001.batch [JStr "nowhere"; num 7] None priced = (Normal (Ok body), priced).
Proof.
  destruct (batch_requests UTAH_COURSES [JStr "nowhere"; num 7] None priced)
    as (body & w' & Hrun & _ & _ & _ & _ & Hsame).
  exists body. rewrite (Hsame eq_refl) in Hrun. exact Hrun.
Defined.
